(** * StoryToVideo server: the task orchestration engine

    A shallow embedding of the Go server's task engine: the [task] and
    [shot] tables of package [models], the poll cancellation registry, the
    dispatcher, the poll loop, the result router and the queue handler of
    package [service], and the cancellation pass of package [api].

    Conventions of the embedding.
    - Go strings are [string]; Go [int] values are [Z]; a [time.Time] is a
      [Z] whose value [0] stands for the zero time.
    - A pointer that may be [nil] is an [option]; a nullable SQL column is
      an [option] too.
    - A Go [error] is the text its [Error()] method returns, together with
      a flag telling whether it wraps [asynq.SkipRetry].
    - The MySQL tables are finite maps from the primary key to a row.  The
      JSON columns hold the Go value itself: the structs involved contain
      only strings, integers, booleans and pointers to such structs, which
      [encoding/json] writes and reads back unchanged.
    - Names are the source's.  Where two structs share a field name the
      field carries the struct's name in front ([Task_ID], [Shot_ID],
      [raw_ID]); the struct [Shot] is [ShotT], [Shot] being the field of
      [TaskParameters].
    - Everything the process receives from outside (HTTP responses, the
      case a [select] statement picks, what other goroutines do while the
      handler waits, generated uuids, object-storage answers, the outcome of
      [time.Parse]) is an explicit input.  The SQL connection itself is
      taken to work: a statement fails only for the reason the data gives
      (no such row, duplicate key). *)

From stdpp Require Import gmap strings list fin_maps pretty.
From Stdlib Require Import ZArith.

Open Scope Z_scope.
Open Scope string_scope.

(** ** Go values shared by the packages *)

Definition Time := Z.

Definition zeroTime : Time := 0.

(** [t.IsZero()] *)
Definition IsZero (t : Time) : bool := bool_decide (t = zeroTime).

(** A Go [error]: the message, and whether [errors.Is(err, asynq.SkipRetry)]. *)
Record error := mkError {
  Error : string;
  wrapsSkipRetry : bool
}.

(** [fmt.Errorf(msg)] and [errors.New(msg)]: a plain message. *)
Definition Errorf (msg : string) : error :=
  {| Error := msg; wrapsSkipRetry := false |}.

(** The result of a Go function returning [(A, error)]. *)
Inductive res (A : Type) : Type :=
| Ok (a : A)
| Fail (e : error).
Arguments Ok {A} a.
Arguments Fail {A} e.

(** A JSON value as [encoding/json] decodes it into [interface{}]. *)
#[local] Unset Elimination Schemes.
Inductive JValue : Type :=
| JNull
| JBool (b : bool)
| JNumber (n : Z)
| JString (s : string)
| JArray (items : list JValue)
| JObject (fields : list (string * JValue)).
#[local] Set Elimination Schemes.

(** The type assertion [v.(string)] on a map entry: [m[key].(string)]. *)
Definition asString (v : option JValue) : option string :=
  match v with
  | Some (JString s) => Some s
  | _ => None
  end.

(** The outcome of [time.Parse(layout, value)], supplied by the Go runtime. *)
Class TimeParser := time_Parse : string -> string -> option Time.

Module models.

(** *** Constants of [models] *)

Definition TaskStatusPending := "pending".
Definition TaskStatusBlocked := "blocked".
Definition TaskStatusProcessing := "processing".
Definition TaskStatusSuccess := "finished".
Definition TaskStatusFailed := "failed".
Definition TaskStatusCancelled := "cancelled".

Definition TaskTypeStoryboard := "generate_storyboard".
Definition TaskTypeShotImage := "generate_shot".
Definition TaskTypeProjectAudio := "generate_audio".
Definition TaskTypeVideoGen := "generate_video".

Definition ShotStatusPending := "pending".
Definition ShotStatusProcessing := "processing".
Definition ShotStatusCompleted := "completed".
Definition ShotStatusFailed := "failed".

(** *** Structs *)

Record ShotDefaultsParams := {
  ShotCount : Z;
  SD_Style : string;
  StoryText : string
}.

Record ShotParams := {
  SP_Transition : string;
  SP_ShotId : string;
  ImageWidth : string;
  ImageHeight : string;
  SP_Prompt : string;
  SP_Style : string;
  ImageLLM : string;
  GenerateTTS : bool
}.

Record VideoParams := {
  Resolution : string;
  FPS : Z;
  VP_Format : string;
  Bitrate : Z
}.

Record TTSParams := {
  Voice : string;
  Lang : string;
  SampleRate : Z;
  TTS_Format : string
}.

Record TaskParameters := {
  ShotDefaults : option ShotDefaultsParams;
  Shot : option ShotParams;
  Video : option VideoParams;
  TTS : option TTSParams;
  DependsOn : list string
}.

Record TaskResult := {
  ResourceType : string;
  ResourceId : string;
  ResourceUrl : string
}.

Record Task := {
  Task_ID : string;
  Task_ProjectId : string;
  Task_ShotId : string;
  Task_Type : string;
  Task_Status : string;
  Task_Progress : Z;
  Task_Message : string;
  Task_Parameters : TaskParameters;
  Task_Result : TaskResult;
  Task_Error : string;
  Task_EstimatedDuration : Z;
  Task_StartedAt : Time;
  Task_FinishedAt : Time;
  Task_CreatedAt : Time;
  Task_UpdatedAt : Time
}.

Record ShotT := {
  Shot_ID : string;
  Shot_ProjectId : string;
  Shot_Order : Z;
  Shot_Title : string;
  Shot_Description : string;
  Shot_Prompt : string;
  Shot_Status : string;
  Shot_ImagePath : string;
  Shot_AudioPath : string;
  Shot_Transition : string;
  Shot_CreatedAt : Time;
  Shot_UpdatedAt : Time
}.

(** [TaskParameters{}] and [TaskResult{}] *)
Definition emptyParameters : TaskParameters :=
  {| ShotDefaults := None; Shot := None; Video := None; TTS := None;
     DependsOn := [] |}.

Definition emptyResult : TaskResult :=
  {| ResourceType := ""; ResourceId := ""; ResourceUrl := "" |}.

(** *** Rows of the tables *)

(** A row of table [task]; the key [id] is the key of the map. *)
Record TaskRow := {
  row_project_id : string;
  row_shot_id : option string;
  row_type : string;
  row_status : string;
  row_progress : Z;
  row_message : option string;
  row_parameters : TaskParameters;
  row_result : TaskResult;
  row_error : option string;
  row_estimated_duration : Z;
  row_started_at : option Time;
  row_finished_at : option Time;
  row_created_at : Time;
  row_updated_at : Time
}.

(** A row of table [shot]: the mapped struct and the [video_url] column,
    which the video branch of the result router writes and no struct
    field reads. *)
Record ShotRow := {
  shot_fields : ShotT;
  shot_video_url : option string
}.

(** An [UPDATE task SET ... WHERE id = ?] statement: the columns it sets. *)
Record TaskUpdate := {
  upd_id : string;
  upd_status : option string;
  upd_progress : option Z;
  upd_message : option string;
  upd_result : option TaskResult;
  upd_error : option string;
  upd_started_at : option Time;
  upd_finished_at : option Time;
  upd_updated_at : Time
}.

(** *** The database *)

(** The tables the engine touches.  Of table [project] only the set of
    existing ids is read.  [sql_log] records, in order, every [UPDATE]
    statement issued on table [task]. *)
Record DB := {
  task_table : gmap string TaskRow;
  shot_table : gmap string ShotRow;
  project_table : gset string;
  sql_log : list TaskUpdate
}.

Definition set_task_table (f : gmap string TaskRow -> gmap string TaskRow)
    (d : DB) : DB :=
  {| task_table := f (task_table d); shot_table := shot_table d;
     project_table := project_table d; sql_log := sql_log d |}.

Definition set_shot_table (f : gmap string ShotRow -> gmap string ShotRow)
    (d : DB) : DB :=
  {| task_table := task_table d; shot_table := f (shot_table d);
     project_table := project_table d; sql_log := sql_log d |}.

(** The driver's error for a failed statement, abbreviated to its code. *)
Definition mysqlError (code : Z) : error := Errorf ("Error " +:+ pretty code).

(** [gorm.ErrRecordNotFound], [gorm.ErrMissingWhereClause], [sql.ErrNoRows] *)
Definition ErrRecordNotFound : error := Errorf "record not found".
Definition ErrMissingWhereClause : error := Errorf "WHERE conditions required".
Definition ErrNoRows : error := Errorf "sql: no rows in result set".

(** The effect of an [UPDATE] on the row it selects. *)
Definition applyTaskUpdate (u : TaskUpdate) (r : TaskRow) : TaskRow :=
  {| row_project_id := row_project_id r;
     row_shot_id := row_shot_id r;
     row_type := row_type r;
     row_status := default (row_status r) (upd_status u);
     row_progress := default (row_progress r) (upd_progress u);
     row_message :=
       match upd_message u with Some m => Some m | None => row_message r end;
     row_parameters := row_parameters r;
     row_result := default (row_result r) (upd_result u);
     row_error :=
       match upd_error u with Some e => Some e | None => row_error r end;
     row_estimated_duration := row_estimated_duration r;
     row_started_at :=
       match upd_started_at u with
       | Some t => Some t | None => row_started_at r end;
     row_finished_at :=
       match upd_finished_at u with
       | Some t => Some t | None => row_finished_at r end;
     row_created_at := row_created_at r;
     row_updated_at := upd_updated_at u |}.

(** [DB.Exec] of an [UPDATE task ... WHERE id = ?]: the row with that id,
    if there is one, is rewritten; the statement succeeds either way. *)
Definition execTaskUpdate (u : TaskUpdate) (d : DB) : DB :=
  {| task_table := alter (applyTaskUpdate u) (upd_id u) (task_table d);
     shot_table := shot_table d;
     project_table := project_table d;
     sql_log := sql_log d ++ [u] |}.

(** *** db.go *)

(** [CreateTask]: the [INSERT] lists every column except [shot_id], which
    therefore stays [NULL]; zero start and finish times are passed as
    [nil].  [now] is [time.Now()]. *)
Definition CreateTask (now : Time) (t : Task) (d : DB) : DB * option error :=
  let startedAtParam :=
    if IsZero (Task_StartedAt t) then None else Some (Task_StartedAt t) in
  let finishedAtParam :=
    if IsZero (Task_FinishedAt t) then None else Some (Task_FinishedAt t) in
  match task_table d !! Task_ID t with
  | Some _ => (d, Some (mysqlError 1062))
  | None =>
      (set_task_table
         (insert (Task_ID t)
            {| row_project_id := Task_ProjectId t;
               row_shot_id := None;
               row_type := Task_Type t;
               row_status := Task_Status t;
               row_progress := Task_Progress t;
               row_message := Some (Task_Message t);
               row_parameters := Task_Parameters t;
               row_result := Task_Result t;
               row_error := Some (Task_Error t);
               row_estimated_duration := Task_EstimatedDuration t;
               row_started_at := startedAtParam;
               row_finished_at := finishedAtParam;
               row_created_at := now;
               row_updated_at := now |}) d,
       None)
  end.

(** [GetTaskByID]: [shot_id] is scanned into a local [sql.NullString] that
    is never copied into the struct, so [ShotId] keeps its zero value. *)
Definition GetTaskByID (id : string) (d : DB) : res Task :=
  match task_table d !! id with
  | None => Fail ErrNoRows
  | Some r =>
      Ok {| Task_ID := id;
            Task_ProjectId := row_project_id r;
            Task_ShotId := "";
            Task_Type := row_type r;
            Task_Status := row_status r;
            Task_Progress := row_progress r;
            Task_Message := default "" (row_message r);
            Task_Parameters := row_parameters r;
            Task_Result := row_result r;
            Task_Error := default "" (row_error r);
            Task_EstimatedDuration := row_estimated_duration r;
            Task_StartedAt := default zeroTime (row_started_at r);
            Task_FinishedAt := default zeroTime (row_finished_at r);
            Task_CreatedAt := row_created_at r;
            Task_UpdatedAt := row_updated_at r |}
  end.

(** [UpdateTaskStatus]: the [SET] list is built from the arguments that
    are present; with none present only [updated_at] is written. *)
Definition UpdateTaskStatus (now : Time) (id : string) (status : string)
    (progress : option Z) (message : option string)
    (result : option TaskResult) (errStr : option string)
    (startedAt finishedAt : option Time) (d : DB) : DB :=
  execTaskUpdate
    {| upd_id := id;
       upd_status := if decide (status = "") then None else Some status;
       upd_progress := progress;
       upd_message := message;
       upd_result := result;
       upd_error := errStr;
       upd_started_at := startedAt;
       upd_finished_at := finishedAt;
       upd_updated_at := now |} d.

(** *** task.go *)

(** [Task.UpdateStatus]: always sets [status] and [updated_at]; sets
    [result] when the argument is not [nil] and [error] when the message
    is not empty.  [db.Model(t)] selects the row by the struct's primary
    key and refuses a zero key. *)
Definition UpdateStatus (now : Time) (t : Task) (status : string)
    (result : option TaskResult) (errMsg : string) (d : DB)
    : DB * option error :=
  if decide (Task_ID t = "") then (d, Some ErrMissingWhereClause)
  else
    (execTaskUpdate
       {| upd_id := Task_ID t;
          upd_status := Some status;
          upd_progress := None;
          upd_message := None;
          upd_result := result;
          upd_error := if decide (errMsg = "") then None else Some errMsg;
          upd_started_at := None;
          upd_finished_at := None;
          upd_updated_at := now |} d,
     None).

(** [GetTaskByIDGorm]: [db.First] maps every column to its field; a
    [NULL] column leaves the field at its zero value. *)
Definition GetTaskByIDGorm (d : DB) (taskID : string) : res Task :=
  match task_table d !! taskID with
  | None => Fail ErrRecordNotFound
  | Some r =>
      Ok {| Task_ID := taskID;
            Task_ProjectId := row_project_id r;
            Task_ShotId := default "" (row_shot_id r);
            Task_Type := row_type r;
            Task_Status := row_status r;
            Task_Progress := row_progress r;
            Task_Message := default "" (row_message r);
            Task_Parameters := row_parameters r;
            Task_Result := row_result r;
            Task_Error := default "" (row_error r);
            Task_EstimatedDuration := row_estimated_duration r;
            Task_StartedAt := default zeroTime (row_started_at r);
            Task_FinishedAt := default zeroTime (row_finished_at r);
            Task_CreatedAt := row_created_at r;
            Task_UpdatedAt := row_updated_at r |}
  end.

(** *** shot.go *)

Definition newShotRow (s : ShotT) : ShotRow :=
  {| shot_fields := s; shot_video_url := None |}.

(** [BatchCreateShots]: one multi-row [INSERT]; it fails as a whole when
    a primary key is already taken or occurs twice in the batch. *)
Definition BatchCreateShots (shots : list ShotT) (d : DB) : DB * option error :=
  match shots with
  | [] => (d, None)
  | _ =>
      if bool_decide (NoDup (Shot_ID <$> shots)) &&
         forallb (fun s => bool_decide (shot_table d !! Shot_ID s = None)) shots
      then
        (set_shot_table
           (fun tbl =>
              foldl (fun acc s => <[Shot_ID s := newShotRow s]> acc) tbl shots)
           d,
         None)
      else (d, Some (mysqlError 1062))
  end.

Definition GetShotByIDGorm (d : DB) (shotID : string) : res ShotT :=
  match shot_table d !! shotID with
  | None => Fail ErrRecordNotFound
  | Some r => Ok (shot_fields r)
  end.

Definition withImage (now : Time) (imagePath : string) (s : ShotT) : ShotT :=
  {| Shot_ID := Shot_ID s; Shot_ProjectId := Shot_ProjectId s;
     Shot_Order := Shot_Order s; Shot_Title := Shot_Title s;
     Shot_Description := Shot_Description s; Shot_Prompt := Shot_Prompt s;
     Shot_Status := ShotStatusCompleted;
     Shot_ImagePath := imagePath;
     Shot_AudioPath := Shot_AudioPath s;
     Shot_Transition := Shot_Transition s;
     Shot_CreatedAt := Shot_CreatedAt s;
     Shot_UpdatedAt := now |}.

(** [Shot.UpdateImage]: sets [image_path], [status] and [updated_at]
    of the row whose key is the struct's. *)
Definition UpdateImage (now : Time) (s : ShotT) (imagePath : string) (d : DB)
    : DB * option error :=
  if decide (Shot_ID s = "") then (d, Some ErrMissingWhereClause)
  else
    (set_shot_table
       (alter
          (fun r => {| shot_fields := withImage now imagePath (shot_fields r);
                       shot_video_url := shot_video_url r |})
          (Shot_ID s)) d,
     None).

End models.

Module service.
Import models.

(** *** Process state *)

(** A context made by [context.WithCancel], named by a number; its
    [CancelFunc] is the act of adding that number to [cancelled]. *)
Definition Ctx := nat.

(** The state the engine's goroutines share: the database, the poll
    cancellation registry, the contexts whose [CancelFunc] has been
    called, the task ids handed to the queue, and the wall clock. *)
Record World := {
  db : DB;
  pollCancelRegistry : gmap string Ctx;
  cancelled : gset Ctx;
  next_ctx : Ctx;
  queue : list string;
  clock : Time
}.

Definition set_db (f : DB -> DB) (w : World) : World :=
  {| db := f (db w); pollCancelRegistry := pollCancelRegistry w;
     cancelled := cancelled w; next_ctx := next_ctx w;
     queue := queue w; clock := clock w |}.

Definition set_registry (f : gmap string Ctx -> gmap string Ctx)
    (w : World) : World :=
  {| db := db w; pollCancelRegistry := f (pollCancelRegistry w);
     cancelled := cancelled w; next_ctx := next_ctx w;
     queue := queue w; clock := clock w |}.

(** Calling the [CancelFunc] of context [c]. *)
Definition cancel (c : Ctx) (w : World) : World :=
  {| db := db w; pollCancelRegistry := pollCancelRegistry w;
     cancelled := {[c]} ∪ cancelled w; next_ctx := next_ctx w;
     queue := queue w; clock := clock w |}.

(** [context.WithCancel(ctx)]: a fresh context. *)
Definition WithCancel (w : World) : Ctx * World :=
  (next_ctx w,
   {| db := db w; pollCancelRegistry := pollCancelRegistry w;
      cancelled := cancelled w; next_ctx := S (next_ctx w);
      queue := queue w; clock := clock w |}).

(** *** queue.go *)

(** [EnqueueTask]: the task id is handed to the queue. *)
Definition EnqueueTask (taskID : string) (w : World) : World :=
  {| db := db w; pollCancelRegistry := pollCancelRegistry w;
     cancelled := cancelled w; next_ctx := next_ctx w;
     queue := queue w ++ [taskID]; clock := clock w |}.

(** *** The poll cancellation registry *)

Definition RegisterPollCancel (taskID : string) (c : Ctx) (w : World) : World :=
  set_registry (insert taskID c) w.

Definition UnregisterPollCancel (taskID : string) (w : World) : World :=
  set_registry (delete taskID) w.

Definition CancelPollTask (taskID : string) (w : World) : World * bool :=
  match pollCancelRegistry w !! taskID with
  | Some c => (set_registry (delete taskID) (cancel c w), true)
  | None => (w, false)
  end.

(** *** What other goroutines do while the handler waits *)

(** The two calls the HTTP handlers of package [api] make on a task they
    cancel: [service.CancelPollTask(tid)] and
    [models.UpdateTaskStatus(tid, TaskStatusCancelled, nil, &msg, nil, nil,
    nil, nil)]. *)
Inductive ExternalOp :=
| ApiCancelPollTask (tid : string)
| ApiMarkCancelled (tid : string) (msg : string).

Definition markCancelled (tid msg : string) (w : World) : World :=
  set_db
    (UpdateTaskStatus (clock w) tid TaskStatusCancelled None (Some msg)
       None None None None) w.

Definition runExternal (op : ExternalOp) (w : World) : World :=
  match op with
  | ApiCancelPollTask tid => fst (CancelPollTask tid w)
  | ApiMarkCancelled tid msg => markCancelled tid msg w
  end.

(** *** The dispatcher *)

(** What [http.Post] to the worker's [/v1/generate] did: a transport
    error, or a response with its status code and the outcome of decoding
    its body into a [map[string]interface{}]. *)
Inductive PostOutcome :=
| PostFailed (e : error)
| PostResponse (StatusCode : Z) (body : res (gmap string JValue)).

Definition StatusOK : Z := 200.
Definition StatusCreated : Z := 201.
Definition StatusAccepted : Z := 202.

(** The [switch task.Type] of [dispatchWorkerRequest]: the checks made
    before a request is sent.  [None] means the request goes out. *)
Definition dispatchPrecheck (task : Task) (d : DB) : option error :=
  let ty := Task_Type task in
  if decide (ty = TaskTypeStoryboard) then
    if decide (Task_ProjectId task ∈ project_table d) then
      match ShotDefaults (Task_Parameters task) with
      | None => Some (Errorf "missing shot_defaults parameters")
      | Some _ => None
      end
    else Some (Errorf ("project not found: " +:+ Error ErrRecordNotFound))
  else if decide (ty = TaskTypeShotImage ∨ ty = "regenerate_shot") then
    match Shot (Task_Parameters task) with
    | None => Some (Errorf "missing shot parameters")
    | Some _ => None
    end
  else if decide (ty = TaskTypeProjectAudio) then
    match TTS (Task_Parameters task) with
    | None => Some (Errorf "missing tts parameters")
    | Some _ => None
    end
  else if decide (ty = TaskTypeVideoGen) then
    match Video (Task_Parameters task) with
    | None => Some (Errorf "missing video parameters")
    | Some _ =>
        match GetShotByIDGorm d (Task_ShotId task) with
        | Fail _ => Some (Errorf "shot not found")
        | Ok shot =>
            if decide (Shot_ImagePath shot = "") then
              Some (Errorf "shot has no image_path (unable to gen video)")
            else None
        end
    end
  else Some (Errorf ("unsupported task type: " +:+ ty)).

(** The part of [dispatchWorkerRequest] after [http.Post]. *)
Definition dispatchResponse (post : PostOutcome) : res string :=
  match post with
  | PostFailed e => Fail e
  | PostResponse StatusCode body =>
      if decide (StatusCode ≠ StatusOK ∧ StatusCode ≠ StatusCreated ∧
                 StatusCode ≠ StatusAccepted)
      then Fail (Errorf ("worker status code: " +:+ pretty StatusCode))
      else
        match body with
        | Fail e => Fail (Errorf ("decode response failed: " +:+ Error e))
        | Ok respData =>
            match asString (respData !! "id") with
            | Some id => Ok id
            | None =>
                match asString (respData !! "job_id") with
                | Some jobID => Ok jobID
                | None => Fail (Errorf "response missing 'id'")
                end
            end
        end
  end.

(** [dispatchWorkerRequest]: returns the job id the worker assigned.  The
    request body is built from the task and sent; nothing of it is read
    back, so only the checks and the response appear here. *)
Definition dispatchWorkerRequest (post : PostOutcome) (task : Task) (d : DB)
    : res string :=
  match dispatchPrecheck task d with
  | Some e => Fail e
  | None => dispatchResponse post
  end.

(** *** The poll loop *)

(** The intermediate struct [raw] of [pollJobResult] after
    [json.Unmarshal]: the time fields are received as [*string]. *)
Record RawJob := {
  raw_ID : string;
  raw_ProjectId : option string;
  raw_ShotId : option string;
  raw_Type : string;
  raw_Status : string;
  raw_Progress : Z;
  raw_Message : string;
  raw_Parameters : gmap string JValue;
  raw_Result : TaskResult;
  raw_Error : string;
  raw_EstimatedDuration : Z;
  raw_StartedAt : option string;
  raw_FinishedAt : option string;
  raw_CreatedAt : option string;
  raw_UpdatedAt : option string
}.

(** What one status query did: the request could not be built, the round
    trip failed, the body could not be read, the body did not unmarshal
    into [raw], or it did. *)
Inductive QueryOutcome :=
| NewRequestFailed
| DoFailed
| ReadAllFailed
| UnmarshalFailed
| Parsed (raw : RawJob).

(** The case the [select] statement of the loop wakes up with.
    [CaseCtxDone] carries the text of [ctx.Err()]. *)
Inductive SelectCase :=
| CaseTimeout
| CaseCtxDone (ctxErr : string)
| CaseTick (q : QueryOutcome).

(** What happens, in order, while [pollJobResult] runs: the [select]
    wakes up, the context the queue gave the handler becomes done, or
    another goroutine acts. *)
Inductive PollItem :=
| Select (c : SelectCase)
| HandlerCtxDone
| Concurrent (op : ExternalOp).

Definition RFC3339Nano := "2006-01-02T15:04:05.999999999Z07:00".
Definition RFC3339 := "2006-01-02T15:04:05Z07:00".

Definition layouts : list string :=
  [RFC3339Nano; RFC3339; "2006-01-02T15:04:05.999999"; "2006-01-02T15:04:05"].

Section Poll.
Context `{TimeParser}.

(** The [for _, l := range layouts] loop of [parseTime]. *)
Fixpoint tryLayouts (ls : list string) (s : string) : Time :=
  match ls with
  | [] => zeroTime
  | l :: rest =>
      match time_Parse l s with
      | Some tm => tm
      | None => tryLayouts rest s
      end
  end.

(** The closure [parseTime] of [pollJobResult]. *)
Definition parseTime (s : option string) : Time :=
  match s with
  | None => zeroTime
  | Some v => if decide (v = "") then zeroTime else tryLayouts layouts v
  end.

(** The conversion of [raw] back into a [models.Task]. *)
Definition taskOfRaw (raw : RawJob) : Task :=
  {| Task_ID := raw_ID raw;
     Task_ProjectId := "";
     Task_ShotId := "";
     Task_Type := raw_Type raw;
     Task_Status := raw_Status raw;
     Task_Progress := raw_Progress raw;
     Task_Message := raw_Message raw;
     Task_Parameters := emptyParameters;
     Task_Result := raw_Result raw;
     Task_Error := raw_Error raw;
     Task_EstimatedDuration := raw_EstimatedDuration raw;
     Task_StartedAt := parseTime (raw_StartedAt raw);
     Task_FinishedAt := parseTime (raw_FinishedAt raw);
     Task_CreatedAt := parseTime (raw_CreatedAt raw);
     Task_UpdatedAt := parseTime (raw_UpdatedAt raw) |}.

(** The status test at the end of a tick.  [None]: keep polling. *)
Definition checkStatus (taskResp : Task) : option (res TaskResult) :=
  let status := Task_Status taskResp in
  if decide (status = TaskStatusSuccess ∨ status = "success" ∨
             status = "completed" ∨ status = "succeeded")
  then Some (Ok (Task_Result taskResp))
  else if decide (status = TaskStatusFailed ∨ status = "error")
  then Some (Fail (Errorf ("worker reported failure: " +:+ Task_Error taskResp)))
  else None.

(** The body of [case <-ticker.C].  Every failure on the way is logged
    and the loop continues. *)
Definition tick (q : QueryOutcome) : option (res TaskResult) :=
  match q with
  | Parsed raw => checkStatus (taskOfRaw raw)
  | _ => None
  end.

(** [pollJobResult]: runs over what the loop sees.  [handlerDone] tells
    whether the context the poll context was derived from is done;
    [ctx.Done()] is ready when it is or when the poll context's own
    [CancelFunc] was called, and then every round trip fails at once.
    [None]: the loop is still waiting when the items run out. *)
Fixpoint pollJobResult (pollCtx : Ctx) (handlerDone : bool)
    (script : list PollItem) (w : World) : World * option (res TaskResult) :=
  match script with
  | [] => (w, None)
  | HandlerCtxDone :: rest => pollJobResult pollCtx true rest w
  | Concurrent op :: rest =>
      pollJobResult pollCtx handlerDone rest (runExternal op w)
  | Select c :: rest =>
      let done := handlerDone || bool_decide (pollCtx ∈ cancelled w) in
      match c with
      | CaseTimeout => (w, Some (Fail (Errorf "polling timeout")))
      | CaseCtxDone ctxErr =>
          if done
          then (w, Some (Fail (Errorf ("polling canceled: " +:+ ctxErr))))
          else pollJobResult pollCtx handlerDone rest w
      | CaseTick q =>
          match tick (if done then DoFailed else q) with
          | Some r => (w, Some r)
          | None => pollJobResult pollCtx handlerDone rest w
          end
      end
  end.

End Poll.

(** *** The result router *)

(** What [http.Get] did: a transport error, or a response with its status
    code. *)
Inductive GetOutcome :=
| GetFailed (e : error)
| GetResponse (StatusCode : Z).

(** An entry of the storyboard document. *)
Record StoryboardShot := {
  sb_Title : string;
  sb_Description : string;
  sb_Prompt : string;
  sb_Order : Z;
  sb_Transition : string
}.

(** The outside world as the result router meets it: [http.Get] by url,
    the decoding of the storyboard body, [UploadToMinIO] by object name,
    and the successive results of [uuid.NewString]. *)
Record RouteEnv := {
  http_Get : string -> GetOutcome;
  storyboard_Decode : res (list StoryboardShot);
  UploadToMinIO : string -> res string;
  uuid_NewString : nat -> string
}.

Definition sprintfShotObject (shotID file : string) : string :=
  "shots/" +:+ shotID +:+ "/" +:+ file.

Definition downloadAndUploadToMinIO (env : RouteEnv)
    (sourceURL objectName : string) : res string :=
  match http_Get env sourceURL with
  | GetFailed e => Fail (Errorf ("download failed: " +:+ Error e))
  | GetResponse StatusCode =>
      if decide (StatusCode ≠ StatusOK)
      then Fail (Errorf ("download status: " +:+ pretty StatusCode))
      else UploadToMinIO env objectName
  end.

Definition processResourceToMinIO (env : RouteEnv) (result : TaskResult)
    (objectName : string) : res string :=
  let resourceUrl := ResourceUrl result in
  if decide (resourceUrl = "") then Fail (Errorf "resourceUrl is empty")
  else downloadAndUploadToMinIO env resourceUrl objectName.

(** The shot built for entry [i] of the storyboard. *)
Definition newShot (env : RouteEnv) (now : Time) (projectID : string)
    (i : nat) (shot : StoryboardShot) : ShotT :=
  let order :=
    if decide (sb_Order shot = 0) then Z.of_nat i + 1 else sb_Order shot in
  {| Shot_ID := uuid_NewString env i;
     Shot_ProjectId := projectID;
     Shot_Order := order;
     Shot_Title := sb_Title shot;
     Shot_Description := sb_Description shot;
     Shot_Prompt := sb_Prompt shot;
     Shot_Status := ShotStatusPending;
     Shot_ImagePath := "";
     Shot_AudioPath := "";
     Shot_Transition := sb_Transition shot;
     Shot_CreatedAt := now;
     Shot_UpdatedAt := now |}.

Definition handleStoryboardResult (env : RouteEnv) (projectID : string)
    (result : TaskResult) (w : World) : World * option error :=
  if decide (ResourceUrl result = "")
  then (w, Some (Errorf "storyboard result missing ResourceUrl"))
  else
    match http_Get env (ResourceUrl result) with
    | GetFailed e => (w, Some (Errorf ("下载分镜 JSON 失败: " +:+ Error e)))
    | GetResponse StatusCode =>
        if decide (StatusCode ≠ StatusOK)
        then (w, Some (Errorf ("下载分镜 JSON 状态码: " +:+ pretty StatusCode)))
        else
          match storyboard_Decode env with
          | Fail e => (w, Some (Errorf ("解析分镜 JSON 失败: " +:+ Error e)))
          | Ok [] => (w, Some (Errorf "分镜 JSON 中没有 shots 数据"))
          | Ok shots =>
              let shotsToCreate := imap (newShot env (clock w) projectID) shots in
              match BatchCreateShots shotsToCreate (db w) with
              | (_, Some e) =>
                  (w, Some (Errorf ("批量创建分镜失败: " +:+ Error e)))
              | (d, None) => (set_db (fun _ => d) w, None)
              end
          end
    end.

Definition handleImageResult (env : RouteEnv) (shotID : string)
    (result : TaskResult) (w : World) : World * option error :=
  let objectName := sprintfShotObject shotID "image.png" in
  match processResourceToMinIO env result objectName with
  | Fail e => (w, Some (Errorf ("处理图片资源失败: " +:+ Error e)))
  | Ok finalURL =>
      match GetShotByIDGorm (db w) shotID with
      | Fail e => (w, Some e)
      | Ok shot =>
          let '(d, err) := UpdateImage (clock w) shot finalURL (db w) in
          (set_db (fun _ => d) w, err)
      end
  end.

Definition withAudio (now : Time) (url : string) (r : ShotRow) : ShotRow :=
  let s := shot_fields r in
  {| shot_fields :=
       {| Shot_ID := Shot_ID s; Shot_ProjectId := Shot_ProjectId s;
          Shot_Order := Shot_Order s; Shot_Title := Shot_Title s;
          Shot_Description := Shot_Description s;
          Shot_Prompt := Shot_Prompt s; Shot_Status := Shot_Status s;
          Shot_ImagePath := Shot_ImagePath s;
          Shot_AudioPath := url;
          Shot_Transition := Shot_Transition s;
          Shot_CreatedAt := Shot_CreatedAt s;
          Shot_UpdatedAt := now |};
     shot_video_url := shot_video_url r |}.

Definition withVideo (now : Time) (url : string) (r : ShotRow) : ShotRow :=
  let s := shot_fields r in
  {| shot_fields :=
       {| Shot_ID := Shot_ID s; Shot_ProjectId := Shot_ProjectId s;
          Shot_Order := Shot_Order s; Shot_Title := Shot_Title s;
          Shot_Description := Shot_Description s;
          Shot_Prompt := Shot_Prompt s;
          Shot_Status := ShotStatusCompleted;
          Shot_ImagePath := Shot_ImagePath s;
          Shot_AudioPath := Shot_AudioPath s;
          Shot_Transition := Shot_Transition s;
          Shot_CreatedAt := Shot_CreatedAt s;
          Shot_UpdatedAt := now |};
     shot_video_url := Some url |}.

Definition handleTTSResult (env : RouteEnv) (shotId : string)
    (result : TaskResult) (w : World) : World * option error :=
  let objectName := sprintfShotObject shotId "audio.mp3" in
  match processResourceToMinIO env result objectName with
  | Fail e => (w, Some (Errorf ("处理音频资源失败: " +:+ Error e)))
  | Ok finalURL =>
      (set_db (set_shot_table (alter (withAudio (clock w) finalURL) shotId)) w,
       None)
  end.

Definition handleVideoResult (env : RouteEnv) (shotID : string)
    (result : TaskResult) (w : World) : World * option error :=
  let objectName := sprintfShotObject shotID "video.mp4" in
  match processResourceToMinIO env result objectName with
  | Fail e => (w, Some (Errorf ("处理视频资源失败: " +:+ Error e)))
  | Ok finalURL =>
      (set_db (set_shot_table (alter (withVideo (clock w) finalURL) shotID)) w,
       None)
  end.

(** The lines every per-shot branch of the handler's [switch] starts
    with: the record's [ShotId], or, when that is empty and the [Shot]
    parameters are present, their [ShotId]. *)
Definition resultShotId (task : Task) : string :=
  let shotId := Task_ShotId task in
  if decide (shotId = "") then
    match Shot (Task_Parameters task) with
    | Some shot => SP_ShotId shot
    | None => shotId
    end
  else shotId.

(** The [switch task.Type] of [HandleGenerateTask] that routes the polled
    result; its value is [processingErr]. *)
Definition routeResult (env : RouteEnv) (task : Task) (taskResult : TaskResult)
    (w : World) : World * option error :=
  let ty := Task_Type task in
  if decide (ty = TaskTypeStoryboard) then
    handleStoryboardResult env (Task_ProjectId task) taskResult w
  else if decide (ty = TaskTypeShotImage ∨ ty = "regenerate_shot") then
    handleImageResult env (resultShotId task) taskResult w
  else if decide (ty = TaskTypeProjectAudio) then
    handleTTSResult env (resultShotId task) taskResult w
  else if decide (ty = TaskTypeVideoGen) then
    handleVideoResult env (resultShotId task) taskResult w
  else (w, Some (Errorf ("unknown task type: " +:+ ty))).

(** *** The queue handler *)

(** How far a run of the handler got: it returned to the queue with an
    error or with [nil], or it is still inside the poll loop. *)
Inductive HandlerOutcome :=
| Returned (err : option error)
| StillPolling.

(** The outside world during one run of the handler. *)
Record HandlerEnv := {
  env_post : PostOutcome;
  env_script : list PollItem;
  env_route : RouteEnv
}.

(** [asynq.SkipRetry] *)
Definition SkipRetry : error := Errorf "skip retry for the task".

(** [task.UpdateStatus(p.DB, ...)] with its error dropped, as every call
    in the handler does (the first one only logs it).  GORM also copies the
    written columns (status, updated_at, result, error) into the struct;
    the handler reads none of them again, so [task] stays the loaded
    record. *)
Definition updateStatus (task : Task) (status : string)
    (result : option TaskResult) (errMsg : string) (w : World) : World :=
  set_db (fun d => fst (UpdateStatus (clock w) task status result errMsg d)) w.

(** The [TaskResult] that carries the job id. *)
Definition jobResult (jobID : string) : TaskResult :=
  {| ResourceType := ""; ResourceId := jobID; ResourceUrl := "" |}.

Section Handler.
Context `{TimeParser}.

(** [HandleGenerateTask] from the return of [pollJobResult] on; the
    deferred [UnregisterPollCancel] runs last. *)
Definition afterPoll (env : HandlerEnv) (task : Task)
    (polled : res TaskResult) (w : World) : World * HandlerOutcome :=
  match polled with
  | Fail err =>
      let w := updateStatus task TaskStatusFailed None
                 ("Job Failed: " +:+ Error err) w in
      (UnregisterPollCancel (Task_ID task) w, Returned None)
  | Ok taskResult =>
      let '(w, processingErr) := routeResult (env_route env) task taskResult w in
      match processingErr with
      | Some e =>
          let w := updateStatus task TaskStatusFailed (Some taskResult)
                     (Error e) w in
          (UnregisterPollCancel (Task_ID task) w, Returned None)
      | None =>
          let w := updateStatus task TaskStatusSuccess (Some taskResult) "" w in
          (UnregisterPollCancel (Task_ID task) w, Returned None)
      end
  end.

(** [HandleGenerateTask].  [payload] is the outcome of unmarshalling the
    queue message into [TaskPayload]: the task id, or the error. *)
Definition HandleGenerateTask (env : HandlerEnv) (payload : res string)
    (w : World) : World * HandlerOutcome :=
  match payload with
  | Fail err =>
      (w, Returned (Some
         {| Error := "json.Unmarshal failed: " +:+ Error err +:+ ": "
                     +:+ Error SkipRetry;
            wrapsSkipRetry := true |}))
  | Ok taskID =>
      match GetTaskByIDGorm (db w) taskID with
      | Fail err =>
          (w, Returned (Some (Errorf ("task not found: " +:+ Error err))))
      | Ok task =>
          let w := updateStatus task TaskStatusProcessing None "" w in
          if decide (Task_Type task = "create_project") then
            (updateStatus task TaskStatusSuccess None "Project initialized" w,
             Returned None)
          else
            match dispatchWorkerRequest (env_post env) task (db w) with
            | Fail err =>
                (updateStatus task TaskStatusFailed None
                   ("Worker Request Failed: " +:+ Error err) w,
                 Returned (Some err))
            | Ok jobID =>
                let w :=
                  set_db
                    (UpdateTaskStatus (clock w) (Task_ID task)
                       TaskStatusProcessing None None
                       (Some (jobResult jobID)) None None None) w in
                let '(pollCtx, w) := WithCancel w in
                let w := RegisterPollCancel (Task_ID task) pollCtx w in
                match pollJobResult pollCtx false (env_script env) w with
                | (w, None) => (w, StillPolling)
                | (w, Some polled) => afterPoll env task polled w
                end
            end
      end
  end.

End Handler.

End service.

Module api.
Import models service.

(** The rows a cancellation pass selects: [UpdateShot] and [DeleteShot]
    take the processing tasks of a shot, [UpdateProject] and
    [DeleteProject] those of a project. *)
Inductive Selector :=
| ByShot (shotID : string)
| ByProject (projectID : string).

(** [WHERE shot_id = ? AND status = ?] and
    [WHERE project_id = ? AND status = ?], the status being
    [TaskStatusProcessing]. *)
Definition selects (sel : Selector) (r : TaskRow) : bool :=
  match sel with
  | ByShot shotID => bool_decide (row_shot_id r = Some shotID)
  | ByProject projectID => bool_decide (row_project_id r = projectID)
  end && bool_decide (row_status r = TaskStatusProcessing).

Definition selectedIds (sel : Selector) (w : World) : list string :=
  (map_to_list (filter (fun kr => selects sel kr.2 = true)
                  (task_table (db w)))).*1.

(** The body of the [for rows.Next()] loop: the local poll is cancelled
    and the task is marked cancelled.  (The request to the worker to
    delete the job changes nothing here.) *)
Definition cancelOne (msg : string) (w : World) (tid : string) : World :=
  markCancelled tid msg (fst (CancelPollTask tid w)).

(** The cancellation pass the four HTTP handlers run before they change
    or delete a shot or a project. *)
Definition cancelProcessingTasks (sel : Selector) (msg : string)
    (w : World) : World :=
  foldl (cancelOne msg) w (selectedIds sel w).

End api.

(** ** The rest of db.go *)

Module dbgo.
Import models.

Record Project := {
  Project_ID : string;
  Project_Title : string;
  Project_StoryText : string;
  Project_Style : string;
  Project_Status : string;
  Project_CoverImage : string;
  Project_Duration : Z;
  Project_VideoUrl : string;
  Project_Description : string;
  Project_ShotCount : Z;
  Project_CreatedAt : Time;
  Project_UpdatedAt : Time
}.

(** [CreateProject]: the [INSERT] into table [project], of which the
    embedding keeps the primary keys. *)
Definition CreateProject (now : Time) (p : Project) (d : DB) : DB * option error :=
  if decide (Project_ID p ∈ project_table d) then (d, Some (mysqlError 1062))
  else
    ({| task_table := task_table d; shot_table := shot_table d;
        project_table := {[Project_ID p]} ∪ project_table d;
        sql_log := sql_log d |},
     None).

(** [GetShotByID]: the row with that id and that project id.  The
    [SELECT] lists every column of the struct except [audio_path], so
    [AudioPath] keeps its zero value. *)
Definition GetShotByID (projectID shotID : string) (d : DB) : res ShotT :=
  match shot_table d !! shotID with
  | None => Fail ErrNoRows
  | Some r =>
      let s := shot_fields r in
      if decide (Shot_ProjectId s = projectID) then
        Ok {| Shot_ID := shotID; Shot_ProjectId := Shot_ProjectId s;
              Shot_Order := Shot_Order s; Shot_Title := Shot_Title s;
              Shot_Description := Shot_Description s;
              Shot_Prompt := Shot_Prompt s; Shot_Status := Shot_Status s;
              Shot_ImagePath := Shot_ImagePath s;
              Shot_AudioPath := "";
              Shot_Transition := Shot_Transition s;
              Shot_CreatedAt := Shot_CreatedAt s;
              Shot_UpdatedAt := Shot_UpdatedAt s |}
      else Fail ErrNoRows
  end.

(** The [SET] list [UpdateShotByID] builds: only the arguments that are
    not empty, and [updated_at]. *)
Definition withShotEdits (now : Time) (title prompt transition : string)
    (r : ShotRow) : ShotRow :=
  let s := shot_fields r in
  {| shot_fields :=
       {| Shot_ID := Shot_ID s; Shot_ProjectId := Shot_ProjectId s;
          Shot_Order := Shot_Order s;
          Shot_Title := if decide (title = "") then Shot_Title s else title;
          Shot_Description := Shot_Description s;
          Shot_Prompt := if decide (prompt = "") then Shot_Prompt s else prompt;
          Shot_Status := Shot_Status s;
          Shot_ImagePath := Shot_ImagePath s;
          Shot_AudioPath := Shot_AudioPath s;
          Shot_Transition :=
            if decide (transition = "") then Shot_Transition s else transition;
          Shot_CreatedAt := Shot_CreatedAt s;
          Shot_UpdatedAt := now |};
     shot_video_url := shot_video_url r |}.

(** [UpdateShotByID]: with the three arguments empty nothing is executed;
    otherwise the row with that id is rewritten when it belongs to the
    project. *)
Definition UpdateShotByID (now : Time) (projectID shotID : string)
    (title prompt transition : string) (d : DB) : DB * option error :=
  if decide (title = "" ∧ prompt = "" ∧ transition = "") then (d, None)
  else
    match shot_table d !! shotID with
    | Some r =>
        if decide (Shot_ProjectId (shot_fields r) = projectID) then
          (set_shot_table
             (insert shotID (withShotEdits now title prompt transition r)) d,
           None)
        else (d, None)
    | None => (d, None)
    end.

End dbgo.

(** ** The HTTP handlers that create tasks, and the progress socket *)

Module handlers.
Import models service api dbgo.

Definition StatusBadRequest : Z := 400.
Definition StatusNotFound : Z := 404.
Definition StatusInternalServerError : Z := 500.

(** What [c.JSON(code, gin.H{...})] sends. *)
Record Response := {
  resp_code : Z;
  resp_body : list (string * JValue)
}.

(** The outside world of an HTTP handler: the successive results of
    [uuid.NewString], and for each task id whether the queue client
    refuses it. *)
Record ApiEnv := {
  api_uuid : nat -> string;
  api_enqueue : string -> option error
}.

(** [service.EnqueueTask] with the answer of the queue client. *)
Definition tryEnqueue (env : ApiEnv) (taskID : string) (w : World)
    : World * option error :=
  match api_enqueue env taskID with
  | Some e => (w, Some (Errorf ("enqueue failed: " +:+ Error e)))
  | None => (EnqueueTask taskID w, None)
  end.

Definition createTask (t : Task) (w : World) : World * option error :=
  let '(d, err) := CreateTask (clock w) t (db w) in
  (set_db (fun _ => d) w, err).

(** A [[]string] in a response: [nil] is sent as [null]. *)
Definition stringSlice (l : list string) : JValue :=
  match l with
  | [] => JNull
  | _ => JArray (JString <$> l)
  end.

Record CreateProjectReq := {
  cp_Title : string;
  cp_StoryText : string;
  cp_Style : string;
  cp_ShotCount : Z
}.

(** The storyboard task [CreateProject] builds. *)
Definition textTaskOf (id projectID : string) (now : Time)
    (req : CreateProjectReq) (shotCount : Z) : Task :=
  {| Task_ID := id; Task_ProjectId := projectID; Task_ShotId := "";
     Task_Type := TaskTypeStoryboard; Task_Status := TaskStatusPending;
     Task_Progress := 0;
     Task_Message := "项目创建任务已创建,正在生成分镜脚本...";
     Task_Parameters :=
       {| ShotDefaults :=
            Some {| ShotCount := shotCount; SD_Style := cp_Style req;
                    StoryText := cp_StoryText req |};
          Shot := Some {| SP_Transition := ""; SP_ShotId := ""; ImageWidth := "";
                          ImageHeight := ""; SP_Prompt := ""; SP_Style := "";
                          ImageLLM := ""; GenerateTTS := false |};
          Video := Some {| Resolution := ""; FPS := 0; VP_Format := "";
                           Bitrate := 0 |};
          TTS := Some {| Voice := ""; Lang := ""; SampleRate := 0;
                         TTS_Format := "" |};
          DependsOn := [] |};
     Task_Result := emptyResult; Task_Error := "";
     Task_EstimatedDuration := 0; Task_StartedAt := zeroTime;
     Task_FinishedAt := zeroTime; Task_CreatedAt := now;
     Task_UpdatedAt := now |}.

(** A shot-image task [CreateProject] builds, blocked on the storyboard
    task. *)
Definition blockedShotTask (id projectID textTaskID : string) (now : Time)
    : Task :=
  {| Task_ID := id; Task_ProjectId := projectID; Task_ShotId := "";
     Task_Type := TaskTypeShotImage; Task_Status := TaskStatusBlocked;
     Task_Progress := 0;
     Task_Message := "等待文本任务完成以生成分镜图片";
     Task_Parameters :=
       {| ShotDefaults := None;
          Shot := Some {| SP_Transition := ""; SP_ShotId := "";
                          ImageWidth := "1024"; ImageHeight := "1024";
                          SP_Prompt := ""; SP_Style := ""; ImageLLM := "";
                          GenerateTTS := false |};
          Video := None; TTS := None; DependsOn := [textTaskID] |};
     Task_Result := emptyResult; Task_Error := "";
     Task_EstimatedDuration := 0; Task_StartedAt := zeroTime;
     Task_FinishedAt := zeroTime; Task_CreatedAt := now;
     Task_UpdatedAt := now |}.

(** The [for i := 0; i < req.ShotCount; i++] loop of [CreateProject]:
    [n] iterations are left, the next one is iteration [i].  A task that
    cannot be inserted is skipped; no task is enqueued. *)
Fixpoint createShotTasks (env : ApiEnv) (projectID textTaskID : string)
    (n i : nat) (shotTaskIDs : list string) (w : World)
    : World * list string :=
  match n with
  | O => (w, shotTaskIDs)
  | S n' =>
      let shotTask :=
        blockedShotTask (api_uuid env (2 + i)) projectID textTaskID (clock w) in
      match createTask shotTask w with
      | (_, Some _) =>
          createShotTasks env projectID textTaskID n' (S i) shotTaskIDs w
      | (w', None) =>
          createShotTasks env projectID textTaskID n' (S i)
            (shotTaskIDs ++ [Task_ID shotTask])%list w'
      end
  end.

(** [CreateProject] of package [api].  [bind] is the outcome of
    [c.ShouldBindQuery]. *)
Definition CreateProject (env : ApiEnv) (bind : res CreateProjectReq)
    (w : World) : World * Response :=
  match bind with
  | Fail err =>
      (w, {| resp_code := StatusBadRequest;
             resp_body := [("error", JString (Error err))] |})
  | Ok req =>
      let shotCount := if decide (cp_ShotCount req <= 0) then 5 else cp_ShotCount req in
      let project :=
        {| Project_ID := api_uuid env 0; Project_Title := cp_Title req;
           Project_StoryText := cp_StoryText req; Project_Style := cp_Style req;
           Project_Status := "created"; Project_CoverImage := "";
           Project_Duration := 0; Project_VideoUrl := "";
           Project_Description := ""; Project_ShotCount := shotCount;
           Project_CreatedAt := clock w; Project_UpdatedAt := clock w |} in
      match dbgo.CreateProject (clock w) project (db w) with
      | (_, Some err) =>
          (w, {| resp_code := StatusInternalServerError;
                 resp_body :=
                   [("error", JString ("创建项目失败: " +:+ Error err))] |})
      | (d, None) =>
          let w := set_db (fun _ => d) w in
          let textTask :=
            textTaskOf (api_uuid env 1) (Project_ID project) (clock w) req
              shotCount in
          match createTask textTask w with
          | (_, Some err) =>
              (w, {| resp_code := StatusInternalServerError;
                     resp_body :=
                       [("error", JString ("创建文本任务失败: " +:+ Error err))] |})
          | (w, None) =>
              let w := (tryEnqueue env (Task_ID textTask) w).1 in
              let '(w, shotTaskIDs) :=
                createShotTasks env (Project_ID project) (Task_ID textTask)
                  (Z.to_nat shotCount) 0 [] w in
              (w, {| resp_code := StatusOK;
                     resp_body :=
                       [("project_id", JString (Project_ID project));
                        ("text_task_id", JString (Task_ID textTask));
                        ("shot_task_ids", stringSlice shotTaskIDs)] |})
          end
      end
  end.

Record UpdateShotReq := {
  us_Title : string;
  us_Prompt : string;
  us_Transition : string
}.

(** The shot-image task [UpdateShot] builds for the shot it changed. *)
Definition regenerateTask (id projectID shotID prompt : string) (now : Time)
    : Task :=
  {| Task_ID := id; Task_ProjectId := projectID; Task_ShotId := "";
     Task_Type := TaskTypeShotImage; Task_Status := TaskStatusPending;
     Task_Progress := 0;
     Task_Message := "分镜更新并已创建生成任务";
     Task_Parameters :=
       {| ShotDefaults := None;
          Shot := Some {| SP_Transition := ""; SP_ShotId := shotID;
                          ImageWidth := "1024"; ImageHeight := "1024";
                          SP_Prompt := prompt; SP_Style := ""; ImageLLM := "";
                          GenerateTTS := false |};
          Video := Some {| Resolution := ""; FPS := 0; VP_Format := "";
                           Bitrate := 0 |};
          TTS := None; DependsOn := [] |};
     Task_Result := emptyResult; Task_Error := "";
     Task_EstimatedDuration := 0; Task_StartedAt := zeroTime;
     Task_FinishedAt := zeroTime; Task_CreatedAt := now;
     Task_UpdatedAt := now |}.

(** [UpdateShot]: the shot must exist in the project; the processing
    tasks of the shot are cancelled; the shot is edited; a shot-image task
    is created and enqueued.  Nothing done is undone when a later step
    fails. *)
Definition UpdateShot (env : ApiEnv) (projectID shotID : string)
    (bind : res UpdateShotReq) (w : World) : World * Response :=
  match bind with
  | Fail err =>
      (w, {| resp_code := StatusBadRequest;
             resp_body := [("error", JString (Error err))] |})
  | Ok req =>
      match GetShotByID projectID shotID (db w) with
      | Fail err =>
          (w, {| resp_code := StatusNotFound;
                 resp_body :=
                   [("error", JString ("分镜未找到: " +:+ Error err))] |})
      | Ok _ =>
          let w :=
            cancelProcessingTasks (ByShot shotID) "cancelled due to shot update" w in
          match UpdateShotByID (clock w) projectID shotID (us_Title req)
                  (us_Prompt req) (us_Transition req) (db w) with
          | (_, Some err) =>
              (w, {| resp_code := StatusInternalServerError;
                     resp_body :=
                       [("error", JString ("更新分镜失败: " +:+ Error err))] |})
          | (d, None) =>
              let w := set_db (fun _ => d) w in
              let task :=
                regenerateTask (api_uuid env 0) projectID shotID (us_Prompt req)
                  (clock w) in
              match createTask task w with
              | (_, Some err) =>
                  (w, {| resp_code := StatusInternalServerError;
                         resp_body :=
                           [("error", JString ("创建任务失败: " +:+ Error err))] |})
              | (w, None) =>
                  match tryEnqueue env (Task_ID task) w with
                  | (_, Some _) =>
                      (w, {| resp_code := StatusInternalServerError;
                             resp_body := [("error", JString "任务入队失败")] |})
                  | (w, None) =>
                      (w, {| resp_code := StatusOK;
                             resp_body :=
                               [("shot_id", JString shotID);
                                ("task_id", JString (Task_ID task));
                                ("message", JString "分镜已更新并创建生成任务")] |})
                  end
              end
          end
      end
  end.

Record GenerateShotVideoReq := {
  gv_ShotID : string;
  gv_FPS : Z
}.

(** The video task [GenerateShotVideo] builds: the shot id goes into the
    struct's [ShotId], the [Shot] parameters are empty. *)
Definition videoTask (id projectID : string) (req : GenerateShotVideoReq)
    (now : Time) : Task :=
  {| Task_ID := id; Task_ProjectId := projectID; Task_ShotId := gv_ShotID req;
     Task_Type := TaskTypeVideoGen; Task_Status := TaskStatusPending;
     Task_Progress := 0;
     Task_Message := "视频生成任务排队中";
     Task_Parameters :=
       {| ShotDefaults := None;
          Shot := Some {| SP_Transition := ""; SP_ShotId := ""; ImageWidth := "";
                          ImageHeight := ""; SP_Prompt := ""; SP_Style := "";
                          ImageLLM := ""; GenerateTTS := false |};
          Video := Some {| Resolution := "1280x720"; FPS := gv_FPS req;
                           VP_Format := ""; Bitrate := 0 |};
          TTS := None; DependsOn := [] |};
     Task_Result := emptyResult; Task_Error := "";
     Task_EstimatedDuration := 0; Task_StartedAt := zeroTime;
     Task_FinishedAt := zeroTime; Task_CreatedAt := now;
     Task_UpdatedAt := now |}.

(** [GenerateShotVideo].  [req] is what [c.ShouldBind] left in the
    request struct (its error is ignored). *)
Definition GenerateShotVideo (env : ApiEnv) (projectID : string)
    (req : GenerateShotVideoReq) (w : World) : World * Response :=
  if decide (gv_ShotID req = "") then
    (w, {| resp_code := StatusBadRequest;
           resp_body := [("error", JString "shot_id is required")] |})
  else
    let task := videoTask (api_uuid env 0) projectID req (clock w) in
    match createTask task w with
    | (_, Some err) =>
        (w, {| resp_code := StatusInternalServerError;
               resp_body :=
                 [("error", JString ("创建任务失败: " +:+ Error err))] |})
    | (w, None) =>
        match tryEnqueue env (Task_ID task) w with
        | (_, Some _) =>
            (w, {| resp_code := StatusInternalServerError;
                   resp_body := [("error", JString "任务入队失败")] |})
        | (w, None) =>
            (w, {| resp_code := StatusOK;
                   resp_body :=
                     [("message", JString "视频生成任务已创建");
                      ("project_id", JString projectID);
                      ("shot_id", JString (gv_ShotID req));
                      ("task_id", JString (Task_ID task))] |})
        end
    end.

(** The audio task [GenerateProjectTTS] builds: only the [TTS] parameters
    are set. *)
Definition ttsTask (id projectID : string) (now : Time) : Task :=
  {| Task_ID := id; Task_ProjectId := projectID; Task_ShotId := "";
     Task_Type := TaskTypeProjectAudio; Task_Status := TaskStatusPending;
     Task_Progress := 0;
     Task_Message := "项目音频 (TTS) 生成任务已创建";
     Task_Parameters :=
       {| ShotDefaults := None; Shot := None; Video := None;
          TTS := Some {| Voice := "xiaoyan"; Lang := "zh-CN";
                         SampleRate := 24000; TTS_Format := "mp3" |};
          DependsOn := [] |};
     Task_Result := emptyResult; Task_Error := "";
     Task_EstimatedDuration := 0; Task_StartedAt := zeroTime;
     Task_FinishedAt := zeroTime; Task_CreatedAt := now;
     Task_UpdatedAt := now |}.

(** [GenerateProjectTTS]: a refused enqueue is answered with 200 too. *)
Definition GenerateProjectTTS (env : ApiEnv) (projectID : string) (w : World)
    : World * Response :=
  let task := ttsTask (api_uuid env 0) projectID (clock w) in
  match createTask task w with
  | (_, Some err) =>
      (w, {| resp_code := StatusInternalServerError;
             resp_body :=
               [("error", JString ("创建 TTS 任务失败: " +:+ Error err))] |})
  | (w, None) =>
      match tryEnqueue env (Task_ID task) w with
      | (_, Some _) =>
          (w, {| resp_code := StatusOK;
                 resp_body :=
                   [("task_id", JString (Task_ID task));
                    ("message", JString "音频任务已创建，但入队失败");
                    ("project_id", JString projectID)] |})
      | (w, None) =>
          (w, {| resp_code := StatusOK;
                 resp_body :=
                   [("task_id", JString (Task_ID task));
                    ("message", JString "音频生成任务已创建");
                    ("project_id", JString projectID)] |})
      end
  end.

(** *** The progress socket *)

(** A frame written to the socket: a task, or the error object sent when
    the task is not found at connection time. *)
Inductive Frame :=
| TaskFrame (t : Task)
| ErrorFrame (msg : string).

(** One tick of the socket's ticker: the database at that moment, whether
    the write of a changed task succeeds, and whether the closing write
    does. *)
Record WsTick := {
  ws_db : DB;
  ws_pushOk : bool;
  ws_finalOk : bool
}.

(** The [for range ticker.C] loop of [TaskProgressWebSocket]: the frames
    that reached the client, and whether the loop has ended. *)
Fixpoint wsLoop (taskID : string) (prevStatus : string) (prevProgress : Z)
    (ticks : list WsTick) : list Frame * bool :=
  match ticks with
  | [] => ([], false)
  | tk :: rest =>
      match GetTaskByID taskID (ws_db tk) with
      | Fail _ => wsLoop taskID prevStatus prevProgress rest
      | Ok cur =>
          let changed :=
            bool_decide (Task_Status cur ≠ prevStatus ∨
                         Task_Progress cur ≠ prevProgress) in
          if changed && negb (ws_pushOk tk) then ([], true)
          else
            let pushed := if changed then [TaskFrame cur] else [] in
            if decide (Task_Status cur = "finished" ∨ Task_Status cur = "failed")
            then
              ((pushed ++ (if ws_finalOk tk then [TaskFrame cur] else []))%list,
               true)
            else
              let prevStatus' := if changed then Task_Status cur else prevStatus in
              let prevProgress' :=
                if changed then Task_Progress cur else prevProgress in
              let '(frames, closed) := wsLoop taskID prevStatus' prevProgress' rest in
              ((pushed ++ frames)%list, closed)
      end
  end.

(** [TaskProgressWebSocket] once the connection is upgraded: [d0] is the
    database at connection time, [firstOk] tells whether the first write
    succeeds. *)
Definition TaskProgressWebSocket (taskID : string) (d0 : DB) (firstOk : bool)
    (ticks : list WsTick) : list Frame * bool :=
  match GetTaskByID taskID d0 with
  | Fail err =>
      (if firstOk then [ErrorFrame ("task not found: " +:+ Error err)] else [],
       true)
  | Ok t =>
      let '(frames, closed) :=
        wsLoop taskID (Task_Status t) (Task_Progress t) ticks in
      (((if firstOk then [TaskFrame t] else []) ++ frames)%list, closed)
  end.

End handlers.

(** ** Concrete data: a project with a storyboard task and its dependents *)

Module Scenario.
Import models service api.

(** A [time.Parse] that knows one RFC 3339 timestamp. *)
Definition demoParser : TimeParser := fun layout s =>
  if decide (layout = RFC3339 ∧ s = "2024-05-01T10:00:00Z")
  then Some 1714557600 else None.

Definition db0 : DB :=
  {| task_table := ∅; shot_table := ∅; project_table := {["p1"]};
     sql_log := [] |}.

Definition w0 : World :=
  {| db := db0; pollCancelRegistry := ∅; cancelled := ∅; next_ctx := 0%nat;
     queue := []; clock := 100 |}.

(** The storyboard task [CreateProject] builds. *)
Definition textTask : Task :=
  {| Task_ID := "T"; Task_ProjectId := "p1"; Task_ShotId := "";
     Task_Type := TaskTypeStoryboard; Task_Status := TaskStatusPending;
     Task_Progress := 0; Task_Message := "storyboard";
     Task_Parameters :=
       {| ShotDefaults :=
            Some {| ShotCount := 3; SD_Style := "ink"; StoryText := "once" |};
          Shot := None; Video := None; TTS := None; DependsOn := [] |};
     Task_Result := emptyResult; Task_Error := "";
     Task_EstimatedDuration := 0; Task_StartedAt := zeroTime;
     Task_FinishedAt := zeroTime; Task_CreatedAt := 0; Task_UpdatedAt := 0 |}.

Definition shotParams (shotId : string) : ShotParams :=
  {| SP_Transition := ""; SP_ShotId := shotId; ImageWidth := "1024";
     ImageHeight := "1024"; SP_Prompt := ""; SP_Style := ""; ImageLLM := "";
     GenerateTTS := false |}.

(** A shot-image task blocked on the storyboard task, as [CreateProject]
    builds it. *)
Definition shotTask (id : string) : Task :=
  {| Task_ID := id; Task_ProjectId := "p1"; Task_ShotId := "";
     Task_Type := TaskTypeShotImage; Task_Status := TaskStatusBlocked;
     Task_Progress := 0; Task_Message := "waiting";
     Task_Parameters :=
       {| ShotDefaults := None; Shot := Some (shotParams "");
          Video := None; TTS := None; DependsOn := ["T"] |};
     Task_Result := emptyResult; Task_Error := "";
     Task_EstimatedDuration := 0; Task_StartedAt := zeroTime;
     Task_FinishedAt := zeroTime; Task_CreatedAt := 0; Task_UpdatedAt := 0 |}.

(** A shot-image task for an existing shot, as [UpdateShot] builds it,
    with the [ShotId] field filled in as [GenerateShotVideo] does. *)
Definition regenTask : Task :=
  {| Task_ID := "R"; Task_ProjectId := "p1"; Task_ShotId := "shot-9";
     Task_Type := TaskTypeShotImage; Task_Status := TaskStatusPending;
     Task_Progress := 0; Task_Message := "regenerate";
     Task_Parameters :=
       {| ShotDefaults := None; Shot := Some (shotParams "shot-9");
          Video := None; TTS := None; DependsOn := [] |};
     Task_Result := emptyResult; Task_Error := "";
     Task_EstimatedDuration := 0; Task_StartedAt := zeroTime;
     Task_FinishedAt := zeroTime; Task_CreatedAt := 0; Task_UpdatedAt := 0 |}.

Definition create (t : Task) (w : World) : World :=
  set_db (fun d => fst (CreateTask (clock w) t d)) w.

(** The state after [CreateProject] with three shots: the storyboard
    task is pending and enqueued, three shot tasks are blocked on it. *)
Definition w1 : World :=
  create (shotTask "S3")
    (create (shotTask "S2")
       (create (shotTask "S1") (EnqueueTask "T" (create textTask w0)))).

Definition rawJob (status errText : string) (started : option string) : RawJob :=
  {| raw_ID := "job-1"; raw_ProjectId := None; raw_ShotId := None;
     raw_Type := "generate_storyboard"; raw_Status := status;
     raw_Progress := 100; raw_Message := ""; raw_Parameters := ∅;
     raw_Result :=
       {| ResourceType := "json"; ResourceId := "sb-1";
          ResourceUrl := "http://worker/sb.json" |};
     raw_Error := errText; raw_EstimatedDuration := 0;
     raw_StartedAt := started; raw_FinishedAt := None;
     raw_CreatedAt := Some ""; raw_UpdatedAt := Some "yesterday" |}.

Definition entry (title : string) : StoryboardShot :=
  {| sb_Title := title; sb_Description := ""; sb_Prompt := "";
     sb_Order := 0; sb_Transition := "" |}.

Definition route1 : RouteEnv :=
  {| http_Get := fun _ => GetResponse 200;
     storyboard_Decode := Ok [entry "a"; entry "b"; entry "c"];
     UploadToMinIO := fun o => Ok ("http://minio/" +:+ o);
     uuid_NewString := fun i => "shot-" +:+ pretty i |}.

Definition accepted : PostOutcome :=
  PostResponse 202 (Ok {["id" := JString "job-1"]}).

(** Scenario B: the worker accepts the job and reports "succeeded". *)
Definition envSucceeded : HandlerEnv :=
  {| env_post := accepted;
     env_script := [Select (CaseTick (Parsed (rawJob "succeeded" "" None)))];
     env_route := route1 |}.

(** The worker answers the submission with status 500. *)
Definition envRejected : HandlerEnv :=
  {| env_post := PostResponse 500 (Ok ∅);
     env_script := [];
     env_route := route1 |}.

(** Scenario E: while the handler polls, the cancellation pass of
    [UpdateProject] cancels the poll and marks the task cancelled; then
    the [select] wakes up on [ctx.Done()]. *)
Definition envCancelled : HandlerEnv :=
  {| env_post := accepted;
     env_script :=
       [Select (CaseTick (Parsed (rawJob "running" "" None)));
        Concurrent (ApiCancelPollTask "T");
        Concurrent (ApiMarkCancelled "T" "cancelled due to project update");
        Select (CaseCtxDone "context canceled")];
     env_route := route1 |}.

(** As [envCancelled], but the task is marked cancelled only after the
    handler has returned. *)
Definition envCancelledLate : HandlerEnv :=
  {| env_post := accepted;
     env_script :=
       [Select (CaseTick (Parsed (rawJob "running" "" None)));
        Concurrent (ApiCancelPollTask "T");
        Select (CaseCtxDone "context canceled")];
     env_route := route1 |}.

(** The handler is still polling: the job was accepted and runs. *)
Definition envPolling : HandlerEnv :=
  {| env_post := accepted;
     env_script := [Select (CaseTick (Parsed (rawJob "running" "" None)))];
     env_route := route1 |}.

(** The statement that stores the job id of the storyboard task. *)
Definition jobWrite : TaskUpdate :=
  {| upd_id := "T"; upd_status := Some TaskStatusProcessing;
     upd_progress := None; upd_message := None;
     upd_result := Some (jobResult "job-1"); upd_error := None;
     upd_started_at := None; upd_finished_at := None; upd_updated_at := 100 |}.

(** The row of the storyboard task once it is finished. *)
Definition finishedRow : TaskRow :=
  {| row_project_id := "p1"; row_shot_id := None;
     row_type := TaskTypeStoryboard; row_status := TaskStatusSuccess;
     row_progress := 0; row_message := Some "storyboard";
     row_parameters := Task_Parameters textTask;
     row_result := raw_Result (rawJob "succeeded" "" None);
     row_error := Some ""; row_estimated_duration := 0;
     row_started_at := None; row_finished_at := None;
     row_created_at := 100; row_updated_at := 100 |}.

(** The database after [CreateTask] of [regenTask]. *)
Definition dbRegen : DB := (CreateTask 100 regenTask db0).1.

(** The statement that stores a job id on [regenTask]. *)
Definition regenJobWrite : TaskUpdate :=
  {| upd_id := "R"; upd_status := Some TaskStatusProcessing;
     upd_progress := None; upd_message := None;
     upd_result := Some (jobResult "job-2"); upd_error := None;
     upd_started_at := None; upd_finished_at := None; upd_updated_at := 101 |}.

(** A response with valid timestamps. *)
Definition stamp : option string := Some "2024-05-01T10:00:00Z".

End Scenario.

(** ** Vocabulary of the further properties *)

Module Spec2.
Import models service api dbgo handlers.

(** The row [Task.UpdateStatus] leaves behind. *)
Definition withStatus (now : Time) (status : string)
    (result : option TaskResult) (errMsg : string) (row : TaskRow) : TaskRow :=
  applyTaskUpdate
    {| upd_id := ""; upd_status := Some status; upd_progress := None;
       upd_message := None; upd_result := result;
       upd_error := if decide (errMsg = "") then None else Some errMsg;
       upd_started_at := None; upd_finished_at := None;
       upd_updated_at := now |} row.

(** The row after the job id has been stored on a task. *)
Definition withJob (now : Time) (jobID : string) (row : TaskRow) : TaskRow :=
  applyTaskUpdate
    {| upd_id := ""; upd_status := Some TaskStatusProcessing;
       upd_progress := None; upd_message := None;
       upd_result := Some (jobResult jobID); upd_error := None;
       upd_started_at := None; upd_finished_at := None;
       upd_updated_at := now |} row.

(** The row a cancellation call leaves behind. *)
Definition withCancelled (now : Time) (msg : string) (row : TaskRow) : TaskRow :=
  applyTaskUpdate
    {| upd_id := ""; upd_status := Some TaskStatusCancelled;
       upd_progress := None; upd_message := Some msg; upd_result := None;
       upd_error := None; upd_started_at := None; upd_finished_at := None;
       upd_updated_at := now |} row.

(** The state in which the handler enters the poll loop: the task is
    marked processing, the job id is stored, a fresh context is registered
    for the task. *)
Definition startPoll (task : Task) (jobID : string) (w : World) : World :=
  let w1 := updateStatus task TaskStatusProcessing None "" w in
  let w2 :=
    set_db
      (UpdateTaskStatus (clock w1) (Task_ID task) TaskStatusProcessing None None
         (Some (jobResult jobID)) None None None) w1 in
  RegisterPollCancel (Task_ID task) (WithCancel w2).1 (WithCancel w2).2.

(** An item of the loop that lets it go on: a status query that failed or
    reported a status that is not terminal. *)
Definition quiet `{TimeParser} (item : PollItem) : Prop :=
  ∃ q, item = Select (CaseTick q) ∧ tick q = None.

(** Every key of the shot table is the id of the shot stored under it. *)
Definition shotsKeyed (d : DB) : Prop :=
  ∀ k r, shot_table d !! k = Some r -> Shot_ID (shot_fields r) = k.

(** The worker accepts the job and the first status query reports the
    terminal status [status] with result [r]. *)
Definition oneShot (env : HandlerEnv) (jobID : string) (raw : RawJob) : Prop :=
  (∃ code body, env_post env = PostResponse code (Ok body) ∧
                (code = 200 ∨ code = 201 ∨ code = 202) ∧
                body !! "id" = Some (JString jobID)) ∧
  ∃ rest, env_script env = Select (CaseTick (Parsed raw)) :: rest.

(** The download of [url] answers 200 and the upload of [object] gives
    [finalURL]. *)
Definition stored (env : RouteEnv) (url object finalURL : string) : Prop :=
  http_Get env url = GetResponse 200 ∧ UploadToMinIO env object = Ok finalURL.

(** The row [CreateTask] inserts for a task. *)
Definition insertedRow (now : Time) (t : Task) : TaskRow :=
  {| row_project_id := Task_ProjectId t;
     row_shot_id := None;
     row_type := Task_Type t;
     row_status := Task_Status t;
     row_progress := Task_Progress t;
     row_message := Some (Task_Message t);
     row_parameters := Task_Parameters t;
     row_result := Task_Result t;
     row_error := Some (Task_Error t);
     row_estimated_duration := Task_EstimatedDuration t;
     row_started_at :=
       if IsZero (Task_StartedAt t) then None else Some (Task_StartedAt t);
     row_finished_at :=
       if IsZero (Task_FinishedAt t) then None else Some (Task_FinishedAt t);
     row_created_at := now;
     row_updated_at := now |}.

(** No row of the task table has a shot id, as is the case when every
    row was inserted by [CreateTask]. *)
Definition nullShotIds (w : World) : Prop :=
  ∀ tid row, task_table (db w) !! tid = Some row -> row_shot_id row = None.

(** The status query reports one of the four statuses the loop takes for
    success. *)
Definition reportsSuccess (raw : RawJob) : Prop :=
  raw_Status raw = TaskStatusSuccess ∨ raw_Status raw = "success" ∨
  raw_Status raw = "completed" ∨ raw_Status raw = "succeeded".

(** The shot row after [UpdateShotByID] was called with the fields of a
    request. *)
Definition editedRow (now : Time) (req : UpdateShotReq) (r : ShotRow)
    : ShotRow :=
  if decide (us_Title req = "" ∧ us_Prompt req = "" ∧ us_Transition req = "")
  then r
  else withShotEdits now (us_Title req) (us_Prompt req) (us_Transition req) r.

(** The number of shots [CreateProject] works with: the request's, or 5
    when that is not positive. *)
Definition shotCountOf (req : CreateProjectReq) : Z :=
  if decide (cp_ShotCount req <= 0) then 5 else cp_ShotCount req.

End Spec2.


(** ** Concrete data for the further properties *)

Module Scenario2.
Import models service api dbgo handlers Scenario.

(** The row of a task and of a shot in a state ([finishedRow] and an
    empty shot stand in for a missing one). *)
Definition rowAt (w : World) (tid : string) : TaskRow :=
  default finishedRow (task_table (db w) !! tid).

Definition shotAt (w : World) (sid : string) : ShotRow :=
  default (newShotRow (newShot route1 0 "" 0 (entry ""))) (shot_table (db w) !! sid).

(** The record the handler loads for a task. *)
Definition loaded (w : World) (tid : string) : Task :=
  match GetTaskByIDGorm (db w) tid with
  | Ok t => t
  | Fail _ => textTask
  end.

(** The worker accepts the job and reports "failed". *)
Definition envFailed : HandlerEnv :=
  {| env_post := accepted;
     env_script :=
       [Select (CaseTick (Parsed (rawJob "failed" "out of memory" None)))];
     env_route := route1 |}.

(** A task of the type the handler finishes at once. *)
Definition initTask : Task :=
  {| Task_ID := "I"; Task_ProjectId := "p1"; Task_ShotId := "";
     Task_Type := "create_project"; Task_Status := TaskStatusPending;
     Task_Progress := 0; Task_Message := "init";
     Task_Parameters := emptyParameters;
     Task_Result := emptyResult; Task_Error := "";
     Task_EstimatedDuration := 0; Task_StartedAt := zeroTime;
     Task_FinishedAt := zeroTime; Task_CreatedAt := 0; Task_UpdatedAt := 0 |}.

Definition wInit : World := create initTask w0.

(** The first blocked shot-image task of [w1]. *)
Definition shotTask_S1 : Task := shotTask "S1".

Section WithParser.
#[local] Existing Instance demoParser.

(** The state after the storyboard task of [w1] has been handled: the
    project has the shots "shot-0", "shot-1" and "shot-2". *)
Definition wShots : World := (HandleGenerateTask envSucceeded (Ok "T") w1).1.

(** The state while the handler polls for the storyboard task. *)
Definition wPolling : World := (HandleGenerateTask envPolling (Ok "T") w1).1.

(** The state after scenario E. *)
Definition wCancelled : World :=
  markCancelled "T" "cancelled due to project update"
    (CancelPollTask "T" wPolling).1.

End WithParser.

(** The same state with the message of the task rewritten. *)
Definition wCancelledAgain : World :=
  markCancelled "T" "cancelled once more" wCancelled.

(** The shot the storyboard branch creates for the first entry. *)
Definition shot0 : ShotRow := newShotRow (newShot route1 100 "p1" 0 (entry "a")).

(** The record [GetTaskByID] reads for a task. *)
Definition seen (w : World) (tid : string) : Task :=
  match GetTaskByID tid (db w) with
  | Ok t => t
  | Fail _ => textTask
  end.

(** As [route1], but every download is answered 404. *)
Definition route404 : RouteEnv :=
  {| http_Get := fun _ => GetResponse 404;
     storyboard_Decode := storyboard_Decode route1;
     UploadToMinIO := UploadToMinIO route1;
     uuid_NewString := uuid_NewString route1 |}.

(** Fresh ids "task-0", "task-1", ... and a queue that takes every task. *)
Definition demoApi : ApiEnv :=
  {| api_uuid := fun i => "task-" +:+ pretty i;
     api_enqueue := fun _ => None |}.

Definition videoReq : GenerateShotVideoReq :=
  {| gv_ShotID := "shot-0"; gv_FPS := 24 |}.

(** A request that changes the title only. *)
Definition titleReq : UpdateShotReq :=
  {| us_Title := "A new title"; us_Prompt := ""; us_Transition := "" |}.

(** A request with the default shot count. *)
Definition projectReq : CreateProjectReq :=
  {| cp_Title := "Tale"; cp_StoryText := "once"; cp_Style := "ink";
     cp_ShotCount := 0 |}.

(** The socket sees the task as it is in state [w]; every write succeeds. *)
Definition sees (w : World) : WsTick :=
  {| ws_db := db w; ws_pushOk := true; ws_finalOk := true |}.

End Scenario2.
(** ** Vocabulary of the properties *)

Module Spec.
Import models service api.

(** The row of a task in the current state. *)
Definition taskRow (w : World) (tid : string) : option TaskRow :=
  task_table (db w) !! tid.

(** The terminal statuses. *)
Definition terminal (status : string) : Prop :=
  status = TaskStatusSuccess ∨ status = TaskStatusFailed ∨
  status = TaskStatusCancelled.

(** The [UPDATE] statements issued between two states of the database. *)
Definition issued (d d' : DB) : list TaskUpdate :=
  drop (length (sql_log d)) (sql_log d').

(** The task table after a list of [UPDATE] statements. *)
Definition replay (tbl : gmap string TaskRow) (us : list TaskUpdate)
    : gmap string TaskRow :=
  foldl (fun t u => alter (applyTaskUpdate u) (upd_id u) t) tbl us.

(** From [d] to [d'] the task table changed only through [UPDATE]
    statements, all of which are logged and satisfy [P]. *)
Definition updates (P : TaskUpdate -> Prop) (d d' : DB) : Prop :=
  ∃ new : list TaskUpdate,
    Forall P new ∧ sql_log d' = (sql_log d ++ new)%list ∧
    task_table d' = replay (task_table d) new.

(** The three shapes of a statement that sets [result]: the job id stored
    with status processing, a result attached with status failed, a result
    attached with status finished. *)
Definition resultWriter (u : TaskUpdate) : Prop :=
  ∀ r, upd_result u = Some r ->
    (upd_status u = Some TaskStatusProcessing ∧ ∃ jobID, r = jobResult jobID) ∨
    upd_status u = Some TaskStatusFailed ∨
    upd_status u = Some TaskStatusSuccess.

(** A statement by which another goroutine marks a task cancelled while
    the handler polls. *)
Definition concurrentMark (script : list PollItem) (u : TaskUpdate) : Prop :=
  upd_result u = None ∧ upd_status u = Some TaskStatusCancelled ∧
  ∃ msg, Concurrent (ApiMarkCancelled (upd_id u) msg) ∈ script.

(** The statements a handler run for [taskID] may issue: its own, on its
    task, and the marks of the goroutines that act meanwhile. *)
Definition handlerWrite (taskID : string) (script : list PollItem)
    (u : TaskUpdate) : Prop :=
  (upd_id u = taskID ∧ resultWriter u) ∨ concurrentMark script u.

(** No goroutine marks task [tid] cancelled while the handler polls. *)
Definition unmarked (tid : string) (script : list PollItem) : Prop :=
  ∀ msg, Concurrent (ApiMarkCancelled tid msg) ∉ script.

(** The operations of the engine: a run of the queue handler and a
    cancellation pass. *)
Inductive EngineOp :=
| Handle (env : HandlerEnv) (payload : res string)
| CancelPass (sel : Selector) (msg : string).

Definition runOp `{TimeParser} (op : EngineOp) (w : World) : World :=
  match op with
  | Handle env payload => (HandleGenerateTask env payload w).1
  | CancelPass sel msg => cancelProcessingTasks sel msg w
  end.

(** The operation is a handler run delivered for task [tid], or one during
    which another goroutine marks [tid] cancelled. *)
Definition concerns (op : EngineOp) (tid : string) : Prop :=
  match op with
  | Handle env payload => payload = Ok tid ∨ ¬ unmarked tid (env_script env)
  | CancelPass _ _ => False
  end.

(** A timestamp field that is absent, empty, or in none of the layouts
    the loop tries. *)
Definition noTimestamp `{TimeParser} (s : option string) : Prop :=
  s = None ∨ s = Some "" ∨
  ∃ v, s = Some v ∧ ∀ l, l ∈ layouts -> time_Parse l v = None.

(** The same response with other timestamp fields. *)
Definition withTimestamps (raw : RawJob)
    (startedAt finishedAt createdAt updatedAt : option string) : RawJob :=
  {| raw_ID := raw_ID raw; raw_ProjectId := raw_ProjectId raw;
     raw_ShotId := raw_ShotId raw; raw_Type := raw_Type raw;
     raw_Status := raw_Status raw; raw_Progress := raw_Progress raw;
     raw_Message := raw_Message raw; raw_Parameters := raw_Parameters raw;
     raw_Result := raw_Result raw; raw_Error := raw_Error raw;
     raw_EstimatedDuration := raw_EstimatedDuration raw;
     raw_StartedAt := startedAt; raw_FinishedAt := finishedAt;
     raw_CreatedAt := createdAt; raw_UpdatedAt := updatedAt |}.

End Spec.

(** ** Properties of the dispatcher and of the poll loop *)

Section Dispatch.
Import models service api Spec.

(** C6. Once the request has gone out and a response has come back, the
    dispatcher returns a job id exactly when the status is 200, 201 or
    202 and the decoded body has a string under "id" or under "job_id"
    (the one under "id" is preferred); any other status gives the error
    "worker status code: <code>"; an accepted response whose body has
    neither string gives the error "response missing 'id'". *)
Theorem C6_dispatch_job_id (task : Task) (d : DB) (StatusCode : Z)
    (body : res (gmap string JValue)) :
  dispatchPrecheck task d = None ->
  let r := dispatchWorkerRequest (PostResponse StatusCode body) task d in
  let accepted := StatusCode = 200 ∨ StatusCode = 201 ∨ StatusCode = 202 in
  let hasId := fun respData : gmap string JValue =>
    (∃ s, respData !! "id" = Some (JString s)) ∨
    (∃ s, respData !! "job_id" = Some (JString s)) in
  ((∃ jobID, r = Ok jobID) ↔
     accepted ∧ ∃ respData, body = Ok respData ∧ hasId respData) ∧
  (∀ respData s, accepted -> body = Ok respData ->
     respData !! "id" = Some (JString s) -> r = Ok s) ∧
  (¬ accepted ->
     r = Fail (Errorf ("worker status code: " +:+ pretty StatusCode))) ∧
  (∀ respData, accepted -> body = Ok respData -> ¬ hasId respData ->
     r = Fail (Errorf "response missing 'id'")).
Proof.
  intros Hpre r accepted hasId. subst r.
  unfold dispatchWorkerRequest. rewrite Hpre. unfold dispatchResponse.
  unfold StatusOK, StatusCreated, StatusAccepted.
  assert (Hstr : ∀ (m : gmap string JValue) k,
            (∃ s, m !! k = Some (JString s)) ↔ is_Some (asString (m !! k))).
  { intros m k. unfold asString. destruct (m !! k) as [[]|]; split;
      first [ intros [s Hs]; by inversion Hs | intros [s Hs]; by inversion Hs
            | eauto ]. }
  case_decide as Hcode.
  - assert (Hna : ¬ accepted) by (subst accepted; lia).
    split; [split|split; [|split]].
    + intros [j Hj]. discriminate.
    + intros [Ha _]. contradiction.
    + intros ?? Ha. contradiction.
    + done.
    + intros ? Ha. contradiction.
  - assert (Ha : accepted) by (subst accepted; lia).
    destruct body as [respData|e].
    + destruct (asString (respData !! "id")) as [id|] eqn:Hid.
      * split; [split|split; [|split]].
        -- intros _. split; [done|]. exists respData. split; [done|].
           left. apply Hstr. rewrite Hid. eauto.
        -- eauto.
        -- intros m s _ [= <-] Hs. rewrite Hs in Hid. by inversion Hid.
        -- intros; contradiction.
        -- intros m _ [= <-] Hno. exfalso. apply Hno. left.
           apply Hstr. rewrite Hid. eauto.
      * destruct (asString (respData !! "job_id")) as [jid|] eqn:Hjid.
        -- split; [split|split; [|split]].
           ++ intros _. split; [done|]. exists respData. split; [done|].
              right. apply Hstr. rewrite Hjid. eauto.
           ++ eauto.
           ++ intros m s _ [= <-] Hs. rewrite Hs in Hid. discriminate.
           ++ intros; contradiction.
           ++ intros m _ [= <-] Hno. exfalso. apply Hno. right.
              apply Hstr. rewrite Hjid. eauto.
        -- split; [split|split; [|split]].
           ++ intros [j Hj]. discriminate.
           ++ intros [_ (m & [= <-] & [Hm|Hm])]; apply Hstr in Hm;
                [rewrite Hid in Hm | rewrite Hjid in Hm];
                destruct Hm as [? Hm]; discriminate.
           ++ intros m s _ [= <-] Hs. rewrite Hs in Hid. discriminate.
           ++ intros; contradiction.
           ++ done.
    + split; [split|split; [|split]].
      * intros [j Hj]. discriminate.
      * intros [_ (m & Hm & _)]. discriminate.
      * intros; discriminate.
      * intros; contradiction.
      * intros; discriminate.
Qed.

End Dispatch.

Section PollLoop.
Import models service api Spec.
Context `{TimeParser}.

(** A status query on a context that is not done has the outcome the
    transport reports. *)
Lemma pollJobResult_tick (pollCtx : Ctx) (q : QueryOutcome)
    (rest : list PollItem) (w : World) :
  pollCtx ∉ cancelled w ->
  pollJobResult pollCtx false (Select (CaseTick q) :: rest) w =
    match tick q with
    | Some r => (w, Some r)
    | None => pollJobResult pollCtx false rest w
    end.
Proof.
  intros Hnot. cbn [pollJobResult]. rewrite bool_decide_eq_false_2 by done.
  reflexivity.
Qed.

(** C7. When the poll context is live and a status query succeeds, the
    loop returns the job's result locator for the statuses "finished",
    "success", "succeeded" and "completed", returns the error "worker
    reported failure: <worker's error text>" for "failed" and "error",
    and for every other status goes on with the rest of the loop. *)
Theorem C7_poll_terminal_detection (pollCtx : Ctx) (raw : RawJob)
    (rest : list PollItem) (w : World) :
  pollCtx ∉ cancelled w ->
  pollJobResult pollCtx false (Select (CaseTick (Parsed raw)) :: rest) w =
    if bool_decide (raw_Status raw ∈ ["finished"; "success"; "succeeded"; "completed"])
    then (w, Some (Ok (raw_Result raw)))
    else if bool_decide (raw_Status raw ∈ ["failed"; "error"])
    then (w, Some (Fail (Errorf ("worker reported failure: " +:+ raw_Error raw))))
    else pollJobResult pollCtx false rest w.
Proof.
  intros Hnot. rewrite pollJobResult_tick by done.
  unfold tick, checkStatus, TaskStatusSuccess, TaskStatusFailed.
  cbn [taskOfRaw Task_Status Task_Result Task_Error].
  repeat case_decide; repeat case_bool_decide; try reflexivity; exfalso;
    repeat match goal with
           | Hin : context [_ ∈ _ :: _] |- _ => rewrite elem_of_cons in Hin
           | Hin : context [_ ∈ []] |- _ => rewrite elem_of_nil in Hin
           end; tauto.
Qed.

Lemma tryLayouts_none (ls : list string) (v : string) :
  (∀ l, l ∈ ls -> time_Parse l v = None) -> tryLayouts ls v = zeroTime.
Proof.
  induction ls as [|l ls IH]; intros Hall; [reflexivity|].
  cbn [tryLayouts]. rewrite Hall by apply list_elem_of_here.
  apply IH. intros l' Hl'. apply Hall. by apply list_elem_of_further.
Qed.

Lemma parseTime_noTimestamp (s : option string) :
  noTimestamp s -> parseTime s = zeroTime.
Proof.
  intros [-> | [-> | (v & -> & Hall)]]; [reflexivity..|].
  unfold parseTime. case_decide; [reflexivity|]. by apply tryLayouts_none.
Qed.

(** C8. A parsed job-status response whose four timestamp fields are
    absent, empty or unparseable is still normalised.  Each timestamp of
    the resulting task is the zero time; its id, type, status, progress,
    message, result, error text and estimated duration are the fields of
    the response; the decision of the tick is taken on the response's
    status, with the response's result or error text; and status, progress,
    result and decision are those of the same response carrying any other
    timestamps. *)
Theorem C8_timestamps_do_not_abort (raw : RawJob)
    (startedAt finishedAt createdAt updatedAt : option string) :
  noTimestamp (raw_StartedAt raw) ->
  noTimestamp (raw_FinishedAt raw) ->
  noTimestamp (raw_CreatedAt raw) ->
  noTimestamp (raw_UpdatedAt raw) ->
  let other := withTimestamps raw startedAt finishedAt createdAt updatedAt in
  (Task_StartedAt (taskOfRaw raw) = zeroTime ∧
   Task_FinishedAt (taskOfRaw raw) = zeroTime ∧
   Task_CreatedAt (taskOfRaw raw) = zeroTime ∧
   Task_UpdatedAt (taskOfRaw raw) = zeroTime) ∧
  (Task_Status (taskOfRaw raw) = raw_Status raw ∧
   Task_Progress (taskOfRaw raw) = raw_Progress raw ∧
   Task_Result (taskOfRaw raw) = raw_Result raw ∧
   Task_ID (taskOfRaw raw) = raw_ID raw ∧
   Task_Type (taskOfRaw raw) = raw_Type raw ∧
   Task_Message (taskOfRaw raw) = raw_Message raw ∧
   Task_Error (taskOfRaw raw) = raw_Error raw ∧
   Task_EstimatedDuration (taskOfRaw raw) = raw_EstimatedDuration raw) ∧
  (Task_Status (taskOfRaw raw) = Task_Status (taskOfRaw other) ∧
   Task_Progress (taskOfRaw raw) = Task_Progress (taskOfRaw other) ∧
   Task_Result (taskOfRaw raw) = Task_Result (taskOfRaw other)) ∧
  tick (Parsed raw) =
    (if bool_decide (raw_Status raw ∈
                       ["finished"; "success"; "succeeded"; "completed"])
     then Some (Ok (raw_Result raw))
     else if bool_decide (raw_Status raw ∈ ["failed"; "error"])
     then Some (Fail (Errorf ("worker reported failure: " +:+ raw_Error raw)))
     else None) ∧
  tick (Parsed raw) = checkStatus (taskOfRaw raw) ∧
  tick (Parsed raw) = tick (Parsed other).
Proof.
  intros Hs Hf Hc Hu other.
  split; [|split; [|split; [|split; [|split]]]].
  - cbn [taskOfRaw Task_StartedAt Task_FinishedAt Task_CreatedAt Task_UpdatedAt].
    by rewrite !parseTime_noTimestamp.
  - cbn [taskOfRaw Task_Status Task_Progress Task_Result Task_ID Task_Type
         Task_Message Task_Error Task_EstimatedDuration].
    by split_and!.
  - done.
  - unfold tick, checkStatus, TaskStatusSuccess, TaskStatusFailed.
    cbn [taskOfRaw Task_Status Task_Result Task_Error].
    repeat case_decide; repeat case_bool_decide; try reflexivity; exfalso;
      repeat match goal with
             | Hin : context [_ ∈ _ :: _] |- _ => rewrite elem_of_cons in Hin
             | Hin : context [_ ∈ []] |- _ => rewrite elem_of_nil in Hin
             end; tauto.
  - done.
  - done.
Qed.

End PollLoop.

(** ** What the engine writes into the task table *)

Section Writes.
Import models service api Spec.
Context `{TimeParser}.

Lemma updates_refl (P : TaskUpdate -> Prop) (d d' : DB) :
  sql_log d' = sql_log d -> task_table d' = task_table d -> updates P d d'.
Proof.
  intros Hlog Htbl. exists []. split; [constructor|].
  by rewrite app_nil_r.
Qed.

Lemma updates_trans (P : TaskUpdate -> Prop) (d1 d2 d3 : DB) :
  updates P d1 d2 -> updates P d2 d3 -> updates P d1 d3.
Proof.
  intros (n1 & HP1 & Hl1 & Ht1) (n2 & HP2 & Hl2 & Ht2).
  exists (n1 ++ n2)%list. split; [by apply Forall_app|].
  rewrite Hl2, Hl1, Ht2, Ht1. split; [by rewrite app_assoc|].
  unfold replay. by rewrite foldl_app.
Qed.

Lemma updates_weaken (P Q : TaskUpdate -> Prop) (d d' : DB) :
  (∀ u, P u -> Q u) -> updates P d d' -> updates Q d d'.
Proof.
  intros HPQ (new & HP & Hl & Ht). exists new. split; [|done].
  eapply Forall_impl; eauto.
Qed.

Lemma updates_exec (P : TaskUpdate -> Prop) (u : TaskUpdate) (d : DB) :
  P u -> updates P d (execTaskUpdate u d).
Proof.
  intros HP. exists [u]. split; [by constructor|]. done.
Qed.

Lemma updates_issued (P : TaskUpdate -> Prop) (d d' : DB) (u : TaskUpdate) :
  updates P d d' -> u ∈ issued d d' -> P u.
Proof.
  intros (new & HP & Hl & _). unfold issued. rewrite Hl, drop_app_length.
  intros Hin. by eapply Forall_forall in HP.
Qed.

(** Statements on other tasks leave the row of [tid] alone. *)
Lemma replay_other (tid : string) (us : list TaskUpdate)
    (tbl : gmap string TaskRow) :
  Forall (fun u => upd_id u ≠ tid) us -> replay tbl us !! tid = tbl !! tid.
Proof.
  revert tbl. induction us as [|u us IH]; intros tbl Hall; [done|].
  inversion Hall as [|?? Hu Hus]; subst. cbn [replay foldl].
  etrans; [apply IH; done|]. by rewrite lookup_alter_ne.
Qed.

Lemma updates_other (P : TaskUpdate -> Prop) (d d' : DB) (tid : string) :
  (∀ u, P u -> upd_id u ≠ tid) -> updates P d d' ->
  task_table d' !! tid = task_table d !! tid.
Proof.
  intros Hne (new & HP & _ & Ht). rewrite Ht. apply replay_other.
  eapply Forall_impl; eauto.
Qed.

(** [Task.UpdateStatus] issues at most the one statement it builds. *)
Lemma updates_UpdateStatus (P : TaskUpdate -> Prop) (now : Time) (t : Task)
    (status : string) (result : option TaskResult) (errMsg : string) (d : DB) :
  (∀ u, upd_id u = Task_ID t -> upd_status u = Some status ->
        upd_result u = result -> P u) ->
  updates P d (UpdateStatus now t status result errMsg d).1.
Proof.
  intros HP. unfold UpdateStatus. case_decide.
  - by apply updates_refl.
  - apply updates_exec. by apply HP.
Qed.

Lemma updates_updateStatus (P : TaskUpdate -> Prop) (t : Task)
    (status : string) (result : option TaskResult) (errMsg : string)
    (w : World) :
  (∀ u, upd_id u = Task_ID t -> upd_status u = Some status ->
        upd_result u = result -> P u) ->
  updates P (db w) (db (updateStatus t status result errMsg w)).
Proof. intros HP. by apply updates_UpdateStatus. Qed.

Lemma updates_markCancelled (tid msg : string) (w : World) :
  updates (fun u => upd_id u = tid ∧ upd_result u = None ∧
                    upd_status u = Some TaskStatusCancelled)
    (db w) (db (markCancelled tid msg w)).
Proof. apply updates_exec. done. Qed.

Lemma db_CancelPollTask (tid : string) (w : World) :
  db (CancelPollTask tid w).1 = db w.
Proof. unfold CancelPollTask. by destruct (pollCancelRegistry w !! tid). Qed.

(** While the loop runs the task table changes only by the marks of the
    other goroutines. *)
Lemma updates_pollJobResult (pollCtx : Ctx) (script : list PollItem) :
  ∀ (handlerDone : bool) (w : World),
    updates (concurrentMark script) (db w)
      (db (pollJobResult pollCtx handlerDone script w).1).
Proof.
  induction script as [|item rest IH]; intros handlerDone w.
  - by apply updates_refl.
  - assert (Hweak : ∀ hd w', updates (concurrentMark (item :: rest)) (db w')
              (db (pollJobResult pollCtx hd rest w').1)).
    { intros hd w'. eapply updates_weaken; [|apply IH].
      intros u (Hr & Hs & msg & Hin). repeat split; [done..|].
      exists msg. by apply list_elem_of_further. }
    destruct item as [c| |op]; cbn [pollJobResult].
    + destruct c as [|ctxErr|q].
      * by apply updates_refl.
      * destruct (handlerDone || bool_decide (pollCtx ∈ cancelled w));
          [by apply updates_refl | apply Hweak].
      * destruct (tick _); [by apply updates_refl | apply Hweak].
    + apply Hweak.
    + eapply updates_trans; [|apply Hweak].
      destruct op as [tid|tid msg]; cbn [runExternal].
      * apply updates_refl; by rewrite db_CancelPollTask.
      * eapply updates_weaken; [|apply updates_markCancelled].
        intros u (Hid & Hr & Hs). repeat split; [done..|].
        exists msg. rewrite Hid. apply list_elem_of_here.
Qed.

Lemma BatchCreateShots_tasks (shots : list ShotT) (d : DB) :
  sql_log (BatchCreateShots shots d).1 = sql_log d ∧
  task_table (BatchCreateShots shots d).1 = task_table d.
Proof.
  unfold BatchCreateShots. destruct shots; [done|].
  by destruct (_ && _).
Qed.

(** The result router writes shots only. *)
Lemma routeResult_tasks (env : RouteEnv) (task : Task) (r : TaskResult)
    (w : World) :
  sql_log (db (routeResult env task r w).1) = sql_log (db w) ∧
  task_table (db (routeResult env task r w).1) = task_table (db w).
Proof.
  unfold routeResult. repeat case_decide.
  - unfold handleStoryboardResult. case_decide; [done|].
    destruct (http_Get env _); [done|]. case_decide; [done|].
    destruct (storyboard_Decode env) as [[|s l]|]; [done| |done].
    destruct (BatchCreateShots _ _) as [d [e|]] eqn:Hb; [done|].
    pose proof (BatchCreateShots_tasks
                  (imap (newShot env (clock w) (Task_ProjectId task)) (s :: l))
                  (db w)) as Hd.
    rewrite Hb in Hd. done.
  - unfold handleImageResult.
    destruct (processResourceToMinIO _ _ _); [|done].
    destruct (GetShotByIDGorm _ _) as [shot|]; [|done].
    unfold UpdateImage. by case_decide.
  - unfold handleTTSResult. by destruct (processResourceToMinIO _ _ _).
  - unfold handleVideoResult. by destruct (processResourceToMinIO _ _ _).
  - done.
Qed.

Lemma GetTaskByIDGorm_ID (d : DB) (taskID : string) (task : Task) :
  GetTaskByIDGorm d taskID = Ok task -> Task_ID task = taskID.
Proof.
  unfold GetTaskByIDGorm. destruct (task_table d !! taskID); [|done].
  by intros [= <-].
Qed.

Lemma resultWriter_none (u : TaskUpdate) :
  upd_result u = None -> resultWriter u.
Proof. intros Hu r Hr. congruence. Qed.

(** From the return of the poll loop on, the handler issues one statement
    on its task: failed or finished. *)
Lemma updates_afterPoll (env : HandlerEnv) (task : Task)
    (polled : res TaskResult) (w : World) :
  updates (fun u => upd_id u = Task_ID task ∧ resultWriter u) (db w)
    (db (afterPoll env task polled w).1).
Proof.
  unfold afterPoll. destruct polled as [taskResult|err].
  - destruct (routeResult _ _ _ _) as [w' [e|]] eqn:Hroute;
      destruct (routeResult_tasks (env_route env) task taskResult w)
        as [Hlog Htbl]; rewrite Hroute in Hlog, Htbl;
      (eapply updates_trans; [by apply updates_refl|]);
      apply updates_updateStatus; intros u Hid Hst _; (split; [done|]);
      intros r _; rewrite Hst; auto.
  - apply updates_updateStatus. intros u Hid _ Hr. split; [done|].
    by apply resultWriter_none.
Qed.

(** Every statement of a handler run is one of its own on its task, or a
    mark set meanwhile by another goroutine. *)
Lemma updates_HandleGenerateTask (env : HandlerEnv) (taskID : string)
    (w : World) :
  updates (handlerWrite taskID (env_script env)) (db w)
    (db (HandleGenerateTask env (Ok taskID) w).1).
Proof.
  assert (Hown : ∀ (task : Task) st res msg w',
            Task_ID task = taskID -> res = None ->
            updates (handlerWrite taskID (env_script env)) (db w')
              (db (updateStatus task st res msg w'))).
  { intros task st res msg w' Hid ->. apply updates_updateStatus.
    intros u Hu _ Hr. left. split; [congruence|]. by apply resultWriter_none. }
  unfold HandleGenerateTask.
  destruct (GetTaskByIDGorm (db w) taskID) as [task|err] eqn:Hget;
    [|by apply updates_refl].
  apply GetTaskByIDGorm_ID in Hget.
  eapply updates_trans;
    [by apply (Hown task TaskStatusProcessing None "" w)|].
  case_decide.
  { by apply Hown. }
  destruct (dispatchWorkerRequest _ _ _) as [jobID|err].
  2: { by apply Hown. }
  cbn [WithCancel].
  match goal with
  | |- updates _ ?d0 _ =>
      match goal with
      | |- context [pollJobResult ?c ?h ?s ?w0] =>
          pose proof (updates_pollJobResult c s h w0) as Hpoll;
          assert (Hjob : updates (handlerWrite taskID (env_script env)) d0 (db w0));
          [|destruct (pollJobResult c h s w0) as [w' [polled|]]]
      end
  end.
  - unfold RegisterPollCancel, set_registry, set_db, UpdateTaskStatus.
    cbn [db]. apply updates_exec. left. split; [done|].
    intros r [= <-]. left. split; [done|]. by exists jobID.
  - eapply updates_trans; [exact Hjob|]. eapply updates_trans.
    + eapply updates_weaken; [|exact Hpoll]. intros u Hu. by right.
    + eapply updates_weaken; [|apply updates_afterPoll].
      intros u [Hid Hu]. left. split; [congruence|done].
  - eapply updates_trans; [exact Hjob|].
    eapply updates_weaken; [|exact Hpoll]. intros u Hu. by right.
Qed.

(** The ids a cancellation pass selects are those of the processing tasks
    of the shot or project. *)
Lemma selectedIds_spec (sel : Selector) (w : World) (tid : string) :
  tid ∈ selectedIds sel w ↔
  ∃ r, taskRow w tid = Some r ∧ selects sel r = true.
Proof.
  unfold selectedIds, taskRow. rewrite list_elem_of_fmap. split.
  - intros ([k r] & -> & Hin). apply elem_of_map_to_list in Hin.
    apply map_lookup_filter_Some in Hin as [Hk Hsel]. eauto.
  - intros (r & Hk & Hsel). exists (tid, r). split; [done|].
    apply elem_of_map_to_list. by apply map_lookup_filter_Some.
Qed.

Lemma updates_cancelAll (msg : string) (ids : list string) :
  ∀ w : World,
    updates (fun u => upd_id u ∈ ids ∧ upd_result u = None) (db w)
      (db (foldl (cancelOne msg) w ids)).
Proof.
  induction ids as [|tid ids IH]; intros w; [by apply updates_refl|].
  cbn [foldl]. apply (updates_trans _ _ (db (cancelOne msg w tid))).
  - unfold cancelOne. rewrite <- (db_CancelPollTask tid w) at 1.
    eapply updates_weaken; [|apply updates_markCancelled].
    intros u (Hid & Hr & _). split; [|done]. rewrite Hid. apply list_elem_of_here.
  - eapply updates_weaken; [|apply IH]. intros u [Hin Hr]. split; [|done].
    by apply list_elem_of_further.
Qed.

(** A cancellation pass writes only on the tasks it selected, and never
    their result. *)
Lemma updates_cancelProcessingTasks (sel : Selector) (msg : string)
    (w : World) :
  updates (fun u => upd_id u ∈ selectedIds sel w ∧ upd_result u = None)
    (db w) (db (cancelProcessingTasks sel msg w)).
Proof. apply updates_cancelAll. Qed.

End Writes.

(** ** The queue handler and the cancellation pass *)

Section Engine.
Import models service api Spec.
Context `{TimeParser}.

(** Marking a task does not change what the dispatcher reads. *)
Lemma dispatch_updateStatus (post : PostOutcome) (task t : Task)
    (status : string) (result : option TaskResult) (errMsg : string)
    (w : World) :
  dispatchWorkerRequest post task (db (updateStatus t status result errMsg w)) =
  dispatchWorkerRequest post task (db w).
Proof.
  unfold updateStatus, UpdateStatus. cbn [db set_db]. by case_decide.
Qed.

(** Once the poll loop has returned, the handler returns [nil]. *)
Lemma afterPoll_returns (env : HandlerEnv) (task : Task)
    (polled : res TaskResult) (w : World) :
  (afterPoll env task polled w).2 = Returned None.
Proof.
  unfold afterPoll. destruct polled as [taskResult|err]; [|done].
  by destruct (routeResult _ _ _ _) as [w' [e|]].
Qed.

(** The errors of the handler.  For a delivered task id the handler
    returns an error to the queue in exactly two cases: the task record
    cannot be loaded (the error is the plain "task not found: ..."), or the
    task is not of type create_project and the dispatcher fails (the error
    is the dispatcher's).  In every other outcome, among them poll timeout,
    cancellation, a failure reported by the worker and a routing failure,
    no error is returned. *)
Lemma HandleGenerateTask_error (env : HandlerEnv) (taskID : string) (w : World)
    (e : error) :
  (HandleGenerateTask env (Ok taskID) w).2 = Returned (Some e) ↔
  (∃ err, GetTaskByIDGorm (db w) taskID = Fail err ∧
          e = Errorf ("task not found: " +:+ Error err)) ∨
  (∃ task, GetTaskByIDGorm (db w) taskID = Ok task ∧
           Task_Type task ≠ "create_project" ∧
           dispatchWorkerRequest (env_post env) task (db w) = Fail e).
Proof.
  unfold HandleGenerateTask.
  destruct (GetTaskByIDGorm (db w) taskID) as [task|err].
  - case_decide as Hty.
    + cbn [snd]. split; [done|]. intros [(? & ? & _)|(t & [= <-] & Hne & _)]; done.
    + rewrite dispatch_updateStatus.
      destruct (dispatchWorkerRequest (env_post env) task (db w))
        as [jobID|err] eqn:Hd.
      * cbn [WithCancel].
        destruct (pollJobResult _ _ _ _) as [w' [polled|]]; cbn [snd].
        -- rewrite afterPoll_returns. split; [done|].
           intros [(? & ? & _)|(t & [= <-] & _ & ?)]; congruence.
        -- split; [done|].
           intros [(? & ? & _)|(t & [= <-] & _ & ?)]; congruence.
      * cbn [snd]. split.
        -- intros [= <-]. right. by exists task.
        -- intros [(? & ? & _)|(t & [= <-] & _ & ?)]; congruence.
  - cbn [snd]. split.
    + intros [= <-]. left. by exists err.
    + intros [(err' & [= <-] & ->)|(t & ? & _)]; done.
Qed.

(** C3 (as the code has it). Every statement of an engine operation that
    sets the result column has one of three shapes: it stores the job id
    as the result's resource id and sets the status to processing, or it
    attaches a result and sets the status to failed, or it attaches a
    result and sets the status to finished. *)
Theorem C3_result_writers (op : EngineOp) (w : World) (u : TaskUpdate)
    (r : TaskResult) :
  u ∈ issued (db w) (db (runOp op w)) ->
  upd_result u = Some r ->
  (upd_status u = Some TaskStatusProcessing ∧ ∃ jobID, r = jobResult jobID) ∨
  upd_status u = Some TaskStatusFailed ∨
  upd_status u = Some TaskStatusSuccess.
Proof.
  intros Hin Hr. revert r Hr. change (resultWriter u).
  destruct op as [env [taskID|err]|sel msg]; cbn [runOp] in Hin.
  - eapply updates_issued in Hin; [|apply updates_HandleGenerateTask].
    destruct Hin as [[_ Hu]|[Hu _]]; [done|by apply resultWriter_none].
  - unfold issued in Hin. cbn in Hin. rewrite drop_all in Hin.
    by apply elem_of_nil in Hin.
  - eapply updates_issued in Hin; [|apply updates_cancelProcessingTasks].
    apply resultWriter_none, Hin.
Qed.

(** C5 (as the code has it). A task in a terminal status keeps its whole
    row, status included, under a cancellation pass and under a handler run
    that is delivered for another task id and during which no goroutine
    marks it cancelled. *)
Theorem C5_terminal_status_kept (op : EngineOp) (w : World) (tid : string)
    (row : TaskRow) :
  taskRow w tid = Some row ->
  terminal (row_status row) ->
  ¬ concerns op tid ->
  taskRow (runOp op w) tid = Some row.
Proof.
  intros Hrow Hterm Hnot. unfold taskRow in *. rewrite <- Hrow.
  destruct op as [env [taskID|err]|sel msg]; cbn [runOp concerns] in *.
  - eapply updates_other; [|apply updates_HandleGenerateTask].
    intros u [[Hid _]|(_ & _ & msg & Hin)] Heq.
    + apply Hnot. left. congruence.
    + apply Hnot. right. intros Hum. apply (Hum msg). by rewrite <- Heq.
  - done.
  - eapply updates_other; [|apply updates_cancelProcessingTasks].
    intros u [Hin _] Heq. rewrite Heq in Hin.
    apply selectedIds_spec in Hin as (r & Hr & Hsel).
    unfold taskRow in Hr. rewrite Hrow in Hr. injection Hr as <-.
    unfold selects in Hsel. apply andb_true_iff in Hsel as [_ Hst].
    apply bool_decide_eq_true in Hst. rewrite Hst in Hterm.
    by destruct Hterm as [?|[?|?]].
Qed.

End Engine.

(** ** What is stored with a task *)

Section Persistence.
Import models service api Spec.

Lemma resultShotId_empty (task : Task) :
  Task_ShotId task = "" ->
  resultShotId task =
    match Shot (Task_Parameters task) with
    | Some shot => SP_ShotId shot
    | None => ""
    end.
Proof.
  intros Hempty. unfold resultShotId. rewrite Hempty.
  case_decide; [|done]. by destruct (Shot _).
Qed.

(** The statements of the engine never touch the shot_id, the type or
    the parameters of a row, and never remove a row. *)
Lemma replay_static (us : list TaskUpdate) :
  ∀ (tbl : gmap string TaskRow) (id : string) (row : TaskRow),
    tbl !! id = Some row ->
    ∃ row', replay tbl us !! id = Some row' ∧
            row_shot_id row' = row_shot_id row ∧
            row_type row' = row_type row ∧
            row_parameters row' = row_parameters row.
Proof.
  induction us as [|u us IH]; intros tbl id row Hrow; [by exists row|].
  cbn [replay foldl]. destruct (decide (upd_id u = id)) as [<-|Hne].
  - destruct (IH (alter (applyTaskUpdate u) (upd_id u) tbl) (upd_id u)
                (applyTaskUpdate u row)) as (row' & Hr & ? & ? & ?).
    { by rewrite lookup_alter_eq, Hrow. }
    by exists row'.
  - apply IH. by rewrite lookup_alter_ne.
Qed.

(** C9. A task inserted through [CreateTask] has a [NULL] shot_id
    whatever its [ShotId] field held, and keeps it under every later
    status update; read back by id, natively or through GORM, its [ShotId]
    is empty; so the per-shot branches of the result router, which prefer
    the record's [ShotId] when it is not empty, work on the [ShotId] of the
    [Shot] parameters (the empty string when the task carries no [Shot]
    parameters). *)
Theorem C9_shot_id_from_parameters (now : Time) (t : Task) (d d' d'' : DB) :
  CreateTask now t d = (d', None) ->
  updates (fun _ => True) d' d'' ->
  let paramShotId :=
    match Shot (Task_Parameters t) with
    | Some shot => SP_ShotId shot
    | None => ""
    end in
  (∃ row, task_table d' !! Task_ID t = Some row ∧ row_shot_id row = None) ∧
  (∃ row, task_table d'' !! Task_ID t = Some row ∧ row_shot_id row = None) ∧
  (∃ t1, GetTaskByID (Task_ID t) d'' = Ok t1 ∧ Task_ShotId t1 = "") ∧
  (∃ t2, GetTaskByIDGorm d'' (Task_ID t) = Ok t2 ∧ Task_ShotId t2 = "" ∧
         resultShotId t2 = paramShotId ∧
         ∀ env r w,
           (Task_Type t = TaskTypeShotImage ∨ Task_Type t = "regenerate_shot" ->
            routeResult env t2 r w = handleImageResult env paramShotId r w) ∧
           (Task_Type t = TaskTypeProjectAudio ->
            routeResult env t2 r w = handleTTSResult env paramShotId r w) ∧
           (Task_Type t = TaskTypeVideoGen ->
            routeResult env t2 r w = handleVideoResult env paramShotId r w)).
Proof.
  intros Hcreate (new & _ & _ & Htbl) paramShotId. unfold CreateTask in Hcreate.
  destruct (task_table d !! Task_ID t); [done|].
  injection Hcreate as <-. cbn [task_table set_task_table] in *.
  match type of Htbl with
  | _ = replay (<[_ := ?row0]> ?tbl0) _ =>
      destruct (replay_static new (<[Task_ID t := row0]> tbl0) (Task_ID t) row0
                  (lookup_insert_eq tbl0 (Task_ID t) row0))
        as (row & Hrow & Hshot & Hty & Hpar)
  end.
  rewrite <- Htbl in Hrow. cbn [row_shot_id row_type row_parameters] in *.
  split; [rewrite lookup_insert_eq; eauto|].
  split; [eauto|].
  unfold GetTaskByID, GetTaskByIDGorm. rewrite Hrow.
  split; [eauto|].
  eexists. split; [done|]. cbn [Task_ShotId]. rewrite Hshot.
  split; [done|]. split.
  { rewrite resultShotId_empty by reflexivity.
    cbn [Task_Parameters]. by rewrite Hpar. }
  intros env r w. unfold routeResult.
  rewrite resultShotId_empty by reflexivity.
  cbn [Task_Type Task_Parameters Task_ProjectId]. rewrite Hty, Hpar.
  unfold TaskTypeShotImage, TaskTypeProjectAudio, TaskTypeVideoGen,
    TaskTypeStoryboard.
  split; [|split]; intros Htype; repeat case_decide; try done;
    destruct_or?; congruence.
Qed.

End Persistence.

(** ** The queue and the registry *)

Section Frames.
Import models service api Spec.
Context `{TimeParser}.

Lemma queue_CancelPollTask (tid : string) (w : World) :
  queue (CancelPollTask tid w).1 = queue w.
Proof. unfold CancelPollTask. by destruct (pollCancelRegistry w !! tid). Qed.

Lemma queue_pollJobResult (pollCtx : Ctx) (script : list PollItem) :
  ∀ (handlerDone : bool) (w : World),
    queue (pollJobResult pollCtx handlerDone script w).1 = queue w.
Proof.
  induction script as [|item rest IH]; intros handlerDone w; [done|].
  destruct item as [c| |op]; cbn [pollJobResult].
  - destruct c as [|ctxErr|q]; [done| |].
    + by destruct (handlerDone || bool_decide (pollCtx ∈ cancelled w)).
    + by destruct (tick _).
  - apply IH.
  - rewrite IH. destruct op as [tid|tid msg]; cbn [runExternal].
    + apply queue_CancelPollTask.
    + done.
Qed.

Lemma queue_routeResult (env : RouteEnv) (task : Task) (r : TaskResult)
    (w : World) :
  queue (routeResult env task r w).1 = queue w.
Proof.
  unfold routeResult. repeat case_decide.
  - unfold handleStoryboardResult. case_decide; [done|].
    destruct (http_Get env _); [done|]. case_decide; [done|].
    destruct (storyboard_Decode env) as [[|s l]|]; [done| |done].
    by destruct (BatchCreateShots _ _) as [d [e|]].
  - unfold handleImageResult.
    destruct (processResourceToMinIO _ _ _); [|done].
    destruct (GetShotByIDGorm _ _) as [shot|]; [|done].
    by destruct (UpdateImage _ _ _ _).
  - unfold handleTTSResult. by destruct (processResourceToMinIO _ _ _).
  - unfold handleVideoResult. by destruct (processResourceToMinIO _ _ _).
  - done.
Qed.

(** The handler never hands a task id to the queue. *)
Lemma queue_HandleGenerateTask (env : HandlerEnv) (payload : res string)
    (w : World) :
  queue (HandleGenerateTask env payload w).1 = queue w.
Proof.
  unfold HandleGenerateTask. destruct payload as [taskID|err]; [|done].
  destruct (GetTaskByIDGorm (db w) taskID) as [task|err]; [|done].
  case_decide; [done|].
  destruct (dispatchWorkerRequest _ _ _) as [jobID|err]; [|done].
  cbn [WithCancel].
  match goal with
  | |- context [pollJobResult ?c ?h ?s ?w0] =>
      pose proof (queue_pollJobResult c s h w0) as Hq;
      destruct (pollJobResult c h s w0) as [w' [polled|]]
  end; cbn [fst] in *; [|done].
  unfold afterPoll. destruct polled as [taskResult|err']; [|done].
  pose proof (queue_routeResult (env_route env) task taskResult w') as Hr.
  destruct (routeResult _ _ _ _) as [w'' [e|]]; cbn [fst] in *;
    (etrans; [exact Hr|exact Hq]).
Qed.

(** A handler run leaves the rows of the other tasks as they are, unless
    another goroutine marks them meanwhile. *)
Lemma HandleGenerateTask_other_rows (env : HandlerEnv) (taskID tid : string)
    (w : World) :
  tid ≠ taskID -> unmarked tid (env_script env) ->
  taskRow (HandleGenerateTask env (Ok taskID) w).1 tid = taskRow w tid.
Proof.
  intros Hne Hum. unfold taskRow.
  eapply updates_other; [|apply updates_HandleGenerateTask].
  intros u [[Hid _]|(_ & _ & msg & Hin)] Heq; [congruence|].
  apply (Hum msg). by rewrite <- Heq.
Qed.

(** [CancelPollTask] on a registered task calls its [CancelFunc] and
    removes the handle. *)
Lemma CancelPollTask_found (tid : string) (c : Ctx) (w : World) :
  pollCancelRegistry w !! tid = Some c ->
  (CancelPollTask tid w).2 = true ∧
  pollCancelRegistry (CancelPollTask tid w).1 !! tid = None ∧
  c ∈ cancelled (CancelPollTask tid w).1.
Proof.
  intros Hreg. unfold CancelPollTask. rewrite Hreg. cbn.
  split; [done|]. split; [apply lookup_delete_eq | set_solver].
Qed.

(** Once its [CancelFunc] has been called, a wake-up of the loop on
    [ctx.Done()] ends it with the cancellation error. *)
Lemma pollJobResult_cancelled (pollCtx : Ctx) (handlerDone : bool)
    (ctxErr : string) (rest : list PollItem) (w : World) :
  pollCtx ∈ cancelled w ->
  pollJobResult pollCtx handlerDone (Select (CaseCtxDone ctxErr) :: rest) w =
    (w, Some (Fail (Errorf ("polling canceled: " +:+ ctxErr)))).
Proof.
  intros Hc. cbn [pollJobResult]. rewrite bool_decide_eq_true_2 by done.
  by rewrite orb_true_r.
Qed.

End Frames.

(** ** The error column *)

Section ErrorColumn.
Import models service api Spec.

(** [Task.UpdateStatus] sets the error column of the task's row to a
    non-empty message and leaves every other error column, and the task's
    own under an empty message, as it was. *)
Lemma UpdateStatus_error (now : Time) (t : Task) (status : string)
    (result : option TaskResult) (errMsg : string) (d : DB) (id : string) :
  row_error <$> (task_table (UpdateStatus now t status result errMsg d).1 !! id) =
    if decide (errMsg ≠ "" ∧ id = Task_ID t ∧ Task_ID t ≠ "")
    then (fun _ => Some errMsg) <$> (task_table d !! id)
    else row_error <$> (task_table d !! id).
Proof.
  unfold UpdateStatus. case_decide as Hid; cbn [fst].
  - case_decide; [tauto|done].
  - cbn [execTaskUpdate task_table upd_id].
    destruct (decide (id = Task_ID t)) as [->|Hne].
    + rewrite lookup_alter_eq. destruct (task_table d !! Task_ID t); cbn.
      * repeat case_decide; try done; tauto.
      * by case_decide.
    + rewrite lookup_alter_ne by done. case_decide; [tauto|done].
Qed.

End ErrorColumn.

(** ** The scenarios, run *)

Section Scenarios.
Import models service api Spec Scenario.

(** C1, on the code. Scenario B: the storyboard task of a project with
    three blocked shot tasks is delivered, the worker accepts the job and
    reports "succeeded", the storyboard has three shots.  The handler
    returns [nil], the task is finished and three shots exist; the three
    tasks that depend on it are still blocked and nothing has been handed
    to the queue. *)
Theorem C1_dependents_stay_blocked :
  (@HandleGenerateTask demoParser envSucceeded (Ok "T") w1).2 = Returned None ∧
  (row_status <$> taskRow w1 "T" = Some TaskStatusPending ∧
   row_status <$>
     taskRow (@HandleGenerateTask demoParser envSucceeded (Ok "T") w1).1 "T" =
     Some TaskStatusSuccess) ∧
  size (shot_table (db (@HandleGenerateTask demoParser envSucceeded (Ok "T") w1).1))
    = 3%nat ∧
  ((fun r => (row_status r, DependsOn (row_parameters r))) <$>
     taskRow (@HandleGenerateTask demoParser envSucceeded (Ok "T") w1).1 "S1" =
     Some (TaskStatusBlocked, ["T"]) ∧
   (fun r => (row_status r, DependsOn (row_parameters r))) <$>
     taskRow (@HandleGenerateTask demoParser envSucceeded (Ok "T") w1).1 "S2" =
     Some (TaskStatusBlocked, ["T"]) ∧
   (fun r => (row_status r, DependsOn (row_parameters r))) <$>
     taskRow (@HandleGenerateTask demoParser envSucceeded (Ok "T") w1).1 "S3" =
     Some (TaskStatusBlocked, ["T"])) ∧
  (queue w1 = ["T"] ∧
   queue (@HandleGenerateTask demoParser envSucceeded (Ok "T") w1).1 = ["T"]).
Proof.
  split; [vm_compute; reflexivity|].
  split; [split; vm_compute; reflexivity|].
  split; [vm_compute; reflexivity|].
  split; [repeat split; vm_compute; reflexivity|].
  split; [reflexivity|]. rewrite queue_HandleGenerateTask. reflexivity.
Qed.

(** C2, on the code. The task id "ghost" is delivered but names no
    record (its row was deleted while the message was queued).  The
    dispatcher is never called, yet the handler returns an error to the
    queue: the plain "task not found: record not found", which does not
    wrap [SkipRetry], so the queue delivers the message again; the state
    is unchanged, so the next delivery ends the same way.  The error of
    the step just before, for a message that does not unmarshal, does
    wrap [SkipRetry]. *)
Theorem C2_not_found_returns_error :
  GetTaskByIDGorm (db w0) "ghost" = Fail ErrRecordNotFound ∧
  @HandleGenerateTask demoParser envSucceeded (Ok "ghost") w0 =
    (w0, Returned (Some (Errorf "task not found: record not found"))) ∧
  wrapsSkipRetry (Errorf "task not found: record not found") = false ∧
  ∃ e, (@HandleGenerateTask demoParser envSucceeded
          (Fail (Errorf "unexpected end of JSON input")) w0).2 =
         Returned (Some e) ∧
       wrapsSkipRetry e = true.
Proof.
  split; [reflexivity|]. split; [reflexivity|]. split; [reflexivity|].
  eexists. split; reflexivity.
Qed.

(** C3, counterexample. After a successful dispatch, while the handler is
    still polling, the task is processing and its result column already
    holds the job id. *)
Lemma C3_job_id_written_while_processing :
  (@HandleGenerateTask demoParser envPolling (Ok "T") w1).2 = StillPolling ∧
  row_result <$> taskRow w1 "T" = Some emptyResult ∧
  (fun r => (row_status r, row_result r)) <$>
    taskRow (@HandleGenerateTask demoParser envPolling (Ok "T") w1).1 "T" =
    Some (TaskStatusProcessing, jobResult "job-1") ∧
  issued (db w1) (db (@HandleGenerateTask demoParser envPolling (Ok "T") w1).1)
    !! 1%nat = Some jobWrite.
Proof. repeat split; vm_compute; reflexivity. Qed.

(** C4, on the code. Scenario E: while the handler polls the storyboard
    task, [CancelPollTask] is called on it and the task is marked
    cancelled; the loop then wakes up on [ctx.Done()].  The poll ends with
    the cancellation error and the registry holds no handle for the task,
    but the handler's own status update comes last: the final status is
    failed.  The status is cancelled only when the mark is written after
    the handler has returned. *)
Theorem C4_cancelled_poll_ends_failed :
  (@HandleGenerateTask demoParser envCancelled (Ok "T") w1).2 = Returned None ∧
  pollCancelRegistry (@HandleGenerateTask demoParser envCancelled (Ok "T") w1).1
    !! "T" = None ∧
  (fun r => (row_status r, row_error r)) <$>
    taskRow (@HandleGenerateTask demoParser envCancelled (Ok "T") w1).1 "T" =
    Some (TaskStatusFailed,
          Some "Job Failed: polling canceled: context canceled") ∧
  upd_status <$>
    issued (db w1) (db (@HandleGenerateTask demoParser envCancelled (Ok "T") w1).1)
    = [Some TaskStatusProcessing; Some TaskStatusProcessing;
       Some TaskStatusCancelled; Some TaskStatusFailed] ∧
  row_status <$>
    taskRow
      (markCancelled "T" "cancelled due to project update"
         (@HandleGenerateTask demoParser envCancelledLate (Ok "T") w1).1) "T" =
    Some TaskStatusCancelled.
Proof. repeat split; vm_compute; reflexivity. Qed.

(** C5, counterexample. The storyboard task is failed after a rejected
    dispatch; the queue delivers it again and the handler sets it back to
    processing. *)
Lemma C5_failed_task_reprocessed :
  row_status <$>
    taskRow (@HandleGenerateTask demoParser envRejected (Ok "T") w1).1 "T" =
    Some TaskStatusFailed ∧
  row_status <$>
    taskRow
      (@HandleGenerateTask demoParser envPolling (Ok "T")
         (@HandleGenerateTask demoParser envRejected (Ok "T") w1).1).1 "T" =
    Some TaskStatusProcessing.
Proof. split; vm_compute; reflexivity. Qed.

(** C10. [Task.UpdateStatus] changes the error column of a row only when
    the message is not empty (and then only of the task's own row); under
    an empty message every stored error text stays.  So the storyboard
    task, failed by a rejected dispatch and finished on redelivery, is
    finished and still carries the error text of the failure. *)
Theorem C10_error_kept_on_empty_message :
  (∀ now t status result errMsg d id,
     row_error <$>
       (task_table (UpdateStatus now t status result errMsg d).1 !! id) =
       if decide (errMsg ≠ "" ∧ id = Task_ID t ∧ Task_ID t ≠ "")
       then (fun _ => Some errMsg) <$> (task_table d !! id)
       else row_error <$> (task_table d !! id)) ∧
  (∀ now t status result d id,
     row_error <$> (task_table (UpdateStatus now t status result "" d).1 !! id) =
     row_error <$> (task_table d !! id)) ∧
  (fun r => (row_status r, row_error r)) <$>
    taskRow (@HandleGenerateTask demoParser envRejected (Ok "T") w1).1 "T" =
    Some (TaskStatusFailed,
          Some "Worker Request Failed: worker status code: 500") ∧
  (fun r => (row_status r, row_error r)) <$>
    taskRow
      (@HandleGenerateTask demoParser envSucceeded (Ok "T")
         (@HandleGenerateTask demoParser envRejected (Ok "T") w1).1).1 "T" =
    Some (TaskStatusSuccess,
          Some "Worker Request Failed: worker status code: 500").
Proof.
  split; [apply UpdateStatus_error|].
  split.
  { intros. rewrite UpdateStatus_error. case_decide; [tauto|done]. }
  split; vm_compute; reflexivity.
Qed.

End Scenarios.

(** ** The theorems at concrete inputs *)

Section Instances.
Import models service api Spec Scenario.

(** The handler at a rejected dispatch: it returns the dispatcher's
    error. *)
Lemma HandleGenerateTask_error_rejected :
  (@HandleGenerateTask demoParser envRejected (Ok "T") w1).2 =
    Returned (Some (Errorf "worker status code: 500")) ∧
  ∃ task, GetTaskByIDGorm (db w1) "T" = Ok task ∧
          dispatchWorkerRequest (env_post envRejected) task (db w1) =
            Fail (Errorf "worker status code: 500").
Proof.
  split; [vm_compute; reflexivity|].
  destruct (proj1 (@HandleGenerateTask_error demoParser envRejected "T" w1
                     (Errorf "worker status code: 500")))
    as [(err & Hget & _)|(task & Hget & _ & Hd)].
  - vm_compute; reflexivity.
  - exfalso. vm_compute in Hget. discriminate Hget.
  - by exists task.
Defined.

(** C3 at the job id written for the storyboard task. *)
Lemma C3_result_writers_job_id :
  jobWrite ∈ issued (db w1)
    (db (@runOp demoParser (Handle envPolling (Ok "T")) w1)) ∧
  upd_result jobWrite = Some (jobResult "job-1") ∧
  ((upd_status jobWrite = Some TaskStatusProcessing ∧
    ∃ jobID, jobResult "job-1" = jobResult jobID) ∨
   upd_status jobWrite = Some TaskStatusFailed ∨
   upd_status jobWrite = Some TaskStatusSuccess).
Proof.
  assert (Hin : jobWrite ∈ issued (db w1)
            (db (@runOp demoParser (Handle envPolling (Ok "T")) w1))).
  { apply (list_elem_of_lookup_2 _ 1%nat). vm_compute. reflexivity. }
  split; [exact Hin|]. split; [reflexivity|].
  exact (@C3_result_writers demoParser (Handle envPolling (Ok "T")) w1
           jobWrite (jobResult "job-1") Hin eq_refl).
Defined.

(** C5 at the finished storyboard task, while the handler runs for the
    shot task "S1". *)
Lemma C5_terminal_status_kept_finished :
  taskRow (@HandleGenerateTask demoParser envSucceeded (Ok "T") w1).1 "T" =
    Some finishedRow ∧
  terminal (row_status finishedRow) ∧
  ¬ concerns (Handle envPolling (Ok "S1")) "T" ∧
  taskRow
    (@runOp demoParser (Handle envPolling (Ok "S1"))
       (@HandleGenerateTask demoParser envSucceeded (Ok "T") w1).1) "T" =
    Some finishedRow.
Proof.
  assert (Hrow : taskRow
            (@HandleGenerateTask demoParser envSucceeded (Ok "T") w1).1 "T" =
            Some finishedRow) by (vm_compute; reflexivity).
  assert (Hterm : terminal (row_status finishedRow)) by (left; reflexivity).
  assert (Hnot : ¬ concerns (Handle envPolling (Ok "S1")) "T").
  { intros [Heq|Hmark]; [discriminate Heq|]. apply Hmark. intros msg Hin.
    apply list_elem_of_singleton in Hin. discriminate Hin. }
  split; [exact Hrow|]. split; [exact Hterm|]. split; [exact Hnot|].
  exact (@C5_terminal_status_kept demoParser (Handle envPolling (Ok "S1")) _
           "T" finishedRow Hrow Hterm Hnot).
Defined.

(** C6 at the accepted submission of the storyboard task. *)
Lemma C6_dispatch_job_id_accepted :
  dispatchPrecheck textTask db0 = None ∧
  dispatchWorkerRequest accepted textTask db0 = Ok "job-1".
Proof.
  assert (Hpre : dispatchPrecheck textTask db0 = None) by reflexivity.
  split; [exact Hpre|].
  exact (proj1 (proj2 (C6_dispatch_job_id textTask db0 202
                         (Ok {["id" := JString "job-1"]}) Hpre))
           {["id" := JString "job-1"]} "job-1"
           (or_intror (or_intror eq_refl)) eq_refl eq_refl).
Defined.

(** C7 at a worker that reports "succeeded". *)
Lemma C7_poll_terminal_detection_succeeded :
  (0%nat ∉ cancelled w0) ∧
  pollJobResult (H := demoParser) 0%nat false
    [Select (CaseTick (Parsed (rawJob "succeeded" "" None)))] w0 =
    (w0, Some (Ok (raw_Result (rawJob "succeeded" "" None)))).
Proof.
  assert (Hlive : 0%nat ∉ cancelled w0) by apply not_elem_of_empty.
  split; [exact Hlive|].
  exact (@C7_poll_terminal_detection demoParser 0%nat
           (rawJob "succeeded" "" None) [] w0 Hlive).
Defined.

Lemma demoParser_yesterday (l : string) :
  l ∈ layouts -> time_Parse (TimeParser := demoParser) l "yesterday" = None.
Proof.
  intros _. unfold time_Parse, demoParser. case_decide as Hd; [|reflexivity].
  destruct Hd as [_ Hd]. discriminate Hd.
Qed.

(** C8 at a response whose timestamps are absent, empty and "yesterday",
    against the same response with RFC 3339 timestamps. *)
Lemma C8_timestamps_do_not_abort_demo :
  (noTimestamp (H := demoParser) None ∧
   noTimestamp (H := demoParser) (Some "") ∧
   noTimestamp (H := demoParser) (Some "yesterday")) ∧
  Task_UpdatedAt (taskOfRaw (H := demoParser) (rawJob "succeeded" "" None)) =
    zeroTime ∧
  Task_UpdatedAt
    (taskOfRaw (H := demoParser)
       (withTimestamps (rawJob "succeeded" "" None) stamp stamp stamp stamp)) =
    1714557600 ∧
  (Task_Status (taskOfRaw (H := demoParser) (rawJob "succeeded" "" None)) =
     "succeeded" ∧
   Task_Progress (taskOfRaw (H := demoParser) (rawJob "succeeded" "" None)) =
     100 ∧
   Task_Result (taskOfRaw (H := demoParser) (rawJob "succeeded" "" None)) =
     {| ResourceType := "json"; ResourceId := "sb-1";
        ResourceUrl := "http://worker/sb.json" |}) ∧
  tick (H := demoParser) (Parsed (rawJob "succeeded" "" None)) =
    Some (Ok {| ResourceType := "json"; ResourceId := "sb-1";
                ResourceUrl := "http://worker/sb.json" |}) ∧
  tick (H := demoParser) (Parsed (rawJob "succeeded" "" None)) =
    tick (H := demoParser)
      (Parsed (withTimestamps (rawJob "succeeded" "" None) stamp stamp stamp stamp)).
Proof.
  assert (Hnone : noTimestamp (H := demoParser) None) by (left; reflexivity).
  assert (Hempty : noTimestamp (H := demoParser) (Some ""))
    by (right; left; reflexivity).
  assert (Hbad : noTimestamp (H := demoParser) (Some "yesterday")).
  { right; right. exists "yesterday". split; [reflexivity|].
    exact demoParser_yesterday. }
  destruct (@C8_timestamps_do_not_abort demoParser
              (rawJob "succeeded" "" None) stamp stamp stamp stamp
              Hnone Hnone Hempty Hbad)
    as ((_ & _ & _ & Hupd) & (Hst & Hpr & Hres & _) & _ & Hdec & _ & Htick).
  split; [by repeat split|]. split; [exact Hupd|].
  split; [reflexivity|]. split; [by repeat split|].
  split; [exact Hdec|exact Htick].
Defined.

(** C9 at a shot-image task whose [ShotId] field was filled in, read back
    after the job id has been stored on it. *)
Lemma C9_shot_id_from_parameters_regen :
  CreateTask 100 regenTask db0 = (dbRegen, None) ∧
  Task_ShotId regenTask = "shot-9" ∧
  (∃ row, task_table dbRegen !! "R" = Some row ∧ row_shot_id row = None) ∧
  ∃ t2, GetTaskByIDGorm (execTaskUpdate regenJobWrite dbRegen) "R" = Ok t2 ∧
        Task_ShotId t2 = "" ∧ resultShotId t2 = "shot-9".
Proof.
  assert (Hc : CreateTask 100 regenTask db0 = (dbRegen, None)) by reflexivity.
  destruct (C9_shot_id_from_parameters 100 regenTask db0 dbRegen
              (execTaskUpdate regenJobWrite dbRegen) Hc
              (updates_exec (fun _ => True) regenJobWrite dbRegen I))
    as (Hrow & _ & _ & t2 & Hget & Hempty & Hid & _).
  split; [exact Hc|]. split; [reflexivity|]. split; [exact Hrow|].
  exists t2. by repeat split.
Defined.

End Instances.

(** ** The cancellation registry *)

Section Registry.
Import models service api Spec Spec2.

(** X1. [CancelPollTask] finds a registered handle exactly once: after
    [RegisterPollCancel] it returns true, calls the [CancelFunc] and
    removes the handle; called again at once it returns false and changes
    nothing. *)
Theorem X1_cancel_once (tid : string) (c : Ctx) (w : World) :
  (CancelPollTask tid (RegisterPollCancel tid c w)).2 = true ∧
  c ∈ cancelled (CancelPollTask tid (RegisterPollCancel tid c w)).1 ∧
  pollCancelRegistry (CancelPollTask tid (RegisterPollCancel tid c w)).1 !! tid
    = None ∧
  CancelPollTask tid (CancelPollTask tid (RegisterPollCancel tid c w)).1 =
    ((CancelPollTask tid (RegisterPollCancel tid c w)).1, false).
Proof.
  assert (Hreg : pollCancelRegistry (RegisterPollCancel tid c w) !! tid = Some c)
    by apply lookup_insert_eq.
  destruct (CancelPollTask_found tid c _ Hreg) as (Htrue & Hgone & Hc).
  split; [done|]. split; [done|]. split; [done|].
  unfold CancelPollTask at 1. by rewrite Hgone.
Qed.

(** X2. Registering a second handle for a task id replaces the first
    without calling it: a later [CancelPollTask] cancels the second context
    only, and the first can no longer be cancelled through the registry. *)
Theorem X2_register_evicts_silently (tid : string) (c1 c2 : Ctx) (w : World) :
  c1 ≠ c2 -> c1 ∉ cancelled w ->
  let w2 := RegisterPollCancel tid c2 (RegisterPollCancel tid c1 w) in
  (c1 ∉ cancelled w2) ∧
  (CancelPollTask tid w2).2 = true ∧
  c2 ∈ cancelled (CancelPollTask tid w2).1 ∧
  (c1 ∉ cancelled (CancelPollTask tid w2).1) ∧
  (CancelPollTask tid (CancelPollTask tid w2).1).2 = false.
Proof.
  intros Hne Hc1 w2.
  assert (Hreg : pollCancelRegistry w2 !! tid = Some c2) by apply lookup_insert_eq.
  destruct (CancelPollTask_found tid c2 _ Hreg) as (Htrue & Hgone & Hc).
  split; [done|]. split; [done|]. split; [done|]. split.
  - unfold CancelPollTask. rewrite Hreg. cbn.
    intros [Hin|Hin]%elem_of_union; [|done].
    apply elem_of_singleton in Hin. congruence.
  - unfold CancelPollTask at 1. by rewrite Hgone.
Qed.

(** X3. [UnregisterPollCancel] removes a handle without calling it: the
    set of cancelled contexts is what it was, a later [CancelPollTask]
    finds nothing and changes nothing, and the handles of the other tasks
    stay. *)
Theorem X3_unregister_does_not_cancel (tid other : string) (w : World) :
  cancelled (UnregisterPollCancel tid w) = cancelled w ∧
  CancelPollTask tid (UnregisterPollCancel tid w) =
    (UnregisterPollCancel tid w, false) ∧
  (other = tid ∨
   pollCancelRegistry (UnregisterPollCancel tid w) !! other =
     pollCancelRegistry w !! other).
Proof.
  split; [done|]. split.
  - unfold CancelPollTask.
    assert (Hgone : pollCancelRegistry (UnregisterPollCancel tid w) !! tid = None)
      by apply lookup_delete_eq.
    by rewrite Hgone.
  - destruct (decide (other = tid)) as [|Hne]; [by left|right].
    cbn. by rewrite lookup_delete_ne.
Qed.

End Registry.

(** ** More on the poll loop *)

Section PollMore.
Import models service api Spec Spec2.
Context `{TimeParser}.

(** X4. Status queries that fail, or that report a status that is not
    terminal, never end the loop and change nothing: after any number of
    them the loop is still waiting, and the deadline then ends it with
    "polling timeout". *)
Theorem X4_poll_ends_only_on_deadline (pollCtx : Ctx) (handlerDone : bool)
    (items rest : list PollItem) (w : World) :
  Forall quiet items ->
  pollJobResult pollCtx handlerDone items w = (w, None) ∧
  pollJobResult pollCtx handlerDone (items ++ Select CaseTimeout :: rest) w =
    (w, Some (Fail (Errorf "polling timeout"))).
Proof.
  induction 1 as [|item items (q & -> & Hq) _ [IH1 IH2]]; [done|].
  cbn [pollJobResult app].
  assert (Hnone : tick (if handlerDone || bool_decide (pollCtx ∈ cancelled w)
                        then DoFailed else q) = None)
    by (by destruct (_ || _)).
  by rewrite Hnone.
Qed.

Lemma cancelled_runExternal (op : ExternalOp) (c : Ctx) (w : World) :
  c ∈ cancelled w -> c ∈ cancelled (runExternal op w).
Proof.
  intros Hc. destruct op as [tid|tid msg]; cbn [runExternal]; [|done].
  unfold CancelPollTask. destruct (pollCancelRegistry w !! tid); [|done].
  cbn. by apply elem_of_union_r.
Qed.

(** X5. Once the poll context is done (its [CancelFunc] was called, or
    the handler's own context is done), the loop never returns a result
    again, whatever the worker reports: it ends with "polling canceled" or
    with "polling timeout". *)
Theorem X5_cancelled_poll_never_succeeds (pollCtx : Ctx)
    (script : list PollItem) (handlerDone : bool) (w w' : World)
    (polled : res TaskResult) :
  handlerDone = true ∨ pollCtx ∈ cancelled w ->
  pollJobResult pollCtx handlerDone script w = (w', Some polled) ->
  polled = Fail (Errorf "polling timeout") ∨
  ∃ ctxErr, polled = Fail (Errorf ("polling canceled: " +:+ ctxErr)).
Proof.
  revert handlerDone w. induction script as [|item rest IH];
    intros handlerDone w Hdone Hpoll; [done|].
  assert (Hd : handlerDone || bool_decide (pollCtx ∈ cancelled w) = true).
  { destruct Hdone as [->|Hc]; [done|].
    rewrite bool_decide_eq_true_2 by done. apply orb_true_r. }
  destruct item as [c| |op]; cbn [pollJobResult] in Hpoll.
  - rewrite Hd in Hpoll. destruct c as [|ctxErr|q].
    + injection Hpoll as _ <-. by left.
    + injection Hpoll as _ <-. right. by exists ctxErr.
    + cbn [tick] in Hpoll. by eapply IH.
  - eapply IH; [|done]. by left.
  - eapply IH; [|done]. destruct Hdone as [->|Hc]; [by left|right].
    by apply cancelled_runExternal.
Qed.

End PollMore.

(** ** Runs of the handler *)

Section Runs.
Import models service api dbgo handlers Spec Spec2.
Context `{TimeParser}.

Lemma GetTaskByIDGorm_row (d : DB) (tid : string) (task : Task) :
  GetTaskByIDGorm d tid = Ok task ->
  ∃ row, task_table d !! tid = Some row ∧ Task_ID task = tid ∧
         Task_Type task = row_type row ∧
         Task_ShotId task = default "" (row_shot_id row) ∧
         Task_Parameters task = row_parameters row ∧
         Task_ProjectId task = row_project_id row.
Proof.
  unfold GetTaskByIDGorm. destruct (task_table d !! tid) as [row|]; [|done].
  intros [= <-]. by exists row.
Qed.

Lemma taskRow_updateStatus (task : Task) (status : string)
    (result : option TaskResult) (errMsg : string) (w : World) (row : TaskRow) :
  Task_ID task ≠ "" -> taskRow w (Task_ID task) = Some row ->
  taskRow (updateStatus task status result errMsg w) (Task_ID task) =
    Some (withStatus (clock w) status result errMsg row).
Proof.
  intros Hid Hrow. unfold taskRow, updateStatus, UpdateStatus in *.
  cbn [db set_db]. case_decide; [done|].
  cbn [fst execTaskUpdate task_table upd_id].
  by rewrite lookup_alter_eq, Hrow.
Qed.

(** The handler up to the poll loop, when the dispatch succeeds. *)
Lemma HandleGenerateTask_dispatched (env : HandlerEnv) (tid : string)
    (w : World) (task : Task) (jobID : string) :
  GetTaskByIDGorm (db w) tid = Ok task ->
  Task_Type task ≠ "create_project" ->
  dispatchWorkerRequest (env_post env) task (db w) = Ok jobID ->
  HandleGenerateTask env (Ok tid) w =
    match pollJobResult (next_ctx w) false (env_script env)
            (startPoll task jobID w) with
    | (w', None) => (w', StillPolling)
    | (w', Some polled) => afterPoll env task polled w'
    end.
Proof.
  intros Hget Hty Hd. unfold HandleGenerateTask. rewrite Hget.
  case_decide; [done|]. by rewrite dispatch_updateStatus, Hd.
Qed.

(** The handler when the dispatch fails. *)
Lemma HandleGenerateTask_rejected (env : HandlerEnv) (tid : string)
    (w : World) (task : Task) (e : error) :
  GetTaskByIDGorm (db w) tid = Ok task ->
  Task_Type task ≠ "create_project" ->
  dispatchWorkerRequest (env_post env) task (db w) = Fail e ->
  HandleGenerateTask env (Ok tid) w =
    (updateStatus task TaskStatusFailed None
       ("Worker Request Failed: " +:+ Error e)
       (updateStatus task TaskStatusProcessing None "" w),
     Returned (Some e)).
Proof.
  intros Hget Hty Hd. unfold HandleGenerateTask. rewrite Hget.
  case_decide; [done|]. by rewrite dispatch_updateStatus, Hd.
Qed.

Lemma taskRow_startPoll (task : Task) (jobID : string) (w : World)
    (row : TaskRow) :
  Task_ID task ≠ "" -> taskRow w (Task_ID task) = Some row ->
  taskRow (startPoll task jobID w) (Task_ID task) =
    Some (withJob (clock w) jobID
            (withStatus (clock w) TaskStatusProcessing None "" row)).
Proof.
  intros Hid Hrow.
  pose proof (taskRow_updateStatus task TaskStatusProcessing None "" w row
                Hid Hrow) as Hrow1.
  unfold taskRow, startPoll in *. cbn [db set_db WithCancel RegisterPollCancel
    set_registry fst snd clock updateStatus UpdateTaskStatus execTaskUpdate
    task_table upd_id] in *.
  by rewrite lookup_alter_eq, Hrow1.
Qed.

Lemma oneShot_dispatch (env : HandlerEnv) (jobID : string) (raw : RawJob)
    (task : Task) (d : DB) :
  oneShot env jobID raw -> dispatchPrecheck task d = None ->
  dispatchWorkerRequest (env_post env) task d = Ok jobID.
Proof.
  intros [(code & body & -> & Hcode & Hid) _] Hpre.
  unfold dispatchWorkerRequest, dispatchResponse. rewrite Hpre.
  unfold StatusOK, StatusCreated, StatusAccepted.
  case_decide; [lia|]. by rewrite Hid.
Qed.

(** X6. A failure reported by the worker ends the run as a business
    failure: when the job is accepted and the first status query reports
    "failed" or "error", the handler returns [nil]; the task is failed, its
    error column holds "Job Failed: worker reported failure: " followed by
    the worker's error text, its result column still holds the job id, the
    registry holds no handle for it, and the shots and the queue are
    untouched. *)
Theorem X6_worker_failure_marks_failed (env : HandlerEnv) (tid : string)
    (w : World) (task : Task) (jobID : string) (raw : RawJob) :
  tid ≠ "" ->
  GetTaskByIDGorm (db w) tid = Ok task ->
  Task_Type task ≠ "create_project" ->
  dispatchPrecheck task (db w) = None ->
  oneShot env jobID raw ->
  next_ctx w ∉ cancelled w ->
  raw_Status raw = "failed" ∨ raw_Status raw = "error" ->
  (HandleGenerateTask env (Ok tid) w).2 = Returned None ∧
  (fun r => (row_status r, row_error r, row_result r)) <$>
    taskRow (HandleGenerateTask env (Ok tid) w).1 tid =
    Some (TaskStatusFailed,
          Some ("Job Failed: worker reported failure: " +:+ raw_Error raw),
          jobResult jobID) ∧
  pollCancelRegistry (HandleGenerateTask env (Ok tid) w).1 !! tid = None ∧
  shot_table (db (HandleGenerateTask env (Ok tid) w).1) = shot_table (db w) ∧
  queue (HandleGenerateTask env (Ok tid) w).1 = queue w.
Proof.
  intros Hne Hget Hty Hpre Hone Hlive Hst.
  destruct (GetTaskByIDGorm_row _ _ _ Hget) as (row & Hrow & Hid & _).
  pose proof (oneShot_dispatch env jobID raw task (db w) Hone Hpre) as Hd.
  destruct Hone as [_ [rest Hscript]].
  assert (Htick : tick (Parsed raw) =
            Some (Fail (Errorf ("worker reported failure: " +:+ raw_Error raw)))).
  { unfold tick, checkStatus, TaskStatusSuccess, TaskStatusFailed.
    cbn [taskOfRaw Task_Status Task_Error].
    destruct Hst as [-> | ->]; repeat case_decide; try done;
      destruct_or?; try discriminate; tauto. }
  assert (Hrun : HandleGenerateTask env (Ok tid) w =
            (UnregisterPollCancel (Task_ID task)
               (updateStatus task TaskStatusFailed None
                  ("Job Failed: " +:+
                   "worker reported failure: " +:+ raw_Error raw)
                  (startPoll task jobID w)),
             Returned None)).
  { rewrite (HandleGenerateTask_dispatched env tid w task jobID Hget Hty Hd).
    rewrite Hscript, pollJobResult_tick by exact Hlive.
    by rewrite Htick. }
  rewrite Hrun. cbn [fst snd]. rewrite <- Hid in *.
  split; [done|]. split; [|split; [|split]].
  - pose proof (taskRow_startPoll task jobID w row Hne Hrow) as Hs.
    pose proof (taskRow_updateStatus task TaskStatusFailed None
                  ("Job Failed: " +:+
                   "worker reported failure: " +:+ raw_Error raw) _ _ Hne Hs)
      as Hf.
    unfold taskRow in *. cbn [db UnregisterPollCancel set_registry].
    rewrite Hf. done.
  - apply lookup_delete_eq.
  - unfold startPoll, updateStatus, UpdateStatus. cbn. by case_decide.
  - done.
Qed.

(** X7. A create_project task is finished at once: the handler returns
    [nil] without dispatching or polling; the status is finished, the text
    "Project initialized" is stored in the error column (it is passed as
    the error message), result and message keep their values, and the
    registry, the contexts, the queue and the shots are untouched. *)
Theorem X7_create_project_finishes (env : HandlerEnv) (tid : string)
    (w : World) (row : TaskRow) :
  tid ≠ "" ->
  taskRow w tid = Some row ->
  row_type row = "create_project" ->
  (HandleGenerateTask env (Ok tid) w).2 = Returned None ∧
  (fun r => (row_status r, row_error r, row_result r, row_message r)) <$>
    taskRow (HandleGenerateTask env (Ok tid) w).1 tid =
    Some (TaskStatusSuccess, Some "Project initialized", row_result row,
          row_message row) ∧
  (pollCancelRegistry (HandleGenerateTask env (Ok tid) w).1 =
     pollCancelRegistry w ∧
   cancelled (HandleGenerateTask env (Ok tid) w).1 = cancelled w ∧
   next_ctx (HandleGenerateTask env (Ok tid) w).1 = next_ctx w) ∧
  queue (HandleGenerateTask env (Ok tid) w).1 = queue w ∧
  shot_table (db (HandleGenerateTask env (Ok tid) w).1) = shot_table (db w).
Proof.
  intros Hne Hrow Hty. unfold taskRow in Hrow.
  unfold HandleGenerateTask, GetTaskByIDGorm. rewrite Hrow.
  cbn [Task_Type]. rewrite Hty. case_decide; [|done]. cbn [fst snd].
  match goal with
  | |- context [updateStatus ?t _ _ _ (updateStatus ?t _ _ _ _)] =>
      set (task := t)
  end.
  assert (Hid : Task_ID task ≠ "") by done.
  pose proof (taskRow_updateStatus task TaskStatusProcessing None "" w row
                Hid Hrow) as H1.
  pose proof (taskRow_updateStatus task TaskStatusSuccess None
                "Project initialized" _ _ Hid H1) as H2.
  split; [done|]. split.
  - change tid with (Task_ID task). rewrite H2. done.
  - unfold updateStatus, UpdateStatus. cbn. by repeat case_decide.
Qed.

(** X8. When the dispatch has succeeded and the handler returns, the
    registry holds no handle for the task, however the poll ended and
    however the result was routed. *)
Theorem X8_handler_unregisters (env : HandlerEnv) (tid : string)
    (w : World) (task : Task) (jobID : string) (err : option error) :
  GetTaskByIDGorm (db w) tid = Ok task ->
  Task_Type task ≠ "create_project" ->
  dispatchWorkerRequest (env_post env) task (db w) = Ok jobID ->
  (HandleGenerateTask env (Ok tid) w).2 = Returned err ->
  err = None ∧
  pollCancelRegistry (HandleGenerateTask env (Ok tid) w).1 !! tid = None.
Proof.
  intros Hget Hty Hd.
  rewrite (HandleGenerateTask_dispatched env tid w task jobID Hget Hty Hd).
  apply GetTaskByIDGorm_ID in Hget. rewrite <- Hget.
  destruct (pollJobResult _ _ _ _) as [w' [polled|]]; [|done].
  unfold afterPoll. destruct polled as [taskResult|e].
  - destruct (routeResult _ _ _ _) as [w'' [e|]]; cbn [fst snd];
      intros [= <-]; (split; [done|]); apply lookup_delete_eq.
  - cbn [fst snd]. intros [= <-]. split; [done|]. apply lookup_delete_eq.
Qed.

Lemma registry_pollJobResult (pollCtx : Ctx) (tid : string)
    (script : list PollItem) :
  ∀ (handlerDone : bool) (w : World),
    Concurrent (ApiCancelPollTask tid) ∉ script ->
    pollCancelRegistry (pollJobResult pollCtx handlerDone script w).1 !! tid =
      pollCancelRegistry w !! tid.
Proof.
  induction script as [|item rest IH]; intros handlerDone w Hnot; [done|].
  assert (Hrest : Concurrent (ApiCancelPollTask tid) ∉ rest).
  { intros Hin. apply Hnot. by apply list_elem_of_further. }
  destruct item as [c| |op]; cbn [pollJobResult].
  - destruct c as [|ctxErr|q]; [done| |].
    + destruct (_ || _); [done|by apply IH].
    + destruct (tick _); [done|by apply IH].
  - by apply IH.
  - rewrite IH by done. destruct op as [tid'|tid' msg]; cbn [runExternal]; [|done].
    assert (Hne : tid' ≠ tid).
    { intros ->. apply Hnot. apply list_elem_of_here. }
    unfold CancelPollTask. destruct (pollCancelRegistry w !! tid'); [|done].
    cbn. by rewrite lookup_delete_ne.
Qed.

(** X9. While the handler is inside the poll loop the task stays
    cancellable: as long as no goroutine has called [CancelPollTask] on it,
    the registry maps the task id to the context the loop waits on, so a
    [CancelPollTask] then returns true and cancels that context. *)
Theorem X9_polling_task_is_registered (env : HandlerEnv) (tid : string)
    (w : World) (task : Task) (jobID : string) :
  GetTaskByIDGorm (db w) tid = Ok task ->
  Task_Type task ≠ "create_project" ->
  dispatchWorkerRequest (env_post env) task (db w) = Ok jobID ->
  Concurrent (ApiCancelPollTask tid) ∉ env_script env ->
  (HandleGenerateTask env (Ok tid) w).2 = StillPolling ->
  pollCancelRegistry (HandleGenerateTask env (Ok tid) w).1 !! tid =
    Some (next_ctx w) ∧
  (CancelPollTask tid (HandleGenerateTask env (Ok tid) w).1).2 = true ∧
  next_ctx w ∈ cancelled (CancelPollTask tid (HandleGenerateTask env (Ok tid) w).1).1.
Proof.
  intros Hget Hty Hd Hnot.
  rewrite (HandleGenerateTask_dispatched env tid w task jobID Hget Hty Hd).
  apply GetTaskByIDGorm_ID in Hget.
  pose proof (registry_pollJobResult (next_ctx w) tid (env_script env) false
                (startPoll task jobID w) Hnot) as Hreg.
  destruct (pollJobResult _ _ _ _) as [w' [polled|]]; cbn [fst snd] in *.
  { by rewrite afterPoll_returns. }
  intros _.
  assert (Hw' : pollCancelRegistry w' !! tid = Some (next_ctx w)).
  { rewrite Hreg, <- Hget. apply lookup_insert_eq. }
  split; [done|]. by destruct (CancelPollTask_found tid _ _ Hw') as (? & _ & ?).
Qed.

End Runs.

(** ** The result router *)

Section Router.
Import models service api dbgo handlers Spec Spec2.

Lemma set_db_same (w : World) : set_db (fun _ => db w) w = w.
Proof. by destruct w. Qed.

Lemma alter_absent {A} (f : A -> A) (k : string) (m : gmap string A) :
  m !! k = None -> alter f k m = m.
Proof.
  intros Hnone. apply map_eq. intros j. destruct (decide (k = j)) as [<-|Hne].
  - by rewrite lookup_alter_eq, Hnone.
  - by rewrite lookup_alter_ne.
Qed.

Lemma set_shot_table_absent (f : ShotRow -> ShotRow) (k : string) (w : World) :
  shot_table (db w) !! k = None ->
  set_db (set_shot_table (alter f k)) w = w.
Proof.
  intros Hnone. destruct w as [d ? ? ? ? ?]. destruct d as [tt st pt lg].
  cbn in *. unfold set_db, set_shot_table. cbn. by rewrite alter_absent.
Qed.

Lemma processResourceToMinIO_stored (env : RouteEnv) (r : TaskResult)
    (object finalURL : string) :
  ResourceUrl r ≠ "" -> stored env (ResourceUrl r) object finalURL ->
  processResourceToMinIO env r object = Ok finalURL.
Proof.
  intros Hurl [Hget Hup]. unfold processResourceToMinIO, downloadAndUploadToMinIO.
  case_decide; [done|]. rewrite Hget. unfold StatusOK. by case_decide.
Qed.

(** X10. The resource locator is mandatory: a polled result whose
    resource url is empty makes every branch of the result router fail,
    for every task type, without a download and without a change to the
    state. *)
Theorem X10_empty_url_fails_routing (env : RouteEnv) (task : Task)
    (r : TaskResult) (w : World) :
  ResourceUrl r = "" -> ∃ e, routeResult env task r w = (w, Some e).
Proof.
  intros Hurl. unfold routeResult, handleStoryboardResult, handleImageResult,
    handleTTSResult, handleVideoResult, processResourceToMinIO.
  rewrite Hurl. repeat case_decide; try done; eauto.
Qed.

(** X11. A routing failure leaves the database and the state of the
    process as they were: whenever the result router returns an error, no
    shot has been created or changed, no task row has been written, and
    the registry, the contexts and the queue are untouched.  (The state
    here holds no object storage: an object the image branch uploaded
    before it failed to find the shot stays uploaded.) *)
Theorem X11_routing_failure_changes_nothing (env : RouteEnv) (task : Task)
    (r : TaskResult) (w : World) (e : error) :
  (routeResult env task r w).2 = Some e ->
  (routeResult env task r w).1 = w ∧
  db (routeResult env task r w).1 = db w ∧
  pollCancelRegistry (routeResult env task r w).1 = pollCancelRegistry w ∧
  cancelled (routeResult env task r w).1 = cancelled w ∧
  queue (routeResult env task r w).1 = queue w.
Proof.
  intros Herr.
  assert (Hsame : (routeResult env task r w).1 = w).
  { revert Herr. unfold routeResult. repeat case_decide.
    - unfold handleStoryboardResult. case_decide; [done|].
      destruct (http_Get env _); [done|]. case_decide; [done|].
      destruct (storyboard_Decode env) as [[|s l]|]; [done| |done].
      by destruct (BatchCreateShots _ _) as [d [e'|]].
    - unfold handleImageResult.
      destruct (processResourceToMinIO _ _ _); [|done].
      destruct (GetShotByIDGorm _ _) as [shot|]; [|done].
      unfold UpdateImage. case_decide; [|done]. intros _. apply set_db_same.
    - unfold handleTTSResult. by destruct (processResourceToMinIO _ _ _).
    - unfold handleVideoResult. by destruct (processResourceToMinIO _ _ _).
    - done. }
  by rewrite Hsame.
Qed.

Lemma foldl_insert_shots (shots : list ShotT) :
  ∀ tbl : gmap string ShotRow,
    NoDup (Shot_ID <$> shots) ->
    let tbl' := foldl (fun acc s => <[Shot_ID s := newShotRow s]> acc) tbl shots in
    (∀ s, s ∈ shots -> tbl' !! Shot_ID s = Some (newShotRow s)) ∧
    (∀ k, k ∉ Shot_ID <$> shots -> tbl' !! k = tbl !! k).
Proof.
  induction shots as [|a rest IH]; intros tbl Hnd; cbn [foldl].
  - split; [by intros s Hs%elem_of_nil|done].
  - rewrite fmap_cons in Hnd. apply NoDup_cons in Hnd as [Ha Hrest].
    destruct (IH (<[Shot_ID a := newShotRow a]> tbl) Hrest) as [Hin Hout].
    split.
    + intros s [->|Hs]%elem_of_cons; [|by apply Hin].
      rewrite Hout by done. apply lookup_insert_eq.
    + intros k Hk. rewrite fmap_cons in Hk.
      apply not_elem_of_cons in Hk as [Hne Hk].
      rewrite Hout by done. by rewrite lookup_insert_ne.
Qed.

(** X12. The storyboard branch expands the document into shots: when it
    succeeds the document has at least one entry, and for entry [i] the
    shot table holds, under the i-th generated uuid, a pending shot of the
    project with the entry's title, description, prompt and transition, no
    image, audio or video, and the entry's order, or [i + 1] when the
    entry gives none; every other shot and the task table are as before. *)
Theorem X12_storyboard_creates_shots (env : RouteEnv) (projectID : string)
    (r : TaskResult) (w w' : World) :
  handleStoryboardResult env projectID r w = (w', None) ->
  ∃ shots,
    storyboard_Decode env = Ok shots ∧ shots ≠ [] ∧
    (∀ i entry, shots !! i = Some entry ->
       shot_table (db w') !! uuid_NewString env i =
         Some {| shot_fields :=
                   {| Shot_ID := uuid_NewString env i;
                      Shot_ProjectId := projectID;
                      Shot_Order :=
                        if decide (sb_Order entry = 0) then Z.of_nat i + 1
                        else sb_Order entry;
                      Shot_Title := sb_Title entry;
                      Shot_Description := sb_Description entry;
                      Shot_Prompt := sb_Prompt entry;
                      Shot_Status := ShotStatusPending;
                      Shot_ImagePath := ""; Shot_AudioPath := "";
                      Shot_Transition := sb_Transition entry;
                      Shot_CreatedAt := clock w; Shot_UpdatedAt := clock w |};
                 shot_video_url := None |}) ∧
    (∀ k, (∀ i, (i < length shots)%nat -> uuid_NewString env i ≠ k) ->
          shot_table (db w') !! k = shot_table (db w) !! k) ∧
    task_table (db w') = task_table (db w).
Proof.
  unfold handleStoryboardResult. case_decide; [done|].
  destruct (http_Get env _); [done|]. case_decide; [done|].
  destruct (storyboard_Decode env) as [shots|]; [|done].
  destruct shots as [|s0 l] eqn:Hshots; [done|]. rewrite <- Hshots.
  set (created := imap (newShot env (clock w) projectID) shots).
  unfold BatchCreateShots.
  destruct created as [|c0 cl] eqn:Hcreated.
  { apply (f_equal length) in Hcreated. subst created shots.
    rewrite length_imap in Hcreated. done. }
  rewrite <- Hcreated.
  destruct (bool_decide (NoDup (Shot_ID <$> created)) && _) eqn:Hok; [|done].
  apply andb_true_iff in Hok as [Hnd _]. apply bool_decide_eq_true in Hnd.
  intros [= <-]. exists shots. split; [done|]. split; [by subst shots|].
  cbn [db set_db set_shot_table shot_table task_table].
  destruct (foldl_insert_shots created (shot_table (db w)) Hnd) as [Hin Hout].
  split; [|split; [|done]].
  - intros i entry Hi.
    assert (Hc : created !! i = Some (newShot env (clock w) projectID i entry)).
    { subst created. by rewrite list_lookup_imap, Hi. }
    apply list_elem_of_lookup_2 in Hc. apply Hin in Hc. exact Hc.
  - intros k Hk. apply Hout. intros Hmem.
    apply list_elem_of_fmap in Hmem as (s & -> & Hs).
    apply list_elem_of_lookup in Hs as [i Hs]. subst created.
    rewrite list_lookup_imap in Hs.
    destruct (shots !! i) as [entry|] eqn:Hi; [|done].
    injection Hs as <-. apply (Hk i); [|done].
    by eapply lookup_lt_Some.
Qed.

Lemma handleImageResult_stored (env : RouteEnv) (sid url : string)
    (r : TaskResult) (w : World) (row : ShotRow) :
  shot_table (db w) !! sid = Some row ->
  Shot_ID (shot_fields row) = sid -> sid ≠ "" ->
  ResourceUrl r ≠ "" ->
  stored env (ResourceUrl r) ("shots/" +:+ sid +:+ "/image.png") url ->
  handleImageResult env sid r w =
    (set_db (set_shot_table
               (alter (fun r0 => {| shot_fields :=
                                      withImage (clock w) url (shot_fields r0);
                                    shot_video_url := shot_video_url r0 |}) sid))
       w, None).
Proof.
  intros Hrow Hkey Hne Hurl Hst. unfold handleImageResult.
  change (sprintfShotObject sid "image.png") with ("shots/" +:+ sid +:+ "/image.png").
  rewrite (processResourceToMinIO_stored env r _ url Hurl Hst).
  unfold GetShotByIDGorm. rewrite Hrow. unfold UpdateImage. rewrite Hkey.
  case_decide; [done|]. done.
Qed.

(** X13. The image branch attaches the stored image to the shot: for an
    existing shot, a non-empty resource url, a download answered 200 and
    an upload of "shots/<shot id>/image.png" that yields [url], it
    succeeds; in the shot's row the image path is [url], the status is
    completed and updated_at is the time of the call, while id, project,
    order, title, description, prompt, audio path, transition, created_at
    and the video url keep their values; every other shot and the task
    table are as before. *)
Theorem X13_image_is_attached (env : RouteEnv) (sid url : string)
    (r : TaskResult) (w : World) (row : ShotRow) :
  shot_table (db w) !! sid = Some row ->
  Shot_ID (shot_fields row) = sid -> sid ≠ "" ->
  ResourceUrl r ≠ "" ->
  stored env (ResourceUrl r) ("shots/" +:+ sid +:+ "/image.png") url ->
  (handleImageResult env sid r w).2 = None ∧
  shot_table (db (handleImageResult env sid r w).1) !! sid =
    Some {| shot_fields :=
              {| Shot_ID := Shot_ID (shot_fields row);
                 Shot_ProjectId := Shot_ProjectId (shot_fields row);
                 Shot_Order := Shot_Order (shot_fields row);
                 Shot_Title := Shot_Title (shot_fields row);
                 Shot_Description := Shot_Description (shot_fields row);
                 Shot_Prompt := Shot_Prompt (shot_fields row);
                 Shot_Status := ShotStatusCompleted;
                 Shot_ImagePath := url;
                 Shot_AudioPath := Shot_AudioPath (shot_fields row);
                 Shot_Transition := Shot_Transition (shot_fields row);
                 Shot_CreatedAt := Shot_CreatedAt (shot_fields row);
                 Shot_UpdatedAt := clock w |};
            shot_video_url := shot_video_url row |} ∧
  (∀ k, k ≠ sid ->
        shot_table (db (handleImageResult env sid r w).1) !! k =
          shot_table (db w) !! k) ∧
  task_table (db (handleImageResult env sid r w).1) = task_table (db w).
Proof.
  intros Hrow Hkey Hne Hurl Hst.
  rewrite (handleImageResult_stored env sid url r w row Hrow Hkey Hne Hurl Hst).
  cbn [fst snd db set_db set_shot_table shot_table task_table].
  split; [done|]. split; [by rewrite lookup_alter_eq, Hrow|].
  split; [|done]. intros k Hk. by rewrite lookup_alter_ne.
Qed.

Lemma handleTTSResult_absent (env : RouteEnv) (sid url : string)
    (r : TaskResult) (w : World) :
  shot_table (db w) !! sid = None -> ResourceUrl r ≠ "" ->
  stored env (ResourceUrl r) ("shots/" +:+ sid +:+ "/audio.mp3") url ->
  handleTTSResult env sid r w = (w, None).
Proof.
  intros Hnone Hurl Hst. unfold handleTTSResult.
  change (sprintfShotObject sid "audio.mp3") with ("shots/" +:+ sid +:+ "/audio.mp3").
  rewrite (processResourceToMinIO_stored env r _ url Hurl Hst).
  by rewrite set_shot_table_absent.
Qed.

(** X14. The audio branch and the image branch treat a missing shot
    differently: with the download and the upload succeeding, the audio
    branch reports success and changes nothing (its [UPDATE] matches no
    row), while the image branch fails with "record not found". *)
Theorem X14_missing_shot (env : RouteEnv) (sid : string)
    (audio image : string) (r : TaskResult) (w : World) :
  shot_table (db w) !! sid = None ->
  ResourceUrl r ≠ "" ->
  stored env (ResourceUrl r) ("shots/" +:+ sid +:+ "/audio.mp3") audio ->
  stored env (ResourceUrl r) ("shots/" +:+ sid +:+ "/image.png") image ->
  handleTTSResult env sid r w = (w, None) ∧
  handleImageResult env sid r w = (w, Some ErrRecordNotFound).
Proof.
  intros Hnone Hurl Ha Hi.
  split; [by eapply handleTTSResult_absent|].
  unfold handleImageResult.
  change (sprintfShotObject sid "image.png")
    with ("shots/" +:+ sid +:+ "/image.png").
  rewrite (processResourceToMinIO_stored env r _ image Hurl Hi).
  unfold GetShotByIDGorm. by rewrite Hnone.
Qed.

End Router.

(** ** The cancellation pass *)

Section Pass.
Import models service api dbgo handlers Spec Spec2.

Lemma selectedIds_ByShot_null (shotID : string) (w : World) :
  nullShotIds w -> selectedIds (ByShot shotID) w = [].
Proof.
  intros Hnull. apply elem_of_nil_inv. intros tid Hin.
  apply selectedIds_spec in Hin as (row & Hrow & Hsel).
  apply Hnull in Hrow. unfold selects in Hsel. rewrite Hrow in Hsel.
  by rewrite bool_decide_eq_false_2 in Hsel.
Qed.

(** X15. The cancellation pass by shot id, which [UpdateShot] and
    [DeleteShot] run, selects by the shot_id column; on a task table whose
    rows all have a [NULL] shot_id (every row [CreateTask] inserts has) it
    selects nothing and leaves the whole state as it was: no poll is
    cancelled and no task is marked. *)
Theorem X15_pass_by_shot_selects_nothing (shotID msg : string) (w : World) :
  nullShotIds w ->
  selectedIds (ByShot shotID) w = [] ∧
  cancelProcessingTasks (ByShot shotID) msg w = w.
Proof.
  intros Hnull. pose proof (selectedIds_ByShot_null shotID w Hnull) as Hsel.
  split; [done|]. unfold cancelProcessingTasks. by rewrite Hsel.
Qed.

Lemma clock_cancelOne (msg tid : string) (w : World) :
  clock (cancelOne msg w tid) = clock w.
Proof.
  unfold cancelOne, CancelPollTask.
  by destruct (pollCancelRegistry w !! tid).
Qed.

Lemma taskRow_cancelOne (msg tid k : string) (w : World) :
  taskRow (cancelOne msg w tid) k =
    if decide (k = tid) then withCancelled (clock w) msg <$> taskRow w k
    else taskRow w k.
Proof.
  unfold taskRow, cancelOne, markCancelled.
  assert (Hc : clock (CancelPollTask tid w).1 = clock w).
  { unfold CancelPollTask. by destruct (pollCancelRegistry w !! tid). }
  cbn [db set_db UpdateTaskStatus execTaskUpdate task_table upd_id].
  rewrite db_CancelPollTask, Hc. destruct (decide (k = tid)) as [->|Hk].
  - by rewrite lookup_alter_eq.
  - by rewrite lookup_alter_ne.
Qed.

Lemma registry_cancelOne (msg tid k : string) (w : World) :
  pollCancelRegistry (cancelOne msg w tid) !! k =
    if decide (k = tid) then None else pollCancelRegistry w !! k.
Proof.
  unfold cancelOne, markCancelled, CancelPollTask. cbn [pollCancelRegistry set_db].
  destruct (pollCancelRegistry w !! tid) eqn:Hreg; cbn;
    destruct (decide (k = tid)) as [->|Hk]; try done.
  - apply lookup_delete_eq.
  - by rewrite lookup_delete_ne.
Qed.

Lemma cancelled_cancelOne (msg tid : string) (c : Ctx) (w : World) :
  (c ∈ cancelled w ∨ pollCancelRegistry w !! tid = Some c) ->
  c ∈ cancelled (cancelOne msg w tid).
Proof.
  unfold cancelOne, markCancelled, CancelPollTask. cbn [cancelled set_db].
  intros [Hc|Hreg].
  - destruct (pollCancelRegistry w !! tid); [|done]. cbn.
    by apply elem_of_union_r.
  - rewrite Hreg. cbn. apply elem_of_union_l. by apply elem_of_singleton.
Qed.

Lemma cancelAll_effect (msg : string) (ids : list string) (k : string) :
  ∀ w : World,
    NoDup ids ->
    clock (foldl (cancelOne msg) w ids) = clock w ∧
    taskRow (foldl (cancelOne msg) w ids) k =
      (if decide (k ∈ ids) then withCancelled (clock w) msg <$> taskRow w k
       else taskRow w k) ∧
    pollCancelRegistry (foldl (cancelOne msg) w ids) !! k =
      (if decide (k ∈ ids) then None else pollCancelRegistry w !! k) ∧
    (∀ c, c ∈ cancelled w ∨ (k ∈ ids ∧ pollCancelRegistry w !! k = Some c) ->
          c ∈ cancelled (foldl (cancelOne msg) w ids)).
Proof.
  induction ids as [|a ids IH]; intros w Hnd; cbn [foldl].
  - split; [done|]. split; [by case_decide as Hin; [apply elem_of_nil in Hin|]|].
    split; [by case_decide as Hin; [apply elem_of_nil in Hin|]|].
    intros c [Hc|[Hin _]]; [done|by apply elem_of_nil in Hin].
  - apply NoDup_cons in Hnd as [Ha Hnd].
    destruct (IH (cancelOne msg w a) Hnd) as (Hclk & Hrow & Hreg & Hcan).
    rewrite Hclk, Hrow, Hreg, clock_cancelOne, taskRow_cancelOne,
      registry_cancelOne.
    split; [done|]. split; [|split].
    + destruct (decide (k = a)) as [->|Hne].
      * rewrite decide_False by done. rewrite decide_True by apply list_elem_of_here.
        done.
      * destruct (decide (k ∈ ids)) as [Hin|Hnin].
        -- by rewrite decide_True by (by apply list_elem_of_further).
        -- rewrite decide_False; [done|].
           intros [?|?]%elem_of_cons; done.
    + destruct (decide (k = a)) as [->|Hne].
      * rewrite decide_False by done. by rewrite decide_True by apply list_elem_of_here.
      * destruct (decide (k ∈ ids)) as [Hin|Hnin].
        -- by rewrite decide_True by (by apply list_elem_of_further).
        -- rewrite decide_False; [done|].
           intros [?|?]%elem_of_cons; done.
    + intros c [Hc|[Hin Hk]]; apply Hcan.
      * left. apply cancelled_cancelOne. by left.
      * apply elem_of_cons in Hin as [->|Hin].
        -- left. apply cancelled_cancelOne. by right.
        -- right. split; [done|]. rewrite registry_cancelOne.
           destruct (decide (k = a)) as [->|Hka]; [contradiction|done].
Qed.

Lemma NoDup_selectedIds (sel : Selector) (w : World) :
  NoDup (selectedIds sel w).
Proof. apply NoDup_fst_map_to_list. Qed.

(** X16. A cancellation pass acts on exactly the tasks it selects: a
    processing task of the shot or project is afterwards cancelled with
    the pass's message, keeps its result and its error text, has no handle
    left in the registry, and the context it was registered with is
    cancelled; every other task keeps its row and its handle. *)
Theorem X16_pass_effect (sel : Selector) (msg tid : string) (w : World)
    (row : TaskRow) :
  taskRow w tid = Some row ->
  if selects sel row
  then
    (fun r => (row_status r, row_message r, row_result r, row_error r)) <$>
      taskRow (cancelProcessingTasks sel msg w) tid =
      Some (TaskStatusCancelled, Some msg, row_result row, row_error row) ∧
    pollCancelRegistry (cancelProcessingTasks sel msg w) !! tid = None ∧
    (∀ c, pollCancelRegistry w !! tid = Some c ->
          c ∈ cancelled (cancelProcessingTasks sel msg w))
  else
    taskRow (cancelProcessingTasks sel msg w) tid = Some row ∧
    pollCancelRegistry (cancelProcessingTasks sel msg w) !! tid =
      pollCancelRegistry w !! tid.
Proof.
  intros Hrow. unfold cancelProcessingTasks.
  destruct (cancelAll_effect msg (selectedIds sel w) tid w
              (NoDup_selectedIds sel w)) as (_ & Hr & Hreg & Hcan).
  rewrite Hr, Hreg. destruct (selects sel row) eqn:Hsel.
  - assert (Hin : tid ∈ selectedIds sel w).
    { apply selectedIds_spec. by exists row. }
    rewrite !decide_True by done. rewrite Hrow.
    split; [done|]. split; [done|]. intros c Hc. apply Hcan. by right.
  - assert (Hnin : tid ∉ selectedIds sel w).
    { intros (row' & Hrow' & Hsel')%selectedIds_spec. congruence. }
    by rewrite !decide_False by done.
Qed.

End Pass.

(** ** What every run of the handler does *)

Section EveryRun.
Import models service api dbgo handlers Spec Spec2.
Context `{TimeParser}.

(** X17. After the poll, the handler's closing update is the last
    word.  In whatever state the poll loop returns (the task marked
    cancelled, rewritten or deleted by a concurrent request meanwhile),
    the rest of the handler returns [nil]; if the task's row is still
    there, its status becomes failed when the poll or the routing of the
    result failed and finished otherwise, so a status cancelled written
    during the poll does not survive; if the row is gone, none is
    created. *)
Theorem X17_return_leaves_finished_or_failed (env : HandlerEnv)
    (task : Task) (polled : res TaskResult) (w : World) :
  Task_ID task ≠ "" ->
  (afterPoll env task polled w).2 = Returned None ∧
  row_status <$> taskRow (afterPoll env task polled w).1 (Task_ID task) =
    match taskRow w (Task_ID task) with
    | None => None
    | Some _ =>
        Some match polled with
             | Fail _ => TaskStatusFailed
             | Ok taskResult =>
                 match (routeResult (env_route env) task taskResult w).2 with
                 | Some _ => TaskStatusFailed
                 | None => TaskStatusSuccess
                 end
             end
    end.
Proof.
  intros Hne. split; [apply afterPoll_returns|].
  assert (Hlast : ∀ status result errMsg w',
            task_table (db w') = task_table (db w) ->
            row_status <$>
              taskRow (UnregisterPollCancel (Task_ID task)
                         (updateStatus task status result errMsg w'))
                (Task_ID task) =
              match taskRow w (Task_ID task) with
              | None => None
              | Some _ => Some status
              end).
  { intros status result errMsg w' Htbl.
    change (taskRow (UnregisterPollCancel (Task_ID task)
                       (updateStatus task status result errMsg w'))
              (Task_ID task))
      with (taskRow (updateStatus task status result errMsg w') (Task_ID task)).
    assert (Hw' : taskRow w' (Task_ID task) = taskRow w (Task_ID task))
      by (unfold taskRow; by rewrite Htbl).
    destruct (taskRow w (Task_ID task)) as [row|] eqn:Hrow.
    - by rewrite (taskRow_updateStatus task status result errMsg w' row Hne Hw').
    - unfold taskRow, updateStatus, UpdateStatus in *. cbn [db set_db].
      destruct (decide (Task_ID task = "")); [done|].
      cbn [fst execTaskUpdate task_table upd_id].
      by rewrite lookup_alter_eq, Hw'. }
  unfold afterPoll. destruct polled as [taskResult|e].
  - pose proof (routeResult_tasks (env_route env) task taskResult w) as [_ Ht].
    destruct (routeResult (env_route env) task taskResult w) as [w' [e|]];
      cbn [fst snd] in *; by apply Hlast.
  - cbn [fst snd]. by apply Hlast.
Qed.

Lemma replay_dom (us : list TaskUpdate) :
  ∀ tbl : gmap string TaskRow, dom (replay tbl us) = dom tbl.
Proof.
  induction us as [|u us IH]; intros tbl; [done|].
  cbn [replay foldl]. etrans; [apply IH|]. apply dom_alter_L.
Qed.

(** X18. No run of the handler, for any message and any behaviour of the
    worker, hands a task id to the queue, and none creates or removes a
    row of the task table: the queue and the set of task ids are the same
    before and after. *)
Theorem X18_handler_creates_and_enqueues_nothing (env : HandlerEnv)
    (payload : res string) (w : World) :
  queue (HandleGenerateTask env payload w).1 = queue w ∧
  dom (task_table (db (HandleGenerateTask env payload w).1)) =
    dom (task_table (db w)).
Proof.
  split; [apply queue_HandleGenerateTask|].
  destruct payload as [tid|e]; [|done].
  destruct (updates_HandleGenerateTask env tid w) as (new & _ & _ & Htbl).
  rewrite Htbl. apply replay_dom.
Qed.

End EveryRun.

(** ** From the HTTP request to the handler *)

Section Requests.
Import models service api dbgo handlers Spec Spec2.
Context `{TimeParser}.

Lemma createTask_fresh (t : Task) (w : World) :
  task_table (db w) !! Task_ID t = None ->
  createTask t w =
    (set_db (set_task_table (insert (Task_ID t) (insertedRow (clock w) t))) w,
     None).
Proof.
  intros Hfresh. unfold createTask, CreateTask. by rewrite Hfresh.
Qed.

Lemma createTask_taken (t : Task) (w : World) (row : TaskRow) :
  task_table (db w) !! Task_ID t = Some row ->
  (createTask t w).2 = Some (mysqlError 1062).
Proof.
  intros Hrow. unfold createTask, CreateTask. by rewrite Hrow.
Qed.

(** The record the handler loads for a row [CreateTask] inserted. *)
Lemma GetTaskByIDGorm_inserted (t : Task) (w w' : World) :
  taskRow w' (Task_ID t) = Some (insertedRow (clock w) t) ->
  ∃ task, GetTaskByIDGorm (db w') (Task_ID t) = Ok task ∧
          Task_ID task = Task_ID t ∧ Task_Type task = Task_Type t ∧
          Task_ShotId task = "" ∧ Task_Parameters task = Task_Parameters t ∧
          Task_ProjectId task = Task_ProjectId t.
Proof.
  intros Hrow. unfold taskRow in Hrow. unfold GetTaskByIDGorm.
  rewrite Hrow. by eexists.
Qed.

Lemma GenerateShotVideo_accepted (aenv : ApiEnv) (projectID : string)
    (req : GenerateShotVideoReq) (w : World) :
  resp_code (GenerateShotVideo aenv projectID req w).2 = StatusOK ->
  let t := videoTask (api_uuid aenv 0) projectID req (clock w) in
  gv_ShotID req ≠ "" ∧
  task_table (db w) !! api_uuid aenv 0 = None ∧
  (GenerateShotVideo aenv projectID req w).1 =
    EnqueueTask (api_uuid aenv 0)
      (set_db (set_task_table
                 (insert (api_uuid aenv 0) (insertedRow (clock w) t))) w).
Proof.
  intros Hcode t. unfold GenerateShotVideo in *.
  case_decide; [done|]. split; [done|].
  destruct (task_table (db w) !! api_uuid aenv 0) as [row|] eqn:Hrow.
  { pose proof (createTask_taken t w row Hrow) as Herr.
    fold t in Hcode. destruct (createTask t w) as [w1 [e|]]; done. }
  split; [done|]. fold t in Hcode |- *.
  rewrite (createTask_fresh t w Hrow) in Hcode |- *.
  unfold tryEnqueue in *. cbn [Task_ID t videoTask] in *.
  by destruct (api_enqueue aenv (api_uuid aenv 0)).
Qed.

(** X19. A video task created through [GenerateShotVideo] can never be
    dispatched.  The request's shot id is put in the record's [ShotId],
    which [CreateTask] does not insert, and the [Shot] parameters are left
    empty; so the handler looks up the shot with the empty id.  Whenever
    the request is answered 200 (and no shot has the empty id), the task
    is in the queue, and the handler, whatever the worker would answer,
    returns the error "shot not found" and leaves the task failed. *)
Theorem X19_video_request_cannot_run (aenv : ApiEnv) (henv : HandlerEnv)
    (projectID : string) (req : GenerateShotVideoReq) (w : World) :
  api_uuid aenv 0 ≠ "" ->
  shot_table (db w) !! "" = None ->
  resp_code (GenerateShotVideo aenv projectID req w).2 = StatusOK ->
  let w' := (GenerateShotVideo aenv projectID req w).1 in
  let tid := api_uuid aenv 0 in
  queue w' = (queue w ++ [tid])%list ∧
  (HandleGenerateTask henv (Ok tid) w').2 =
    Returned (Some (Errorf "shot not found")) ∧
  row_status <$> taskRow (HandleGenerateTask henv (Ok tid) w').1 tid =
    Some TaskStatusFailed.
Proof.
  intros Hne Hempty Hcode w' tid.
  destruct (GenerateShotVideo_accepted aenv projectID req w Hcode)
    as (Hshot & Hfresh & Hw'). fold w' in Hw'.
  set (t := videoTask tid projectID req (clock w)) in *.
  assert (Hrow : taskRow w' (Task_ID t) = Some (insertedRow (clock w) t)).
  { rewrite Hw'. unfold taskRow. cbn. apply lookup_insert_eq. }
  destruct (GetTaskByIDGorm_inserted t w w' Hrow)
    as (task & Hget & Hid & Hty & Hsid & Hpar & _).
  change (Task_ID t) with tid in *.
  assert (Hd : dispatchWorkerRequest (env_post henv) task (db w') =
               Fail (Errorf "shot not found")).
  { unfold dispatchWorkerRequest, dispatchPrecheck.
    rewrite Hty, Hpar, Hsid. cbn [t videoTask Task_Type Task_Parameters Video].
    unfold TaskTypeVideoGen, TaskTypeStoryboard, TaskTypeShotImage,
      TaskTypeProjectAudio.
    repeat case_decide; try done; try (destruct_or?; discriminate).
    unfold GetShotByIDGorm. rewrite Hw'. cbn. by rewrite Hempty. }
  assert (Hnc : Task_Type task ≠ "create_project") by (by rewrite Hty).
  rewrite (HandleGenerateTask_rejected henv tid w' task _ Hget Hnc Hd).
  cbn [fst snd]. split; [by rewrite Hw'|]. split; [done|].
  assert (Hne' : Task_ID task ≠ "") by (rewrite Hid; exact Hne).
  rewrite <- Hid in Hrow |- *.
  pose proof (taskRow_updateStatus task TaskStatusProcessing None "" w' _
                Hne' Hrow) as H1.
  by rewrite (taskRow_updateStatus task TaskStatusFailed None _ _ _ Hne' H1).
Qed.

Lemma tick_success (raw : RawJob) :
  reportsSuccess raw -> tick (Parsed raw) = Some (Ok (raw_Result raw)).
Proof.
  intros Hok. unfold tick, checkStatus. cbn [taskOfRaw Task_Status Task_Result].
  by rewrite decide_True.
Qed.

Lemma shot_table_startPoll (task : Task) (jobID : string) (w : World) :
  shot_table (db (startPoll task jobID w)) = shot_table (db w) ∧
  clock (startPoll task jobID w) = clock w.
Proof.
  unfold startPoll, updateStatus, UpdateStatus. cbn. by case_decide.
Qed.

(** The handler when the job is accepted, the first status query reports
    success and the result is routed without error. *)
Lemma HandleGenerateTask_succeeded (env : HandlerEnv) (tid : string)
    (w wr : World) (task : Task) (jobID : string) (raw : RawJob) :
  GetTaskByIDGorm (db w) tid = Ok task ->
  Task_Type task ≠ "create_project" ->
  dispatchPrecheck task (db w) = None ->
  oneShot env jobID raw ->
  next_ctx w ∉ cancelled w ->
  reportsSuccess raw ->
  routeResult (env_route env) task (raw_Result raw) (startPoll task jobID w) =
    (wr, None) ->
  HandleGenerateTask env (Ok tid) w =
    (UnregisterPollCancel (Task_ID task)
       (updateStatus task TaskStatusSuccess (Some (raw_Result raw)) "" wr),
     Returned None).
Proof.
  intros Hget Hty Hpre Hone Hlive Hok Hroute.
  pose proof (oneShot_dispatch env jobID raw task (db w) Hone Hpre) as Hd.
  destruct Hone as [_ [rest Hscript]].
  rewrite (HandleGenerateTask_dispatched env tid w task jobID Hget Hty Hd).
  rewrite Hscript, pollJobResult_tick by exact Hlive.
  rewrite (tick_success raw Hok). unfold afterPoll. by rewrite Hroute.
Qed.

(** The task row after such a run. *)
Lemma taskRow_succeeded (tid : string) (w wr : World) (task : Task)
    (jobID : string) (r : TaskResult) (row : TaskRow) :
  Task_ID task = tid -> tid ≠ "" ->
  taskRow w tid = Some row ->
  task_table (db wr) = task_table (db (startPoll task jobID w)) ->
  (fun r0 => (row_status r0, row_result r0)) <$>
    taskRow (UnregisterPollCancel (Task_ID task)
               (updateStatus task TaskStatusSuccess (Some r) "" wr)) tid =
    Some (TaskStatusSuccess, r).
Proof.
  intros <- Hne Hrow Htbl.
  pose proof (taskRow_startPoll task jobID w row Hne Hrow) as Hs.
  assert (Hr : taskRow wr (Task_ID task) =
               Some (withJob (clock w) jobID
                       (withStatus (clock w) TaskStatusProcessing None "" row))).
  { unfold taskRow in *. by rewrite Htbl. }
  pose proof (taskRow_updateStatus task TaskStatusSuccess (Some r) "" wr _
                Hne Hr) as Hf.
  unfold taskRow in *. cbn [db UnregisterPollCancel set_registry].
  by rewrite Hf.
Qed.

Lemma GenerateProjectTTS_accepted (aenv : ApiEnv) (projectID : string)
    (w : World) :
  resp_code (GenerateProjectTTS aenv projectID w).2 = StatusOK ->
  let t := ttsTask (api_uuid aenv 0) projectID (clock w) in
  let w1 :=
    set_db (set_task_table
              (insert (api_uuid aenv 0) (insertedRow (clock w) t))) w in
  task_table (db w) !! api_uuid aenv 0 = None ∧
  (GenerateProjectTTS aenv projectID w).1 =
    match api_enqueue aenv (api_uuid aenv 0) with
    | Some _ => w1
    | None => EnqueueTask (api_uuid aenv 0) w1
    end.
Proof.
  intros Hcode t w1. unfold GenerateProjectTTS in *. fold t in Hcode |- *.
  destruct (task_table (db w) !! api_uuid aenv 0) as [row|] eqn:Hrow.
  { pose proof (createTask_taken t w row Hrow) as Herr.
    destruct (createTask t w) as [w2 [e|]]; done. }
  split; [done|].
  rewrite (createTask_fresh t w Hrow). unfold tryEnqueue.
  cbn [Task_ID t ttsTask].
  by destruct (api_enqueue aenv (api_uuid aenv 0)).
Qed.

(** X20. The audio of [GenerateProjectTTS] reaches no shot.  The task the
    request creates names no shot, so the handler routes its result with
    the empty shot id.  Whenever the request is answered 200 (the task
    was inserted), and the worker then succeeds and the download and the
    upload of "shots//audio.mp3" succeed, the handler returns [nil], the
    task is finished with the worker's result, and the shot table is what
    it was before the request (no shot has the empty id). *)
Theorem X20_project_audio_reaches_no_shot (aenv : ApiEnv) (henv : HandlerEnv)
    (projectID : string) (w : World) (jobID : string) (raw : RawJob)
    (url : string) :
  resp_code (GenerateProjectTTS aenv projectID w).2 = StatusOK ->
  api_uuid aenv 0 ≠ "" ->
  shot_table (db w) !! "" = None ->
  next_ctx w ∉ cancelled w ->
  oneShot henv jobID raw ->
  reportsSuccess raw ->
  ResourceUrl (raw_Result raw) ≠ "" ->
  stored (env_route henv) (ResourceUrl (raw_Result raw)) "shots//audio.mp3" url ->
  let w' := (GenerateProjectTTS aenv projectID w).1 in
  let tid := api_uuid aenv 0 in
  (HandleGenerateTask henv (Ok tid) w').2 = Returned None ∧
  (fun r => (row_status r, row_result r)) <$>
    taskRow (HandleGenerateTask henv (Ok tid) w').1 tid =
    Some (TaskStatusSuccess, raw_Result raw) ∧
  shot_table (db (HandleGenerateTask henv (Ok tid) w').1) = shot_table (db w).
Proof.
  intros Hcode Hne Hempty Hlive Hone Hok Hurl Hst w' tid.
  destruct (GenerateProjectTTS_accepted aenv projectID w Hcode) as [Hfresh Hw'].
  fold w' in Hw'.
  set (t := ttsTask tid projectID (clock w)) in *.
  assert (Hw'db : db w' = set_task_table
                            (insert tid (insertedRow (clock w) t)) (db w)).
  { rewrite Hw'. by destruct (api_enqueue aenv _). }
  assert (Hw'ctx : next_ctx w' = next_ctx w ∧ cancelled w' = cancelled w).
  { rewrite Hw'. by destruct (api_enqueue aenv _). }
  assert (Hrow : taskRow w' (Task_ID t) = Some (insertedRow (clock w) t)).
  { unfold taskRow. rewrite Hw'db. cbn. apply lookup_insert_eq. }
  destruct (GetTaskByIDGorm_inserted t w w' Hrow)
    as (task & Hget & Hid & Hty & Hsid & Hpar & _).
  change (Task_ID t) with tid in *.
  assert (Hnc : Task_Type task ≠ "create_project") by (by rewrite Hty).
  assert (Hpre : dispatchPrecheck task (db w') = None).
  { unfold dispatchPrecheck. rewrite Hty, Hpar.
    cbn [t ttsTask Task_Type Task_Parameters TTS].
    unfold TaskTypeVideoGen, TaskTypeStoryboard, TaskTypeShotImage,
      TaskTypeProjectAudio.
    repeat case_decide; try done; destruct_or?; discriminate. }
  assert (Hlive' : next_ctx w' ∉ cancelled w').
  { destruct Hw'ctx as [-> ->]. exact Hlive. }
  assert (Hshots : shot_table (db (startPoll task jobID w')) = shot_table (db w)).
  { rewrite (proj1 (shot_table_startPoll task jobID w')). by rewrite Hw'db. }
  assert (Hroute : routeResult (env_route henv) task (raw_Result raw)
                     (startPoll task jobID w') =
                   (startPoll task jobID w', None)).
  { unfold routeResult. rewrite Hty. cbn [t ttsTask Task_Type].
    unfold TaskTypeVideoGen, TaskTypeStoryboard, TaskTypeShotImage,
      TaskTypeProjectAudio.
    repeat case_decide; try done; try (destruct_or?; discriminate).
    rewrite (resultShotId_empty task Hsid), Hpar.
    cbn [t ttsTask Task_Parameters Shot].
    apply (handleTTSResult_absent _ "" url); [|done|done].
    by rewrite Hshots. }
  rewrite (HandleGenerateTask_succeeded henv tid w' _ task jobID raw
             Hget Hnc Hpre Hone Hlive' Hok Hroute).
  cbn [fst snd]. split; [done|]. split.
  - by apply (taskRow_succeeded tid w' _ task jobID _ _ Hid Hne Hrow).
  - rewrite <- Hshots. unfold updateStatus, UpdateStatus. cbn.
    by case_decide.
Qed.

Lemma editedRow_fields (now : Time) (req : UpdateShotReq) (row : ShotRow) :
  let s := shot_fields row in
  let s' := shot_fields (editedRow now req row) in
  Shot_ID s' = Shot_ID s ∧ Shot_ProjectId s' = Shot_ProjectId s ∧
  Shot_Title s' = (if decide (us_Title req = "") then Shot_Title s
                   else us_Title req) ∧
  Shot_Prompt s' = (if decide (us_Prompt req = "") then Shot_Prompt s
                    else us_Prompt req) ∧
  Shot_Transition s' = (if decide (us_Transition req = "") then Shot_Transition s
                        else us_Transition req) ∧
  Shot_ImagePath s' = Shot_ImagePath s ∧ Shot_Status s' = Shot_Status s ∧
  Shot_AudioPath s' = Shot_AudioPath s.
Proof.
  unfold editedRow. destruct (decide (_ ∧ _)) as [(-> & -> & ->)|_]; cbn.
  - done.
  - done.
Qed.

Lemma UpdateShotByID_row (now : Time) (projectID shotID : string)
    (req : UpdateShotReq) (d : DB) (row : ShotRow) :
  shot_table d !! shotID = Some row ->
  Shot_ProjectId (shot_fields row) = projectID ->
  let r := UpdateShotByID now projectID shotID (us_Title req) (us_Prompt req)
             (us_Transition req) d in
  r.2 = None ∧
  shot_table r.1 !! shotID = Some (editedRow now req row) ∧
  (∀ k, k ≠ shotID -> shot_table r.1 !! k = shot_table d !! k) ∧
  task_table r.1 = task_table d.
Proof.
  intros Hrow Hproj. unfold UpdateShotByID, editedRow.
  destruct (decide (_ ∧ _)) as [Hall|Hsome]; cbn zeta; [done|].
  rewrite Hrow. rewrite decide_True by done.
  cbn [fst snd set_shot_table shot_table task_table].
  split; [done|]. split; [apply lookup_insert_eq|]. split; [|done].
  intros k Hk. by rewrite lookup_insert_ne.
Qed.

Lemma UpdateShot_accepted (aenv : ApiEnv) (projectID shotID : string)
    (req : UpdateShotReq) (w : World) (row : ShotRow) :
  nullShotIds w ->
  shot_table (db w) !! shotID = Some row ->
  Shot_ProjectId (shot_fields row) = projectID ->
  task_table (db w) !! api_uuid aenv 0 = None ->
  api_enqueue aenv (api_uuid aenv 0) = None ->
  let t := regenerateTask (api_uuid aenv 0) projectID shotID (us_Prompt req)
             (clock w) in
  let d := (UpdateShotByID (clock w) projectID shotID (us_Title req)
              (us_Prompt req) (us_Transition req) (db w)).1 in
  resp_code (UpdateShot aenv projectID shotID (Ok req) w).2 = StatusOK ∧
  (UpdateShot aenv projectID shotID (Ok req) w).1 =
    EnqueueTask (api_uuid aenv 0)
      (set_db (set_task_table
                 (insert (api_uuid aenv 0) (insertedRow (clock w) t)))
         (set_db (fun _ => d) w)).
Proof.
  intros Hnull Hrow Hproj Hfresh Henq t d.
  destruct (UpdateShotByID_row (clock w) projectID shotID req (db w) row
              Hrow Hproj) as (Herr & _ & _ & Htasks).
  fold d in Htasks.
  unfold UpdateShot, GetShotByID. rewrite Hrow. rewrite decide_True by done.
  unfold cancelProcessingTasks. rewrite (selectedIds_ByShot_null shotID w Hnull).
  cbn [foldl]. fold d.
  destruct (UpdateShotByID _ _ _ _ _ _ _) as [d0 err] eqn:Hupd.
  cbn [fst snd] in *. subst err. subst d.
  change (clock (set_db (fun _ => d0) w)) with (clock w). fold t.
  assert (Hfresh' : task_table (db (set_db (fun _ => d0) w)) !! Task_ID t = None).
  { cbn. by rewrite Htasks. }
  rewrite (createTask_fresh t _ Hfresh'). unfold tryEnqueue.
  cbn [Task_ID t regenerateTask]. by rewrite Henq.
Qed.

(** X21. What an accepted [UpdateShot] does.  For a shot of the project,
    a fresh task id and a queue that takes it, on a task table whose
    shot_id column is [NULL] throughout: the answer is 200; no task is
    cancelled and every other task row, the registry and the cancelled
    contexts are untouched; the shot keeps the value of each field the
    request leaves empty; the new pending shot-image task is enqueued, and
    its prompt is the request's, also when that is empty and the shot kept
    its stored prompt. *)
Theorem X21_update_shot_request (aenv : ApiEnv) (projectID shotID : string)
    (req : UpdateShotReq) (w : World) (row : ShotRow) :
  nullShotIds w ->
  shot_table (db w) !! shotID = Some row ->
  Shot_ProjectId (shot_fields row) = projectID ->
  task_table (db w) !! api_uuid aenv 0 = None ->
  api_enqueue aenv (api_uuid aenv 0) = None ->
  let w' := (UpdateShot aenv projectID shotID (Ok req) w).1 in
  let tid := api_uuid aenv 0 in
  resp_code (UpdateShot aenv projectID shotID (Ok req) w).2 = StatusOK ∧
  queue w' = (queue w ++ [tid])%list ∧
  taskRow w' tid =
    Some (insertedRow (clock w)
            (regenerateTask tid projectID shotID (us_Prompt req) (clock w))) ∧
  (∀ k, k ≠ tid -> taskRow w' k = taskRow w k) ∧
  (pollCancelRegistry w' = pollCancelRegistry w ∧ cancelled w' = cancelled w) ∧
  (fun r => (Shot_Title (shot_fields r), Shot_Prompt (shot_fields r),
             Shot_Transition (shot_fields r), Shot_ImagePath (shot_fields r),
             Shot_Status (shot_fields r))) <$> shot_table (db w') !! shotID =
    Some (if decide (us_Title req = "") then Shot_Title (shot_fields row)
          else us_Title req,
          if decide (us_Prompt req = "") then Shot_Prompt (shot_fields row)
          else us_Prompt req,
          if decide (us_Transition req = "")
          then Shot_Transition (shot_fields row) else us_Transition req,
          Shot_ImagePath (shot_fields row), Shot_Status (shot_fields row)) ∧
  (∀ k, k ≠ shotID -> shot_table (db w') !! k = shot_table (db w) !! k).
Proof.
  intros Hnull Hrow Hproj Hfresh Henq w' tid.
  destruct (UpdateShot_accepted aenv projectID shotID req w row Hnull Hrow
              Hproj Hfresh Henq) as [Hcode Hw']. fold w' in Hw'.
  destruct (UpdateShotByID_row (clock w) projectID shotID req (db w) row
              Hrow Hproj) as (_ & Hshot & Hothers & Htasks).
  destruct (editedRow_fields (clock w) req row)
    as (_ & _ & Ht & Hp & Htr & Hi & Hs & _).
  split; [done|]. rewrite Hw'. unfold taskRow.
  cbn [db queue EnqueueTask set_db set_task_table task_table shot_table
       pollCancelRegistry cancelled].
  split; [done|]. split; [apply lookup_insert_eq|].
  split; [intros k Hk; by rewrite lookup_insert_ne, Htasks|].
  split; [done|]. split; [|exact Hothers].
  rewrite Hshot. cbn [fmap option_fmap option_map].
  by rewrite Ht, Hp, Htr, Hi, Hs.
Qed.

(** X22. From [UpdateShot] to the regenerated image.  After an accepted
    [UpdateShot], the handler run on the new task reaches the shot through
    the [Shot] parameters (the record's own shot id is empty): when the
    worker succeeds and the image is stored as "shots/<shot id>/image.png",
    the handler returns [nil], the task is finished with the worker's
    result, and the shot carries the stored image, the status completed
    and the fields the request edited. *)
Theorem X22_update_shot_regenerates_image (aenv : ApiEnv) (henv : HandlerEnv)
    (projectID shotID : string) (req : UpdateShotReq) (w : World)
    (row : ShotRow) (jobID : string) (raw : RawJob) (url : string) :
  nullShotIds w ->
  shot_table (db w) !! shotID = Some row ->
  Shot_ProjectId (shot_fields row) = projectID ->
  Shot_ID (shot_fields row) = shotID ->
  shotID ≠ "" ->
  api_uuid aenv 0 ≠ "" ->
  task_table (db w) !! api_uuid aenv 0 = None ->
  api_enqueue aenv (api_uuid aenv 0) = None ->
  next_ctx w ∉ cancelled w ->
  oneShot henv jobID raw ->
  reportsSuccess raw ->
  ResourceUrl (raw_Result raw) ≠ "" ->
  stored (env_route henv) (ResourceUrl (raw_Result raw))
    ("shots/" +:+ shotID +:+ "/image.png") url ->
  let w' := (UpdateShot aenv projectID shotID (Ok req) w).1 in
  let tid := api_uuid aenv 0 in
  (HandleGenerateTask henv (Ok tid) w').2 = Returned None ∧
  (fun r => (row_status r, row_result r)) <$>
    taskRow (HandleGenerateTask henv (Ok tid) w').1 tid =
    Some (TaskStatusSuccess, raw_Result raw) ∧
  (fun r => (Shot_ImagePath (shot_fields r), Shot_Status (shot_fields r),
             Shot_Title (shot_fields r), Shot_Prompt (shot_fields r),
             Shot_Transition (shot_fields r))) <$>
    shot_table (db (HandleGenerateTask henv (Ok tid) w').1) !! shotID =
    Some (url, ShotStatusCompleted,
          if decide (us_Title req = "") then Shot_Title (shot_fields row)
          else us_Title req,
          if decide (us_Prompt req = "") then Shot_Prompt (shot_fields row)
          else us_Prompt req,
          if decide (us_Transition req = "")
          then Shot_Transition (shot_fields row) else us_Transition req).
Proof.
  intros Hnull Hrow Hproj Hkey Hsne Hne Hfresh Henq Hlive Hone Hok Hurl Hst
    w' tid.
  destruct (UpdateShot_accepted aenv projectID shotID req w row Hnull Hrow
              Hproj Hfresh Henq) as [_ Hw']. fold w' in Hw'.
  destruct (UpdateShotByID_row (clock w) projectID shotID req (db w) row
              Hrow Hproj) as (_ & Hshot & _ & _).
  destruct (editedRow_fields (clock w) req row)
    as (Hk & _ & Ht & Hp & Htr & _ & _ & _).
  set (t := regenerateTask tid projectID shotID (us_Prompt req) (clock w)) in *.
  assert (Hrowt : taskRow w' (Task_ID t) = Some (insertedRow (clock w) t)).
  { rewrite Hw'. unfold taskRow. cbn. apply lookup_insert_eq. }
  assert (Hshot' : shot_table (db w') !! shotID =
                   Some (editedRow (clock w) req row)).
  { rewrite Hw'. exact Hshot. }
  assert (Hclock : clock w' = clock w) by (by rewrite Hw').
  assert (Hlive' : next_ctx w' ∉ cancelled w') by (by rewrite Hw').
  destruct (GetTaskByIDGorm_inserted t w w' Hrowt)
    as (task & Hget & Hid & Hty & Hsid & Hpar & _).
  change (Task_ID t) with tid in *.
  assert (Hnc : Task_Type task ≠ "create_project") by (by rewrite Hty).
  assert (Hpre : dispatchPrecheck task (db w') = None).
  { unfold dispatchPrecheck. rewrite Hty, Hpar.
    cbn [t regenerateTask Task_Type Task_Parameters Shot].
    unfold TaskTypeVideoGen, TaskTypeStoryboard, TaskTypeShotImage,
      TaskTypeProjectAudio.
    repeat case_decide; try done; destruct_or?; try discriminate; tauto. }
  destruct (shot_table_startPoll task jobID w') as [Hsp Hcp].
  assert (Hroute : routeResult (env_route henv) task (raw_Result raw)
                     (startPoll task jobID w') =
            (set_db (set_shot_table
               (alter (fun r0 =>
                         {| shot_fields :=
                              withImage (clock w) url (shot_fields r0);
                            shot_video_url := shot_video_url r0 |}) shotID))
               (startPoll task jobID w'), None)).
  { unfold routeResult. rewrite Hty. cbn [t regenerateTask Task_Type].
    rewrite decide_False by done. rewrite decide_True by (by left).
    rewrite (resultShotId_empty task Hsid), Hpar.
    cbn [t regenerateTask Task_Parameters Shot SP_ShotId].
    rewrite (handleImageResult_stored _ shotID url _ _
               (editedRow (clock w) req row)); try done.
    - by rewrite Hcp, Hclock.
    - by rewrite Hsp.
    - by rewrite Hk. }
  rewrite (HandleGenerateTask_succeeded henv tid w' _ task jobID raw
             Hget Hnc Hpre Hone Hlive' Hok Hroute).
  cbn [fst snd]. split; [done|]. split.
  - by apply (taskRow_succeeded tid w' _ task jobID _ _ Hid Hne Hrowt).
  - assert (Hfin : ∀ wr, shot_table (db (UnregisterPollCancel (Task_ID task)
                     (updateStatus task TaskStatusSuccess
                        (Some (raw_Result raw)) "" wr))) = shot_table (db wr)).
    { intros wr. unfold updateStatus, UpdateStatus. cbn.
      by destruct (decide (Task_ID task = "")). }
    rewrite Hfin. cbn [db set_db set_shot_table shot_table].
    rewrite lookup_alter_eq, Hsp, Hshot'.
    cbn [fmap option_fmap option_map withImage shot_fields Shot_ImagePath
         Shot_Status Shot_Title Shot_Prompt Shot_Transition].
    by rewrite Ht, Hp, Htr.
Qed.

Lemma createShotTasks_fresh (env : ApiEnv) (projectID textTaskID : string)
    (n : nat) :
  ∀ (i : nat) (acc : list string) (w : World),
    NoDup (api_uuid env <$> seq (2 + i) n) ->
    (∀ j, (j < n)%nat -> task_table (db w) !! api_uuid env (2 + i + j) = None) ->
    let r := createShotTasks env projectID textTaskID n i acc w in
    r.2 = (acc ++ (api_uuid env <$> seq (2 + i) n))%list ∧
    (queue r.1 = queue w ∧ clock r.1 = clock w ∧
     project_table (db r.1) = project_table (db w) ∧
     shot_table (db r.1) = shot_table (db w)) ∧
    (∀ j, (j < n)%nat ->
          task_table (db r.1) !! api_uuid env (2 + i + j) =
            Some (insertedRow (clock w)
                    (blockedShotTask (api_uuid env (2 + i + j)) projectID
                       textTaskID (clock w)))) ∧
    (∀ k, k ∉ api_uuid env <$> seq (2 + i) n ->
          task_table (db r.1) !! k = task_table (db w) !! k).
Proof.
  induction n as [|n IH]; intros i acc w Hnd Hfresh; cbn zeta.
  { cbn. rewrite app_nil_r. repeat split; try done. intros j Hj. lia. }
  cbn [createShotTasks].
  set (t := blockedShotTask (api_uuid env (2 + i)) projectID textTaskID (clock w)).
  assert (Hf0 : task_table (db w) !! Task_ID t = None).
  { cbn [t blockedShotTask Task_ID]. specialize (Hfresh 0%nat ltac:(lia)).
    by rewrite Nat.add_0_r in Hfresh. }
  rewrite (createTask_fresh t w Hf0).
  set (w1 := set_db (set_task_table
                       (insert (Task_ID t) (insertedRow (clock w) t))) w).
  cbn [seq fmap list_fmap] in Hnd |- *.
  change (list_fmap _ _ (api_uuid env) (seq (S (2 + i)) n))
    with (api_uuid env <$> seq (2 + S i) n) in *.
  apply NoDup_cons in Hnd as [Hhead Htail].
  assert (Hfresh1 : ∀ j, (j < n)%nat ->
            task_table (db w1) !! api_uuid env (2 + S i + j) = None).
  { intros j Hj. cbn [w1 db set_db set_task_table task_table].
    rewrite lookup_insert_ne.
    - replace (2 + S i + j)%nat with (2 + i + S j)%nat by lia.
      apply Hfresh. lia.
    - cbn [t blockedShotTask Task_ID]. intros Heq. apply Hhead.
      rewrite Heq. apply list_elem_of_fmap. exists (2 + S i + j)%nat.
      split; [done|]. apply elem_of_seq. lia. }
  destruct (IH (S i) (acc ++ [Task_ID t])%list w1 Htail Hfresh1)
    as (Hids & (Hq & Hc & Hp & Hs) & Hrows & Hothers).
  split; [|split; [|split]].
  - rewrite Hids. by rewrite <- app_assoc.
  - by rewrite Hq, Hc, Hp, Hs.
  - intros [|j] Hj.
    + rewrite Nat.add_0_r. rewrite Hothers by exact Hhead.
      cbn [w1 db set_db set_task_table task_table].
      cbn [t blockedShotTask Task_ID]. apply lookup_insert_eq.
    + replace (2 + i + S j)%nat with (2 + S i + j)%nat by lia.
      apply Hrows. lia.
  - intros k Hk. apply not_elem_of_cons in Hk as [Hk0 Hk].
    rewrite Hothers by exact Hk.
    cbn [w1 db set_db set_task_table task_table].
    apply lookup_insert_ne. cbn [t blockedShotTask Task_ID]. congruence.
Qed.

(** X23. What [CreateProject] leaves behind.  With fresh, pairwise
    distinct ids it answers 200 and has inserted the project, one pending
    storyboard task and one blocked shot-image task per shot, each naming
    the storyboard task as its only dependency; the number of shots is the
    request's count, or 5 when that is not positive.  Only the storyboard
    task is handed to the queue (not even that one when the queue refuses
    it, and the answer is 200 all the same); no other task row changes. *)
Theorem X23_create_project_request (env : ApiEnv) (req : CreateProjectReq)
    (w : World) :
  api_uuid env 0 ∉ project_table (db w) ->
  NoDup (api_uuid env <$> seq 1 (S (Z.to_nat (shotCountOf req)))) ->
  (∀ j, (j <= Z.to_nat (shotCountOf req))%nat ->
        task_table (db w) !! api_uuid env (1 + j) = None) ->
  let w' := (CreateProject env (Ok req) w).1 in
  let n := Z.to_nat (shotCountOf req) in
  (CreateProject env (Ok req) w).2 =
    {| resp_code := StatusOK;
       resp_body :=
         [("project_id", JString (api_uuid env 0));
          ("text_task_id", JString (api_uuid env 1));
          ("shot_task_ids", stringSlice (api_uuid env <$> seq 2 n))] |} ∧
  api_uuid env 0 ∈ project_table (db w') ∧
  taskRow w' (api_uuid env 1) =
    Some (insertedRow (clock w)
            (textTaskOf (api_uuid env 1) (api_uuid env 0) (clock w) req
               (shotCountOf req))) ∧
  (∀ j, (j < n)%nat ->
        taskRow w' (api_uuid env (2 + j)) =
          Some (insertedRow (clock w)
                  (blockedShotTask (api_uuid env (2 + j)) (api_uuid env 0)
                     (api_uuid env 1) (clock w)))) ∧
  queue w' = match api_enqueue env (api_uuid env 1) with
             | Some _ => queue w
             | None => (queue w ++ [api_uuid env 1])%list
             end ∧
  (∀ k, k ∉ api_uuid env <$> seq 1 (S n) -> taskRow w' k = taskRow w k).
Proof.
  intros Hproj Hnd Hfresh w' n. subst w'. fold n in Hnd, Hfresh.
  unfold CreateProject, dbgo.CreateProject. fold (shotCountOf req). fold n.
  cbn [Project_ID]. rewrite decide_False by exact Hproj.
  set (d := {| task_table := task_table (db w); shot_table := shot_table (db w);
               project_table := {[api_uuid env 0]} ∪ project_table (db w);
               sql_log := sql_log (db w) |}).
  set (w1 := set_db (fun _ => d) w).
  change (clock w1) with (clock w).
  set (t := textTaskOf (api_uuid env 1) (api_uuid env 0) (clock w) req
              (shotCountOf req)).
  assert (Hf1 : task_table (db w1) !! Task_ID t = None).
  { specialize (Hfresh 0%nat ltac:(lia)). exact Hfresh. }
  rewrite (createTask_fresh t w1 Hf1).
  set (w2 := set_db (set_task_table
                       (insert (Task_ID t) (insertedRow (clock w1) t))) w1).
  set (w3 := (tryEnqueue env (Task_ID t) w2).1).
  cbn [seq fmap list_fmap] in Hnd.
  change (list_fmap _ _ (api_uuid env) (seq 2 n))
    with (api_uuid env <$> seq (2 + 0) n) in Hnd.
  apply NoDup_cons in Hnd as [Hhead Htail].
  assert (Hdb3 : db w3 = db w2 ∧ clock w3 = clock w ∧
                 queue w3 = match api_enqueue env (api_uuid env 1) with
                            | Some _ => queue w
                            | None => (queue w ++ [api_uuid env 1])%list
                            end).
  { subst w3. unfold tryEnqueue. cbn [t textTaskOf Task_ID].
    by destruct (api_enqueue env (api_uuid env 1)). }
  destruct Hdb3 as (Hdb3 & Hc3 & Hq3).
  assert (Hfresh3 : ∀ j, (j < n)%nat ->
            task_table (db w3) !! api_uuid env (2 + 0 + j) = None).
  { intros j Hj. rewrite Hdb3.
    cbn [w2 w1 d db set_db set_task_table task_table].
    rewrite lookup_insert_ne.
    - apply (Hfresh (S j)). lia.
    - cbn [t textTaskOf Task_ID]. intros Heq. apply Hhead.
      rewrite Heq. apply list_elem_of_fmap. exists (2 + 0 + j)%nat.
      split; [done|]. apply elem_of_seq. lia. }
  pose proof (createShotTasks_fresh env (api_uuid env 0) (Task_ID t) n 0 []
                w3 Htail Hfresh3) as Hloop.
  cbn zeta in Hloop.
  destruct (createShotTasks env (api_uuid env 0) (Task_ID t) n 0 [] w3)
    as [w4 ids].
  cbn [fst snd] in Hloop |- *.
  destruct Hloop as (Hids & (Hq & Hc & Hp & Hs) & Hrows & Hothers).
  rewrite Hc3 in Hrows. cbn [app] in Hids. subst ids.
  unfold taskRow.
  split; [done|]. split.
  { rewrite Hp, Hdb3. cbn. apply elem_of_union_l. by apply elem_of_singleton. }
  split.
  { rewrite Hothers by exact Hhead. rewrite Hdb3.
    cbn [w2 w1 d db set_db set_task_table task_table]. apply lookup_insert_eq. }
  split; [exact Hrows|]. split; [by rewrite Hq|].
  intros k Hk. cbn [seq fmap list_fmap] in Hk.
  apply not_elem_of_cons in Hk as [Hk1 Hk].
  rewrite Hothers by exact Hk. rewrite Hdb3.
  cbn [w2 w1 d db set_db set_task_table task_table].
  by apply lookup_insert_ne.
Qed.

End Requests.

(** ** The progress socket and the shot reader *)

Section Readers.
Import models service api dbgo handlers Spec Spec2.

Lemma wsLoop_closed (taskID : string) (ticks : list WsTick) :
  ∀ (prevStatus : string) (prevProgress : Z),
    (wsLoop taskID prevStatus prevProgress ticks).2 = true ->
    ∃ tk cur, tk ∈ ticks ∧ GetTaskByID taskID (ws_db tk) = Ok cur ∧
              (ws_pushOk tk = false ∨ Task_Status cur = "finished" ∨
               Task_Status cur = "failed").
Proof.
  induction ticks as [|tk rest IH]; intros prevStatus prevProgress; [done|].
  cbn [wsLoop].
  destruct (GetTaskByID taskID (ws_db tk)) as [cur|e] eqn:Hget.
  - destruct (bool_decide _ && negb (ws_pushOk tk)) eqn:Hbreak.
    { intros _. exists tk, cur. split; [apply list_elem_of_here|].
      split; [done|]. left. apply andb_true_iff in Hbreak as [_ Hpush].
      by apply negb_true_iff. }
    destruct (decide (Task_Status cur = "finished" ∨ Task_Status cur = "failed"))
      as [Hterm|Hterm].
    { intros _. exists tk, cur. split; [apply list_elem_of_here|].
      split; [done|]. by right. }
    destruct (wsLoop taskID _ _ rest) as [frames closed] eqn:Hrest.
    cbn [snd]. intros ->.
    apply (f_equal snd) in Hrest.
    destruct (IH _ _ Hrest) as (tk' & cur' & Hin & Hget' & Hwhy).
    exists tk', cur'. split; [by apply list_elem_of_further|done].
  - intros Hclosed. destruct (IH _ _ Hclosed) as (tk' & cur' & Hin & Hget' & Hwhy).
    exists tk', cur'. split; [by apply list_elem_of_further|done].
Qed.

(** X24. The progress socket is closed by the server only for three
    reasons: the task does not exist when the client connects, a write of
    a changed task fails, or a tick reads the status "finished" or
    "failed".  No other status closes it; a task that ends cancelled keeps
    its socket open. *)
Theorem X24_socket_closes_only_on_finished_or_failed (taskID : string)
    (d0 : DB) (firstOk : bool) (ticks : list WsTick) :
  (TaskProgressWebSocket taskID d0 firstOk ticks).2 = true ->
  GetTaskByID taskID d0 = Fail ErrNoRows ∨
  ∃ tk cur, tk ∈ ticks ∧ GetTaskByID taskID (ws_db tk) = Ok cur ∧
            (ws_pushOk tk = false ∨ Task_Status cur = "finished" ∨
             Task_Status cur = "failed").
Proof.
  unfold TaskProgressWebSocket.
  destruct (GetTaskByID taskID d0) as [t|e] eqn:Hget.
  - destruct (wsLoop taskID _ _ ticks) as [frames closed] eqn:Hloop.
    cbn [snd]. intros ->. right.
    apply (wsLoop_closed taskID ticks (Task_Status t) (Task_Progress t)).
    by rewrite Hloop.
  - intros _. left. unfold GetTaskByID in Hget.
    destruct (task_table d0 !! taskID); [done|]. done.
Qed.

Lemma wsLoop_silent (taskID : string) (prevStatus : string) (prevProgress : Z)
    (ticks : list WsTick) :
  prevStatus ≠ "finished" -> prevStatus ≠ "failed" ->
  Forall (fun tk => ∀ cur, GetTaskByID taskID (ws_db tk) = Ok cur ->
                           Task_Status cur = prevStatus ∧
                           Task_Progress cur = prevProgress) ticks ->
  wsLoop taskID prevStatus prevProgress ticks = ([], false).
Proof.
  intros Hfin Hfail. induction 1 as [|tk rest Hsame _ IH]; [done|].
  cbn [wsLoop]. destruct (GetTaskByID taskID (ws_db tk)) as [cur|e]; [|done].
  destruct (Hsame cur eq_refl) as [Hs Hp].
  rewrite bool_decide_eq_false_2 by (rewrite Hs, Hp; tauto).
  cbn [andb]. rewrite decide_False by (rewrite Hs; tauto).
  by rewrite IH.
Qed.

(** X25. The socket pushes only changes of status and progress.  While
    every tick reads the status and the progress the task had when the
    client connected, and that status is neither "finished" nor "failed",
    the client receives the first frame and nothing more, whatever happens
    to the message, the result and the error of the task, and the socket
    stays open. *)
Theorem X25_socket_pushes_status_and_progress_only (taskID : string)
    (d0 : DB) (firstOk : bool) (ticks : list WsTick) (t : Task) :
  GetTaskByID taskID d0 = Ok t ->
  Task_Status t ≠ "finished" -> Task_Status t ≠ "failed" ->
  Forall (fun tk => ∀ cur, GetTaskByID taskID (ws_db tk) = Ok cur ->
                           Task_Status cur = Task_Status t ∧
                           Task_Progress cur = Task_Progress t) ticks ->
  TaskProgressWebSocket taskID d0 firstOk ticks =
    (if firstOk then [TaskFrame t] else [], false).
Proof.
  intros Hget Hfin Hfail Hsame. unfold TaskProgressWebSocket. rewrite Hget.
  rewrite (wsLoop_silent taskID _ _ ticks Hfin Hfail Hsame).
  by rewrite app_nil_r.
Qed.

(** X26. The audio path is written but not read back by [GetShotByID].
    After the audio branch has attached a stored audio file to a shot, the
    row's audio_path holds the url and [GetShotByIDGorm] returns it, but
    [GetShotByID], whose [SELECT] leaves the column out, returns the shot
    with an empty audio path (the other fields are the row's). *)
Theorem X26_audio_path_not_read_back (env : RouteEnv) (projectID sid : string)
    (url : string) (r : TaskResult) (w : World) (row : ShotRow) :
  shot_table (db w) !! sid = Some row ->
  Shot_ProjectId (shot_fields row) = projectID ->
  ResourceUrl r ≠ "" ->
  stored env (ResourceUrl r) ("shots/" +:+ sid +:+ "/audio.mp3") url ->
  let w' := (handleTTSResult env sid r w).1 in
  (handleTTSResult env sid r w).2 = None ∧
  (∃ s, GetShotByIDGorm (db w') sid = Ok s ∧ Shot_AudioPath s = url) ∧
  (∃ s, GetShotByID projectID sid (db w') = Ok s ∧ Shot_AudioPath s = "" ∧
        Shot_ImagePath s = Shot_ImagePath (shot_fields row) ∧
        Shot_Title s = Shot_Title (shot_fields row)).
Proof.
  intros Hrow Hproj Hurl Hst w'. subst w'. unfold handleTTSResult.
  change (sprintfShotObject sid "audio.mp3")
    with ("shots/" +:+ sid +:+ "/audio.mp3").
  rewrite (processResourceToMinIO_stored env r _ url Hurl Hst).
  cbn [fst snd]. split; [done|].
  unfold GetShotByIDGorm, GetShotByID.
  cbn [db set_db set_shot_table shot_table].
  rewrite lookup_alter_eq, Hrow. cbn [fmap option_fmap option_map].
  split; [by eexists|].
  cbn [withAudio shot_fields Shot_ProjectId]. rewrite decide_True by done.
  by eexists.
Qed.

End Readers.

(** ** The further properties at concrete runs *)

Section Instances2.
Import models service api dbgo handlers Scenario Spec Spec2 Scenario2.

Lemma nullShotIds_w1 : nullShotIds w1.
Proof.
  apply (bool_decide_unpack
           (map_Forall (fun _ row => row_shot_id row = None) (task_table (db w1)))).
  vm_compute. exact I.
Qed.

Lemma nullShotIds_wShots : nullShotIds wShots.
Proof.
  apply (bool_decide_unpack
           (map_Forall (fun _ row => row_shot_id row = None)
              (task_table (db wShots)))).
  vm_compute. exact I.
Qed.

Lemma oneShot_accepted (script : list PollItem) (raw : RawJob) :
  oneShot {| env_post := accepted;
             env_script := Select (CaseTick (Parsed raw)) :: script;
             env_route := route1 |} "job-1" raw.
Proof.
  split; [|by exists script].
  exists 202, {["id" := JString "job-1"]}.
  split; [reflexivity|]. split; [tauto|]. apply lookup_singleton_eq.
Qed.

Lemma stored_route1 (url file : string) :
  stored route1 url file ("http://minio/" +:+ file).
Proof. by split. Qed.

(** X2 at two contexts registered for the storyboard task. *)
Lemma X2_register_evicts_silently_demo :
  (0%nat ∉ cancelled w0) ∧
  1%nat ∈ cancelled
    (CancelPollTask "T"
       (RegisterPollCancel "T" 1%nat (RegisterPollCancel "T" 0%nat w0))).1 ∧
  (0%nat ∉ cancelled
     (CancelPollTask "T"
        (RegisterPollCancel "T" 1%nat (RegisterPollCancel "T" 0%nat w0))).1).
Proof.
  assert (Hne : 0%nat ≠ 1%nat) by lia.
  assert (Hc : 0%nat ∉ cancelled w0) by apply not_elem_of_empty.
  destruct (X2_register_evicts_silently "T" 0%nat 1%nat w0 Hne Hc)
    as (_ & _ & H2 & H1 & _).
  split; [exact Hc|]. split; [exact H2|exact H1].
Defined.

(** X4 at a failed round trip and a job that is still running. *)
Lemma X4_poll_ends_only_on_deadline_demo :
  pollJobResult (H := demoParser) 0%nat false
    ([Select (CaseTick DoFailed);
      Select (CaseTick (Parsed (rawJob "running" "" None)))] ++
     [Select CaseTimeout]) w0 =
    (w0, Some (Fail (Errorf "polling timeout"))).
Proof.
  assert (Hq : Forall (@quiet demoParser)
                 [Select (CaseTick DoFailed);
                  Select (CaseTick (Parsed (rawJob "running" "" None)))]).
  { repeat constructor; eexists; (split; [reflexivity|vm_compute; reflexivity]). }
  exact (proj2 (@X4_poll_ends_only_on_deadline demoParser 0%nat false _ [] w0 Hq)).
Defined.

(** X5 at a handler context that is done although the job succeeded. *)
Lemma X5_cancelled_poll_never_succeeds_demo :
  pollJobResult (H := demoParser) 0%nat true
    [Select (CaseTick (Parsed (rawJob "succeeded" "" None)));
     Select (CaseCtxDone "context canceled")] w0 =
    (w0, Some (Fail (Errorf "polling canceled: context canceled"))) ∧
  (@Fail TaskResult (Errorf "polling canceled: context canceled") =
     Fail (Errorf "polling timeout") ∨
   ∃ ctxErr, @Fail TaskResult (Errorf "polling canceled: context canceled") =
             Fail (Errorf ("polling canceled: " +:+ ctxErr))).
Proof.
  assert (Hrun : pollJobResult (H := demoParser) 0%nat true
            [Select (CaseTick (Parsed (rawJob "succeeded" "" None)));
             Select (CaseCtxDone "context canceled")] w0 =
            (w0, Some (Fail (Errorf "polling canceled: context canceled"))))
    by reflexivity.
  split; [exact Hrun|].
  exact (@X5_cancelled_poll_never_succeeds demoParser 0%nat _ true w0 w0 _
           (or_introl eq_refl) Hrun).
Defined.

(** X6 at the storyboard task and a worker that reports "failed". *)
Lemma X6_worker_failure_marks_failed_demo :
  (@HandleGenerateTask demoParser envFailed (Ok "T") w1).2 = Returned None ∧
  (fun r => (row_status r, row_error r, row_result r)) <$>
    taskRow (@HandleGenerateTask demoParser envFailed (Ok "T") w1).1 "T" =
    Some (TaskStatusFailed,
          Some "Job Failed: worker reported failure: out of memory",
          jobResult "job-1").
Proof.
  assert (Hid : "T" ≠ "") by discriminate.
  assert (Hget : GetTaskByIDGorm (db w1) "T" = Ok (loaded w1 "T"))
    by (vm_compute; reflexivity).
  assert (Hty : Task_Type (loaded w1 "T") ≠ "create_project")
    by (vm_compute; discriminate).
  assert (Hpre : dispatchPrecheck (loaded w1 "T") (db w1) = None)
    by (vm_compute; reflexivity).
  assert (Hlive : next_ctx w1 ∉ cancelled w1) by apply not_elem_of_empty.
  destruct (@X6_worker_failure_marks_failed demoParser envFailed "T" w1
              (loaded w1 "T") "job-1" (rawJob "failed" "out of memory" None)
              Hid Hget Hty Hpre (oneShot_accepted [] _) Hlive
              (or_introl eq_refl)) as (Hret & Hrow & _).
  split; [exact Hret|exact Hrow].
Defined.

(** X7 at a task of type create_project. *)
Lemma X7_create_project_finishes_demo :
  (@HandleGenerateTask demoParser envRejected (Ok "I") wInit).2 =
    Returned None ∧
  (fun r => (row_status r, row_error r, row_result r, row_message r)) <$>
    taskRow (@HandleGenerateTask demoParser envRejected (Ok "I") wInit).1 "I" =
    Some (TaskStatusSuccess, Some "Project initialized", emptyResult,
          Some "init").
Proof.
  assert (Hid : "I" ≠ "") by discriminate.
  assert (Hrow : taskRow wInit "I" = Some (rowAt wInit "I"))
    by (vm_compute; reflexivity).
  assert (Hty : row_type (rowAt wInit "I") = "create_project")
    by (vm_compute; reflexivity).
  destruct (@X7_create_project_finishes demoParser envRejected "I" wInit
              (rowAt wInit "I") Hid Hrow Hty) as (Hret & Hfin & _).
  split; [exact Hret|exact Hfin].
Defined.

(** X8 at the storyboard task and a worker that succeeds. *)
Lemma X8_handler_unregisters_demo :
  (@HandleGenerateTask demoParser envSucceeded (Ok "T") w1).2 = Returned None ∧
  pollCancelRegistry (@HandleGenerateTask demoParser envSucceeded (Ok "T") w1).1
    !! "T" = None.
Proof.
  assert (Hget : GetTaskByIDGorm (db w1) "T" = Ok (loaded w1 "T"))
    by (vm_compute; reflexivity).
  assert (Hty : Task_Type (loaded w1 "T") ≠ "create_project")
    by (vm_compute; discriminate).
  assert (Hd : dispatchWorkerRequest (env_post envSucceeded) (loaded w1 "T")
                 (db w1) = Ok "job-1") by (vm_compute; reflexivity).
  assert (Hret : (@HandleGenerateTask demoParser envSucceeded (Ok "T") w1).2 =
                 Returned None) by (vm_compute; reflexivity).
  split; [exact Hret|].
  exact (proj2 (@X8_handler_unregisters demoParser envSucceeded "T" w1
                  (loaded w1 "T") "job-1" None Hget Hty Hd Hret)).
Defined.

(** X9 at the storyboard task while its job runs. *)
Lemma X9_polling_task_is_registered_demo :
  (@HandleGenerateTask demoParser envPolling (Ok "T") w1).2 = StillPolling ∧
  pollCancelRegistry wPolling !! "T" = Some 0%nat ∧
  (CancelPollTask "T" wPolling).2 = true ∧
  0%nat ∈ cancelled (CancelPollTask "T" wPolling).1.
Proof.
  assert (Hget : GetTaskByIDGorm (db w1) "T" = Ok (loaded w1 "T"))
    by (vm_compute; reflexivity).
  assert (Hty : Task_Type (loaded w1 "T") ≠ "create_project")
    by (vm_compute; discriminate).
  assert (Hd : dispatchWorkerRequest (env_post envPolling) (loaded w1 "T")
                 (db w1) = Ok "job-1") by (vm_compute; reflexivity).
  assert (Hnot : Concurrent (ApiCancelPollTask "T") ∉ env_script envPolling).
  { intros Hin%list_elem_of_singleton. discriminate Hin. }
  assert (Hrun : (@HandleGenerateTask demoParser envPolling (Ok "T") w1).2 =
                 StillPolling) by (vm_compute; reflexivity).
  split; [exact Hrun|].
  exact (@X9_polling_task_is_registered demoParser envPolling "T" w1
           (loaded w1 "T") "job-1" Hget Hty Hd Hnot Hrun).
Defined.

(** X10 at a result without a resource url. *)
Lemma X10_empty_url_fails_routing_demo :
  ResourceUrl emptyResult = "" ∧
  ∃ e, routeResult route1 shotTask_S1 emptyResult w1 = (w1, Some e).
Proof.
  assert (Hurl : ResourceUrl emptyResult = "") by reflexivity.
  split; [exact Hurl|].
  exact (X10_empty_url_fails_routing route1 shotTask_S1 emptyResult w1 Hurl).
Defined.

(** X11 at a storyboard whose download is answered 404. *)
Lemma X11_routing_failure_changes_nothing_demo :
  (routeResult route404 textTask (raw_Result (rawJob "succeeded" "" None)) w1).2 =
    Some (Errorf ("下载分镜 JSON 状态码: " +:+ "404")) ∧
  (routeResult route404 textTask (raw_Result (rawJob "succeeded" "" None)) w1).1 =
    w1.
Proof.
  assert (He : (routeResult route404 textTask
                  (raw_Result (rawJob "succeeded" "" None)) w1).2 =
               Some (Errorf ("下载分镜 JSON 状态码: " +:+ "404")))
    by (vm_compute; reflexivity).
  split; [exact He|].
  exact (proj1 (X11_routing_failure_changes_nothing route404 textTask _ w1 _
                  He)).
Defined.

(** X12 at the storyboard of three entries. *)
Lemma X12_storyboard_creates_shots_demo :
  ∃ shots,
    storyboard_Decode route1 = Ok shots ∧ shots ≠ [] ∧
    task_table
      (db (handleStoryboardResult route1 "p1"
             (raw_Result (rawJob "succeeded" "" None)) w1).1) =
      task_table (db w1).
Proof.
  assert (Hrun : handleStoryboardResult route1 "p1"
                   (raw_Result (rawJob "succeeded" "" None)) w1 =
                 ((handleStoryboardResult route1 "p1"
                     (raw_Result (rawJob "succeeded" "" None)) w1).1, None))
    by (vm_compute; reflexivity).
  destruct (X12_storyboard_creates_shots route1 "p1" _ w1 _ Hrun)
    as (shots & Hdec & Hne & _ & _ & Htasks).
  exists shots. split; [exact Hdec|]. split; [exact Hne|exact Htasks].
Defined.

(** X13 at the first shot of the storyboard. *)
Lemma X13_image_is_attached_demo :
  shot_table (db wShots) !! "shot-0" = Some shot0 ∧
  (handleImageResult route1 "shot-0" (raw_Result (rawJob "succeeded" "" None))
     wShots).2 = None ∧
  shot_table
    (db (handleImageResult route1 "shot-0"
           (raw_Result (rawJob "succeeded" "" None)) wShots).1) !! "shot-0" =
    Some {| shot_fields :=
              {| Shot_ID := "shot-0"; Shot_ProjectId := "p1"; Shot_Order := 1;
                 Shot_Title := "a"; Shot_Description := ""; Shot_Prompt := "";
                 Shot_Status := ShotStatusCompleted;
                 Shot_ImagePath := "http://minio/shots/shot-0/image.png";
                 Shot_AudioPath := ""; Shot_Transition := "";
                 Shot_CreatedAt := 100; Shot_UpdatedAt := 100 |};
            shot_video_url := None |}.
Proof.
  assert (Hrow : shot_table (db wShots) !! "shot-0" = Some shot0)
    by (vm_compute; reflexivity).
  assert (Hkey : Shot_ID (shot_fields shot0) = "shot-0")
    by (vm_compute; reflexivity).
  assert (Hne : "shot-0" ≠ "") by discriminate.
  assert (Hurl : ResourceUrl (raw_Result (rawJob "succeeded" "" None)) ≠ "")
    by discriminate.
  destruct (X13_image_is_attached route1 "shot-0" _ _ wShots shot0 Hrow Hkey
              Hne Hurl (stored_route1 _ _)) as (Hret & Hshot & _).
  split; [exact Hrow|]. split; [exact Hret|].
  rewrite Hshot. vm_compute. reflexivity.
Defined.

(** X14 at a shot id the project does not have. *)
Lemma X14_missing_shot_demo :
  shot_table (db wShots) !! "shot-7" = None ∧
  handleTTSResult route1 "shot-7" (raw_Result (rawJob "succeeded" "" None))
    wShots = (wShots, None) ∧
  handleImageResult route1 "shot-7" (raw_Result (rawJob "succeeded" "" None))
    wShots = (wShots, Some ErrRecordNotFound).
Proof.
  assert (Hnone : shot_table (db wShots) !! "shot-7" = None)
    by (vm_compute; reflexivity).
  assert (Hurl : ResourceUrl (raw_Result (rawJob "succeeded" "" None)) ≠ "")
    by discriminate.
  split; [exact Hnone|].
  exact (X14_missing_shot route1 "shot-7" _ _ _ wShots Hnone Hurl
           (stored_route1 _ _) (stored_route1 _ _)).
Defined.

(** X15 at the project with its four tasks. *)
Lemma X15_pass_by_shot_selects_nothing_demo :
  cancelProcessingTasks (ByShot "shot-0") "cancelled due to shot update" wShots =
    wShots.
Proof.
  exact (proj2 (X15_pass_by_shot_selects_nothing "shot-0"
                  "cancelled due to shot update" wShots nullShotIds_wShots)).
Defined.

(** X16 at the storyboard task while it is polled. *)
Lemma X16_pass_effect_demo :
  (fun r => (row_status r, row_message r, row_result r, row_error r)) <$>
    taskRow (cancelProcessingTasks (ByProject "p1")
               "cancelled due to project update" wPolling) "T" =
    Some (TaskStatusCancelled, Some "cancelled due to project update",
          jobResult "job-1", Some "") ∧
  pollCancelRegistry (cancelProcessingTasks (ByProject "p1")
                        "cancelled due to project update" wPolling) !! "T" =
    None.
Proof.
  assert (Hrow : taskRow wPolling "T" = Some (rowAt wPolling "T"))
    by (vm_compute; reflexivity).
  assert (Hsel : selects (ByProject "p1") (rowAt wPolling "T") = true)
    by (vm_compute; reflexivity).
  assert (Hres : row_result (rowAt wPolling "T") = jobResult "job-1")
    by (vm_compute; reflexivity).
  assert (Herr : row_error (rowAt wPolling "T") = Some "")
    by (vm_compute; reflexivity).
  pose proof (X16_pass_effect (ByProject "p1")
                "cancelled due to project update" "T" wPolling
                (rowAt wPolling "T") Hrow) as Hpass.
  rewrite Hsel, Hres, Herr in Hpass.
  destruct Hpass as (Hst & Hreg & _). split; [exact Hst|exact Hreg].
Defined.

(** X17 at the storyboard task, marked cancelled while it was polled
    (scenario E), and at the same task with its row deleted meanwhile. *)
Lemma X17_return_leaves_finished_or_failed_demo :
  row_status <$> taskRow wCancelled "T" = Some TaskStatusCancelled ∧
  row_status <$>
    taskRow (afterPoll envCancelled (loaded w1 "T")
               (Fail (Errorf "polling canceled: context canceled"))
               wCancelled).1 "T" = Some TaskStatusFailed ∧
  taskRow (afterPoll envCancelled (loaded w1 "T")
             (Fail (Errorf "polling canceled: context canceled")) w0).1 "T" =
    None.
Proof.
  assert (Hid : Task_ID (loaded w1 "T") ≠ "") by (vm_compute; discriminate).
  assert (Hcan : row_status <$> taskRow wCancelled "T" =
                 Some TaskStatusCancelled) by (vm_compute; reflexivity).
  pose proof (proj2 (X17_return_leaves_finished_or_failed
                       envCancelled (loaded w1 "T")
                       (Fail (Errorf "polling canceled: context canceled"))
                       wCancelled Hid)) as Hkept.
  pose proof (proj2 (X17_return_leaves_finished_or_failed
                       envCancelled (loaded w1 "T")
                       (Fail (Errorf "polling canceled: context canceled"))
                       w0 Hid)) as Hgone.
  assert (Hrow : taskRow wCancelled (Task_ID (loaded w1 "T")) =
                 Some (rowAt wCancelled "T")) by (vm_compute; reflexivity).
  assert (Hnone : taskRow w0 (Task_ID (loaded w1 "T")) = None)
    by (vm_compute; reflexivity).
  rewrite Hrow in Hkept. rewrite Hnone in Hgone.
  split; [exact Hcan|]. split; [exact Hkept|].
  destruct (taskRow (afterPoll envCancelled (loaded w1 "T")
                       (Fail (Errorf "polling canceled: context canceled"))
                       w0).1 (Task_ID (loaded w1 "T"))) eqn:Hfinal;
    [discriminate Hgone|exact Hfinal].
Defined.

Lemma live_wShots : next_ctx wShots ∉ cancelled wShots.
Proof. compute_done. Qed.

Lemma succeeded_reportsSuccess : reportsSuccess (rawJob "succeeded" "" None).
Proof. right. right. right. reflexivity. Qed.

(** X19 at a video request for the first shot of the storyboard. *)
Lemma X19_video_request_cannot_run_demo :
  resp_code (GenerateShotVideo demoApi "p1" videoReq wShots).2 = StatusOK ∧
  (@HandleGenerateTask demoParser envSucceeded (Ok (api_uuid demoApi 0))
     (GenerateShotVideo demoApi "p1" videoReq wShots).1).2 =
    Returned (Some (Errorf "shot not found")) ∧
  row_status <$>
    taskRow (@HandleGenerateTask demoParser envSucceeded
               (Ok (api_uuid demoApi 0))
               (GenerateShotVideo demoApi "p1" videoReq wShots).1).1
      (api_uuid demoApi 0) = Some TaskStatusFailed.
Proof.
  assert (Hid : api_uuid demoApi 0 ≠ "") by (vm_compute; discriminate).
  assert (Hempty : shot_table (db wShots) !! "" = None)
    by (vm_compute; reflexivity).
  assert (Hcode : resp_code (GenerateShotVideo demoApi "p1" videoReq wShots).2 =
                  StatusOK) by (vm_compute; reflexivity).
  destruct (@X19_video_request_cannot_run demoParser demoApi envSucceeded "p1"
              videoReq wShots Hid Hempty Hcode) as (_ & Hret & Hst).
  split; [exact Hcode|]. split; [exact Hret|exact Hst].
Defined.

(** X20 at an audio request for the project of the storyboard. *)
Lemma X20_project_audio_reaches_no_shot_demo :
  resp_code (GenerateProjectTTS demoApi "p1" wShots).2 = StatusOK ∧
  (@HandleGenerateTask demoParser envSucceeded (Ok (api_uuid demoApi 0))
     (GenerateProjectTTS demoApi "p1" wShots).1).2 = Returned None ∧
  (fun r => (row_status r, row_result r)) <$>
    taskRow (@HandleGenerateTask demoParser envSucceeded
               (Ok (api_uuid demoApi 0))
               (GenerateProjectTTS demoApi "p1" wShots).1).1
      (api_uuid demoApi 0) =
    Some (TaskStatusSuccess, raw_Result (rawJob "succeeded" "" None)) ∧
  shot_table
    (db (@HandleGenerateTask demoParser envSucceeded (Ok (api_uuid demoApi 0))
           (GenerateProjectTTS demoApi "p1" wShots).1).1) =
    shot_table (db wShots).
Proof.
  assert (Hid : api_uuid demoApi 0 ≠ "") by (vm_compute; discriminate).
  assert (Hcode : resp_code (GenerateProjectTTS demoApi "p1" wShots).2 =
                  StatusOK) by (vm_compute; reflexivity).
  assert (Hempty : shot_table (db wShots) !! "" = None)
    by (vm_compute; reflexivity).
  assert (Hurl : ResourceUrl (raw_Result (rawJob "succeeded" "" None)) ≠ "")
    by discriminate.
  destruct (@X20_project_audio_reaches_no_shot demoParser demoApi envSucceeded
              "p1" wShots "job-1" (rawJob "succeeded" "" None)
              "http://minio/shots//audio.mp3" Hcode Hid Hempty live_wShots
              (oneShot_accepted [] _) succeeded_reportsSuccess Hurl
              (stored_route1 _ _)) as (Hret & Hst & Hshots).
  split; [exact Hcode|]. split; [exact Hret|]. split; [exact Hst|exact Hshots].
Defined.

(** X21 at a request that renames the first shot of the storyboard. *)
Lemma X21_update_shot_request_demo :
  resp_code (UpdateShot demoApi "p1" "shot-0" (Ok titleReq) wShots).2 =
    StatusOK ∧
  queue (UpdateShot demoApi "p1" "shot-0" (Ok titleReq) wShots).1 =
    (queue wShots ++ [api_uuid demoApi 0])%list ∧
  (fun r => (Shot_Title (shot_fields r), Shot_Prompt (shot_fields r),
             Shot_Transition (shot_fields r), Shot_ImagePath (shot_fields r),
             Shot_Status (shot_fields r))) <$>
    shot_table (db (UpdateShot demoApi "p1" "shot-0" (Ok titleReq) wShots).1)
      !! "shot-0" =
    Some ("A new title", "", "", "", ShotStatusPending).
Proof.
  assert (Hrow : shot_table (db wShots) !! "shot-0" = Some shot0)
    by (vm_compute; reflexivity).
  assert (Hproj : Shot_ProjectId (shot_fields shot0) = "p1") by reflexivity.
  assert (Hfresh : task_table (db wShots) !! api_uuid demoApi 0 = None)
    by (vm_compute; reflexivity).
  assert (Henq : api_enqueue demoApi (api_uuid demoApi 0) = None)
    by reflexivity.
  destruct (X21_update_shot_request demoApi "p1" "shot-0" titleReq wShots shot0
              nullShotIds_wShots Hrow Hproj Hfresh Henq)
    as (Hcode & Hq & _ & _ & _ & Hshot & _).
  split; [exact Hcode|]. split; [exact Hq|exact Hshot].
Defined.

(** X22 at the same request, followed by the handler. *)
Lemma X22_update_shot_regenerates_image_demo :
  (@HandleGenerateTask demoParser envSucceeded (Ok (api_uuid demoApi 0))
     (UpdateShot demoApi "p1" "shot-0" (Ok titleReq) wShots).1).2 =
    Returned None ∧
  (fun r => (Shot_ImagePath (shot_fields r), Shot_Status (shot_fields r),
             Shot_Title (shot_fields r), Shot_Prompt (shot_fields r),
             Shot_Transition (shot_fields r))) <$>
    shot_table
      (db (@HandleGenerateTask demoParser envSucceeded
             (Ok (api_uuid demoApi 0))
             (UpdateShot demoApi "p1" "shot-0" (Ok titleReq) wShots).1).1)
      !! "shot-0" =
    Some ("http://minio/shots/shot-0/image.png", ShotStatusCompleted,
          "A new title", "", "").
Proof.
  assert (Hrow : shot_table (db wShots) !! "shot-0" = Some shot0)
    by (vm_compute; reflexivity).
  assert (Hproj : Shot_ProjectId (shot_fields shot0) = "p1") by reflexivity.
  assert (Hkey : Shot_ID (shot_fields shot0) = "shot-0")
    by (vm_compute; reflexivity).
  assert (Hsne : "shot-0" ≠ "") by discriminate.
  assert (Hid : api_uuid demoApi 0 ≠ "") by (vm_compute; discriminate).
  assert (Hfresh : task_table (db wShots) !! api_uuid demoApi 0 = None)
    by (vm_compute; reflexivity).
  assert (Henq : api_enqueue demoApi (api_uuid demoApi 0) = None)
    by reflexivity.
  assert (Hurl : ResourceUrl (raw_Result (rawJob "succeeded" "" None)) ≠ "")
    by discriminate.
  destruct (@X22_update_shot_regenerates_image demoParser demoApi envSucceeded
              "p1" "shot-0" titleReq wShots shot0 "job-1"
              (rawJob "succeeded" "" None)
              "http://minio/shots/shot-0/image.png"
              nullShotIds_wShots Hrow Hproj Hkey Hsne Hid Hfresh Henq
              live_wShots (oneShot_accepted [] _) succeeded_reportsSuccess
              Hurl (stored_route1 _ _)) as (Hret & _ & Hshot).
  split; [exact Hret|exact Hshot].
Defined.

(** X23 at a request that gives no shot count: five blocked tasks. *)
Lemma X23_create_project_request_demo :
  resp_code (CreateProject demoApi (Ok projectReq) w0).2 = StatusOK ∧
  queue (CreateProject demoApi (Ok projectReq) w0).1 = [api_uuid demoApi 1] ∧
  (row_status <$> taskRow (CreateProject demoApi (Ok projectReq) w0).1
                    (api_uuid demoApi 1) = Some TaskStatusPending) ∧
  ((fun r => (row_status r, DependsOn (row_parameters r))) <$>
     taskRow (CreateProject demoApi (Ok projectReq) w0).1 (api_uuid demoApi 2) =
     Some (TaskStatusBlocked, [api_uuid demoApi 1])) ∧
  ((fun r => (row_status r, DependsOn (row_parameters r))) <$>
     taskRow (CreateProject demoApi (Ok projectReq) w0).1 (api_uuid demoApi 6) =
     Some (TaskStatusBlocked, [api_uuid demoApi 1])) ∧
  taskRow (CreateProject demoApi (Ok projectReq) w0).1 (api_uuid demoApi 7) =
    None.
Proof.
  assert (Hproj : api_uuid demoApi 0 ∉ project_table (db w0)) by compute_done.
  assert (Hnd : NoDup (api_uuid demoApi <$>
                         seq 1 (S (Z.to_nat (shotCountOf projectReq)))))
    by compute_done.
  assert (Hfresh : ∀ j, (j <= Z.to_nat (shotCountOf projectReq))%nat ->
            task_table (db w0) !! api_uuid demoApi (1 + j) = None)
    by (intros j _; apply lookup_empty).
  assert (Hnew : api_uuid demoApi 7 ∉
                 api_uuid demoApi <$>
                   seq 1 (S (Z.to_nat (shotCountOf projectReq))))
    by compute_done.
  destruct (X23_create_project_request demoApi projectReq w0 Hproj Hnd Hfresh)
    as (Hresp & _ & Htext & Hshots & Hq & Hothers).
  split; [by rewrite Hresp|]. split; [exact Hq|].
  split; [by rewrite Htext|].
  pose proof (Hshots 0%nat ltac:(vm_compute; lia)) as Hfirst.
  pose proof (Hshots 4%nat ltac:(vm_compute; lia)) as Hlast.
  cbn [Nat.add] in Hfirst, Hlast.
  split; [by rewrite Hfirst|]. split; [by rewrite Hlast|].
  rewrite (Hothers _ Hnew). apply lookup_empty.
Defined.

(** X24 at a socket that sees the storyboard task processing and then
    finished. *)
Lemma X24_socket_closes_only_on_finished_or_failed_demo :
  (TaskProgressWebSocket "T" (db w1) true [sees wPolling; sees wShots]).2 =
    true ∧
  (GetTaskByID "T" (db w1) = Fail ErrNoRows ∨
   ∃ tk cur, tk ∈ [sees wPolling; sees wShots] ∧
             GetTaskByID "T" (ws_db tk) = Ok cur ∧
             (ws_pushOk tk = false ∨ Task_Status cur = "finished" ∨
              Task_Status cur = "failed")).
Proof.
  assert (Hclosed : (TaskProgressWebSocket "T" (db w1) true
                       [sees wPolling; sees wShots]).2 = true)
    by (vm_compute; reflexivity).
  split; [exact Hclosed|].
  exact (X24_socket_closes_only_on_finished_or_failed "T" (db w1) true
           [sees wPolling; sees wShots] Hclosed).
Defined.

(** X25 at a socket opened on the cancelled storyboard task, whose
    message is rewritten afterwards. *)
Lemma X25_socket_pushes_status_and_progress_only_demo :
  Task_Status (seen wCancelled "T") = TaskStatusCancelled ∧
  Task_Message (seen wCancelledAgain "T") ≠ Task_Message (seen wCancelled "T") ∧
  TaskProgressWebSocket "T" (db wCancelled) true
    [sees wCancelled; sees wCancelledAgain] =
    ([TaskFrame (seen wCancelled "T")], false).
Proof.
  assert (Hget : GetTaskByID "T" (db wCancelled) = Ok (seen wCancelled "T"))
    by (vm_compute; reflexivity).
  assert (Hget2 : GetTaskByID "T" (db wCancelledAgain) =
                  Ok (seen wCancelledAgain "T")) by (vm_compute; reflexivity).
  assert (Hst : Task_Status (seen wCancelled "T") = TaskStatusCancelled)
    by (vm_compute; reflexivity).
  assert (Hfin : Task_Status (seen wCancelled "T") ≠ "finished")
    by (vm_compute; discriminate).
  assert (Hfail : Task_Status (seen wCancelled "T") ≠ "failed")
    by (vm_compute; discriminate).
  assert (Hmsg : Task_Message (seen wCancelledAgain "T") ≠
                 Task_Message (seen wCancelled "T"))
    by (vm_compute; discriminate).
  assert (Hsame : Forall (fun tk => ∀ cur,
                     GetTaskByID "T" (ws_db tk) = Ok cur ->
                     Task_Status cur = Task_Status (seen wCancelled "T") ∧
                     Task_Progress cur = Task_Progress (seen wCancelled "T"))
                    [sees wCancelled; sees wCancelledAgain]).
  { constructor; [|constructor; [|constructor]]; intros cur Hcur;
      cbn [ws_db sees] in Hcur.
    - rewrite Hget in Hcur. injection Hcur as <-. by split.
    - rewrite Hget2 in Hcur. injection Hcur as <-.
      split; vm_compute; reflexivity. }
  split; [exact Hst|]. split; [exact Hmsg|].
  exact (X25_socket_pushes_status_and_progress_only "T" (db wCancelled) true
           [sees wCancelled; sees wCancelledAgain] (seen wCancelled "T")
           Hget Hfin Hfail Hsame).
Defined.

(** X26 at an audio file attached to the first shot of the storyboard. *)
Lemma X26_audio_path_not_read_back_demo :
  (∃ s, GetShotByIDGorm
          (db (handleTTSResult route1 "shot-0"
                 (raw_Result (rawJob "succeeded" "" None)) wShots).1) "shot-0" =
          Ok s ∧
        Shot_AudioPath s = "http://minio/shots/shot-0/audio.mp3") ∧
  (∃ s, GetShotByID "p1" "shot-0"
          (db (handleTTSResult route1 "shot-0"
                 (raw_Result (rawJob "succeeded" "" None)) wShots).1) = Ok s ∧
        Shot_AudioPath s = "").
Proof.
  assert (Hrow : shot_table (db wShots) !! "shot-0" = Some shot0)
    by (vm_compute; reflexivity).
  assert (Hproj : Shot_ProjectId (shot_fields shot0) = "p1") by reflexivity.
  assert (Hurl : ResourceUrl (raw_Result (rawJob "succeeded" "" None)) ≠ "")
    by discriminate.
  destruct (X26_audio_path_not_read_back route1 "p1" "shot-0"
              "http://minio/shots/shot-0/audio.mp3" _ wShots shot0 Hrow Hproj
              Hurl (stored_route1 _ _))
    as (_ & Hgorm & (s & Hs & Haudio & _)).
  split; [exact Hgorm|]. by exists s.
Defined.

End Instances2.
